(** * The backend health poller of varnishd

    A shallow embedding of [bin/varnishd/cache/cache_backend_poll.c]:
    the probe parameters and their defaults, the per-backend target
    record with its history bitmaps, one probe attempt ([vbp_poke]),
    the aggregation around it ([vbp_start_poke], [vbp_has_poked]), the
    dispatcher's scheduling step ([vbp_thread]), the control surface
    ([VBP_Init], [VBP_Insert], [VBP_Control], [VBP_Remove]) and the
    bitmap rows of the CLI ([vbp_bitmap]).

    Conventions.
    - [unsigned] is a [Z] reduced modulo [2^32], [uint64_t] modulo
      [2^64]; every C operation that can wrap is written with its
      reduction.
    - [double] is the carrier of a [Double] structure.  The source
      computes in IEEE 754 binary64, which is the instance [binary64]
      (the kernel's primitive floats).  The instance [exactQ] replaces
      it by exact rational arithmetic; it is used only where a
      statement is explicitly about arithmetic without rounding.
    - Whatever the operating system and libc answer (the clock, the
      connect, write, poll and read calls, [sscanf]) is an input of the
      model. *)

From Stdlib Require Import ZArith List Bool Lia String Ascii.
From Stdlib Require Import QArith Qround Qabs Lqa.
From Stdlib Require Import PrimFloat FloatOps SpecFloat Uint63.
From Stdlib Require Import Strings.Byte.
Import ListNotations.

Local Open Scope Z_scope.

(* ================================================================== *)
(** * Part I: the model                                                *)
(* ================================================================== *)

(** ** Machine integers *)

Definition u32 (z : Z) : Z := z mod 2 ^ 32.
Definition u64 (z : Z) : Z := z mod 2 ^ 64.

(** [~0U] *)
Definition UINT_MAX : Z := 2 ^ 32 - 1.

(** Default averaging rate ([#define AVG_RATE 4]). *)
Definition AVG_RATE : Z := 4.

(** [sizeof vt->resp_buf] and [sizeof buf] in [vbp_poke]. *)
Definition RESP_BUF_SIZE : Z := 128.
Definition SCRATCH_SIZE : Z := 8192.

(** ** The [double] type *)

Class Double : Type := {
  D : Type;
  (** the value of an integer literal or of an [int] converted to [double] *)
  d_of_Z : Z -> D;
  dadd : D -> D -> D;
  dsub : D -> D -> D;
  dmul : D -> D -> D;
  ddiv : D -> D -> D;
  (** [a < b] and [a == b] *)
  dltb : D -> D -> bool;
  deqb : D -> D -> bool;
  (** [(int)round(x)]: to the nearest integer, halves away from zero *)
  d_round_int : D -> Z
}.

(** Rounding a dyadic [m * 2^e] (with [0 <= m]) to the nearest integer,
    halves away from zero. *)
Definition round_dyadic (m e : Z) : Z :=
  if 0 <=? e then m * 2 ^ e
  else
    let d := 2 ^ (- e) in
    let q := m / d in
    if d <=? 2 * (m mod d) then q + 1 else q.

(** [INT_MIN], what the x86 conversion instruction leaves for a value
    that is no [int] (C leaves the conversion undefined). *)
Definition INT_MIN : Z := - 2 ^ 31.

Definition float_round_int (x : float) : Z :=
  match Prim2SF x with
  | S754_zero _ => 0
  | S754_finite s m e =>
      let r := round_dyadic (Z.pos m) e in
      let v := if s then - r else r in
      if (INT_MIN <=? v) && (v <? 2 ^ 31) then v else INT_MIN
  | S754_infinity _ | S754_nan => INT_MIN
  end.

Definition float_of_Z (z : Z) : float :=
  if z <? 0 then PrimFloat.opp (PrimFloat.of_uint63 (Uint63.of_Z (- z)))
  else PrimFloat.of_uint63 (Uint63.of_Z z).

(** IEEE 754 binary64, round to nearest even: the arithmetic of the
    source. *)
Definition binary64 : Double := {|
  D := float;
  d_of_Z := float_of_Z;
  dadd := PrimFloat.add;
  dsub := PrimFloat.sub;
  dmul := PrimFloat.mul;
  ddiv := PrimFloat.div;
  dltb := PrimFloat.ltb;
  deqb := PrimFloat.eqb;
  d_round_int := float_round_int
|}.

Definition Q_round_int (q : Q) : Z :=
  if Qle_bool 0 q then Qfloor (q + (1 # 2))%Q
  else - Qfloor ((- q) + (1 # 2))%Q.

(** Exact rational arithmetic: [double] without rounding. *)
Definition exactQ : Double := {|
  D := Q;
  d_of_Z := inject_Z;
  dadd := Qplus;
  dsub := Qminus;
  dmul := Qmult;
  ddiv := Qdiv;
  dltb := fun a b => negb (Qle_bool b a);
  deqb := Qeq_bool;
  d_round_int := Q_round_int
|}.

(** ** Bytes and C strings *)

Definition NUL : byte := x00.
Definition CR : byte := x0d.
Definition LF : byte := x0a.

(** The bytes of a C string held in [s]: up to the first NUL. *)
Fixpoint cstr (s : list byte) : list byte :=
  match s with
  | [] => []
  | b :: t => if Byte.eqb b NUL then [] else b :: cstr t
  end.

(** [strchr(s, c)] for [c <> NUL]: the offset of the first [c] in the C
    string, [None] for a null pointer. *)
Fixpoint strchr (s : list byte) (c : byte) : option nat :=
  match s with
  | [] => None
  | b :: t =>
      if Byte.eqb b c then Some O
      else if Byte.eqb b NUL then None
      else option_map S (strchr t c)
  end.

(** [buf[i] = b] *)
Fixpoint buf_set (i : nat) (b : byte) (buf : list byte) : list byte :=
  match buf, i with
  | [], _ => []
  | _ :: t, O => b :: t
  | x :: t, S i' => x :: buf_set i' b t
  end.

(** What [read(s, buf + off, n)] leaves in [buf] when it delivers
    [data]. *)
Definition buf_write (off : nat) (data buf : list byte) : list byte :=
  firstn off buf ++ data ++ skipn (off + List.length data) buf.

(** [*p = '\0'] when [p != NULL] *)
Definition cut_at (p : option nat) (buf : list byte) : list byte :=
  match p with
  | Some i => buf_set i NUL buf
  | None => buf
  end.

(** ** The world a probe talks to *)

(** What [VSA_Get_Proto] answers for the peer. *)
Inductive proto : Type := AF_INET | AF_INET6 | AF_OTHER.

(** What the connection delivers, in order: a segment of bytes that
    becomes readable, a read error, or silence for longer than the
    poll timeout.  The end of the list is the peer's end of file. *)
Inductive sock_event : Type :=
  | Seg (bs : list byte)
  | RdErr
  | Quiet.

(** [sscanf(resp_buf, "HTTP/%*f %u %s", &resp, buf)] belongs to libc:
    given the C string it returns the count [i] and the value [resp]
    holds afterwards (meaningful when [1 <= i]). *)
Class Libc : Type := {
  sscanf_status : list byte -> Z * Z
}.

(** Results that are not a plain return: [WRONG(...)] aborts the
    process; [OutOfFuel] is the model's own, for a loop cut short. *)
Inductive outcome (A : Type) : Type :=
  | Returned (a : A)
  | Wrong (msg : string)
  | OutOfFuel.

Arguments Returned {A} a.
Arguments Wrong {A} msg.
Arguments OutOfFuel {A}.

Section Model.

Context {dbl : Double} {libc : Libc}.

(** ** Data *)

(** [struct vrt_backend_probe]: the fields this file reads, with the
    types their uses here and the spec give them (the declaration, in
    vrt.h, is not among the sources at hand).  A null [url] or
    [request] is [None]. *)
Record vrt_backend_probe : Type := {
  url : option (list byte);
  request : option (list byte);
  timeout : D;
  interval : D;
  exp_status : Z;
  window : Z;
  threshold : Z;
  initial : Z
}.

(** [struct vbp_target].  [vt_backend] says whether [vt->backend] is
    non-null; the backend itself is a separate object, passed along
    with the target.  The history bitmaps are those this file names
    (the table tbl/backend_poll.h that declares them is not part of the
    sources at hand). *)
Record vbp_target : Type := {
  vt_backend : bool;
  probe : vrt_backend_probe;
  req : list byte;
  req_len : Z;
  resp_buf : list byte;
  good : Z;
  good_ipv4 : Z;
  good_ipv6 : Z;
  err_xmit : Z;
  good_xmit : Z;
  err_recv : Z;
  good_recv : Z;
  happy : Z;
  last : D;
  avg : D;
  rate : D;
  due : D;
  running : Z;
  heap_idx : Z
}.

(** Modelled from the spec: [struct backend] (cache_backend.h is not
    among the sources at hand), with the fields the poller touches:
    the spec has [healthy : bool], [health_changed : timestamp], a
    probe reference, a display name and a statistics block exposing
    [happy].  [be_probe] says whether [b->probe] is non-null,
    [vsc_happy] is [b->vsc->happy] when [b->vsc] is non-null. *)
Record backend : Type := {
  display_name : string;
  healthy : bool;
  health_changed : D;
  be_probe : bool;
  vsc_happy : option Z
}.

Definition set_probe (p : vrt_backend_probe) (vt : vbp_target) : vbp_target :=
  {| vt_backend := vt_backend vt; probe := p; req := req vt;
     req_len := req_len vt; resp_buf := resp_buf vt; good := good vt;
     good_ipv4 := good_ipv4 vt; good_ipv6 := good_ipv6 vt;
     err_xmit := err_xmit vt; good_xmit := good_xmit vt;
     err_recv := err_recv vt; good_recv := good_recv vt;
     happy := happy vt; last := last vt; avg := avg vt; rate := rate vt;
     due := due vt; running := running vt; heap_idx := heap_idx vt |}.

Definition set_req (r : list byte) (n : Z) (vt : vbp_target) : vbp_target :=
  {| vt_backend := vt_backend vt; probe := probe vt; req := r;
     req_len := n; resp_buf := resp_buf vt; good := good vt;
     good_ipv4 := good_ipv4 vt; good_ipv6 := good_ipv6 vt;
     err_xmit := err_xmit vt; good_xmit := good_xmit vt;
     err_recv := err_recv vt; good_recv := good_recv vt;
     happy := happy vt; last := last vt; avg := avg vt; rate := rate vt;
     due := due vt; running := running vt; heap_idx := heap_idx vt |}.

Definition set_resp_buf (b : list byte) (vt : vbp_target) : vbp_target :=
  {| vt_backend := vt_backend vt; probe := probe vt; req := req vt;
     req_len := req_len vt; resp_buf := b; good := good vt;
     good_ipv4 := good_ipv4 vt; good_ipv6 := good_ipv6 vt;
     err_xmit := err_xmit vt; good_xmit := good_xmit vt;
     err_recv := err_recv vt; good_recv := good_recv vt;
     happy := happy vt; last := last vt; avg := avg vt; rate := rate vt;
     due := due vt; running := running vt; heap_idx := heap_idx vt |}.

Definition set_good (g : Z) (vt : vbp_target) : vbp_target :=
  {| vt_backend := vt_backend vt; probe := probe vt; req := req vt;
     req_len := req_len vt; resp_buf := resp_buf vt; good := g;
     good_ipv4 := good_ipv4 vt; good_ipv6 := good_ipv6 vt;
     err_xmit := err_xmit vt; good_xmit := good_xmit vt;
     err_recv := err_recv vt; good_recv := good_recv vt;
     happy := happy vt; last := last vt; avg := avg vt; rate := rate vt;
     due := due vt; running := running vt; heap_idx := heap_idx vt |}.

Definition set_good_ipv4 (x : Z) (vt : vbp_target) : vbp_target :=
  {| vt_backend := vt_backend vt; probe := probe vt; req := req vt;
     req_len := req_len vt; resp_buf := resp_buf vt; good := good vt;
     good_ipv4 := x; good_ipv6 := good_ipv6 vt;
     err_xmit := err_xmit vt; good_xmit := good_xmit vt;
     err_recv := err_recv vt; good_recv := good_recv vt;
     happy := happy vt; last := last vt; avg := avg vt; rate := rate vt;
     due := due vt; running := running vt; heap_idx := heap_idx vt |}.

Definition set_good_ipv6 (x : Z) (vt : vbp_target) : vbp_target :=
  {| vt_backend := vt_backend vt; probe := probe vt; req := req vt;
     req_len := req_len vt; resp_buf := resp_buf vt; good := good vt;
     good_ipv4 := good_ipv4 vt; good_ipv6 := x;
     err_xmit := err_xmit vt; good_xmit := good_xmit vt;
     err_recv := err_recv vt; good_recv := good_recv vt;
     happy := happy vt; last := last vt; avg := avg vt; rate := rate vt;
     due := due vt; running := running vt; heap_idx := heap_idx vt |}.

Definition set_err_xmit (x : Z) (vt : vbp_target) : vbp_target :=
  {| vt_backend := vt_backend vt; probe := probe vt; req := req vt;
     req_len := req_len vt; resp_buf := resp_buf vt; good := good vt;
     good_ipv4 := good_ipv4 vt; good_ipv6 := good_ipv6 vt;
     err_xmit := x; good_xmit := good_xmit vt;
     err_recv := err_recv vt; good_recv := good_recv vt;
     happy := happy vt; last := last vt; avg := avg vt; rate := rate vt;
     due := due vt; running := running vt; heap_idx := heap_idx vt |}.

Definition set_good_xmit (x : Z) (vt : vbp_target) : vbp_target :=
  {| vt_backend := vt_backend vt; probe := probe vt; req := req vt;
     req_len := req_len vt; resp_buf := resp_buf vt; good := good vt;
     good_ipv4 := good_ipv4 vt; good_ipv6 := good_ipv6 vt;
     err_xmit := err_xmit vt; good_xmit := x;
     err_recv := err_recv vt; good_recv := good_recv vt;
     happy := happy vt; last := last vt; avg := avg vt; rate := rate vt;
     due := due vt; running := running vt; heap_idx := heap_idx vt |}.

Definition set_err_recv (x : Z) (vt : vbp_target) : vbp_target :=
  {| vt_backend := vt_backend vt; probe := probe vt; req := req vt;
     req_len := req_len vt; resp_buf := resp_buf vt; good := good vt;
     good_ipv4 := good_ipv4 vt; good_ipv6 := good_ipv6 vt;
     err_xmit := err_xmit vt; good_xmit := good_xmit vt;
     err_recv := x; good_recv := good_recv vt;
     happy := happy vt; last := last vt; avg := avg vt; rate := rate vt;
     due := due vt; running := running vt; heap_idx := heap_idx vt |}.

Definition set_good_recv (x : Z) (vt : vbp_target) : vbp_target :=
  {| vt_backend := vt_backend vt; probe := probe vt; req := req vt;
     req_len := req_len vt; resp_buf := resp_buf vt; good := good vt;
     good_ipv4 := good_ipv4 vt; good_ipv6 := good_ipv6 vt;
     err_xmit := err_xmit vt; good_xmit := good_xmit vt;
     err_recv := err_recv vt; good_recv := x;
     happy := happy vt; last := last vt; avg := avg vt; rate := rate vt;
     due := due vt; running := running vt; heap_idx := heap_idx vt |}.

Definition set_happy (x : Z) (vt : vbp_target) : vbp_target :=
  {| vt_backend := vt_backend vt; probe := probe vt; req := req vt;
     req_len := req_len vt; resp_buf := resp_buf vt; good := good vt;
     good_ipv4 := good_ipv4 vt; good_ipv6 := good_ipv6 vt;
     err_xmit := err_xmit vt; good_xmit := good_xmit vt;
     err_recv := err_recv vt; good_recv := good_recv vt;
     happy := x; last := last vt; avg := avg vt; rate := rate vt;
     due := due vt; running := running vt; heap_idx := heap_idx vt |}.

Definition set_last (x : D) (vt : vbp_target) : vbp_target :=
  {| vt_backend := vt_backend vt; probe := probe vt; req := req vt;
     req_len := req_len vt; resp_buf := resp_buf vt; good := good vt;
     good_ipv4 := good_ipv4 vt; good_ipv6 := good_ipv6 vt;
     err_xmit := err_xmit vt; good_xmit := good_xmit vt;
     err_recv := err_recv vt; good_recv := good_recv vt;
     happy := happy vt; last := x; avg := avg vt; rate := rate vt;
     due := due vt; running := running vt; heap_idx := heap_idx vt |}.

Definition set_avg_rate (a r : D) (vt : vbp_target) : vbp_target :=
  {| vt_backend := vt_backend vt; probe := probe vt; req := req vt;
     req_len := req_len vt; resp_buf := resp_buf vt; good := good vt;
     good_ipv4 := good_ipv4 vt; good_ipv6 := good_ipv6 vt;
     err_xmit := err_xmit vt; good_xmit := good_xmit vt;
     err_recv := err_recv vt; good_recv := good_recv vt;
     happy := happy vt; last := last vt; avg := a; rate := r;
     due := due vt; running := running vt; heap_idx := heap_idx vt |}.

Definition set_due (x : D) (vt : vbp_target) : vbp_target :=
  {| vt_backend := vt_backend vt; probe := probe vt; req := req vt;
     req_len := req_len vt; resp_buf := resp_buf vt; good := good vt;
     good_ipv4 := good_ipv4 vt; good_ipv6 := good_ipv6 vt;
     err_xmit := err_xmit vt; good_xmit := good_xmit vt;
     err_recv := err_recv vt; good_recv := good_recv vt;
     happy := happy vt; last := last vt; avg := avg vt; rate := rate vt;
     due := x; running := running vt; heap_idx := heap_idx vt |}.

Definition set_running (x : Z) (vt : vbp_target) : vbp_target :=
  {| vt_backend := vt_backend vt; probe := probe vt; req := req vt;
     req_len := req_len vt; resp_buf := resp_buf vt; good := good vt;
     good_ipv4 := good_ipv4 vt; good_ipv6 := good_ipv6 vt;
     err_xmit := err_xmit vt; good_xmit := good_xmit vt;
     err_recv := err_recv vt; good_recv := good_recv vt;
     happy := happy vt; last := last vt; avg := avg vt; rate := rate vt;
     due := due vt; running := x; heap_idx := heap_idx vt |}.

Definition set_heap_idx (x : Z) (vt : vbp_target) : vbp_target :=
  {| vt_backend := vt_backend vt; probe := probe vt; req := req vt;
     req_len := req_len vt; resp_buf := resp_buf vt; good := good vt;
     good_ipv4 := good_ipv4 vt; good_ipv6 := good_ipv6 vt;
     err_xmit := err_xmit vt; good_xmit := good_xmit vt;
     err_recv := err_recv vt; good_recv := good_recv vt;
     happy := happy vt; last := last vt; avg := avg vt; rate := rate vt;
     due := due vt; running := running vt; heap_idx := x |}.

Definition set_healthy (h : bool) (b : backend) : backend :=
  {| display_name := display_name b; healthy := h;
     health_changed := health_changed b; be_probe := be_probe b;
     vsc_happy := vsc_happy b |}.

Definition set_health_changed (t : D) (b : backend) : backend :=
  {| display_name := display_name b; healthy := healthy b;
     health_changed := t; be_probe := be_probe b;
     vsc_happy := vsc_happy b |}.

Definition set_be_probe (p : bool) (b : backend) : backend :=
  {| display_name := display_name b; healthy := healthy b;
     health_changed := health_changed b; be_probe := p;
     vsc_happy := vsc_happy b |}.

Definition set_vsc_happy (h : Z) (b : backend) : backend :=
  {| display_name := display_name b; healthy := healthy b;
     health_changed := health_changed b; be_probe := be_probe b;
     vsc_happy := option_map (fun _ => h) (vsc_happy b) |}.

(** ** Record pokings *)

(** [vbp_start_poke]: every bitmap [<<= 1], then [last = 0] and
    [resp_buf[0] = '\0']. *)
Definition shl1 (x : Z) : Z := u64 (Z.shiftl x 1).

Definition vbp_start_poke (vt : vbp_target) : vbp_target :=
  {| vt_backend := vt_backend vt; probe := probe vt; req := req vt;
     req_len := req_len vt;
     resp_buf := buf_set 0 NUL (resp_buf vt);
     good := good vt;
     good_ipv4 := shl1 (good_ipv4 vt); good_ipv6 := shl1 (good_ipv6 vt);
     err_xmit := shl1 (err_xmit vt); good_xmit := shl1 (good_xmit vt);
     err_recv := shl1 (err_recv vt); good_recv := shl1 (good_recv vt);
     happy := shl1 (happy vt);
     last := d_of_Z 0; avg := avg vt; rate := rate vt;
     due := due vt; running := running vt; heap_idx := heap_idx vt |}.

(** [x & 1] as a truth value *)
Definition bit0 (x : Z) : bool := negb (Z.land x 1 =? 0).

(** [x |= 1] *)
Definition or1 (x : Z) : Z := Z.lor x 1.

(** The loop of [vbp_has_poked] that counts into [j]:
    [for (i = j = 0; i < window; i++) { if (u & 1) j++; u >>= 1; }],
    [n] being the iterations left. *)
Fixpoint count_window (n : nat) (u j : Z) : Z :=
  match n with
  | O => j
  | S n' => count_window n' (Z.shiftr u 1) (if bit0 u then u32 (j + 1) else j)
  end.

(** The exponential average, [if (vt->happy & 1) { ... }]. *)
Definition avg_update (vt : vbp_target) : vbp_target :=
  if bit0 (happy vt) then
    let r := if dltb (rate vt) (d_of_Z AVG_RATE)
             then dadd (rate vt) (d_of_Z 1) else rate vt in
    set_avg_rate (dadd (avg vt) (ddiv (dsub (last vt) (avg vt)) r)) r vt
  else vt.

Inductive logmsg : Type :=
  | Still_healthy | Back_healthy | Went_sick | Still_sick.

(** The [SLT_Backend_health] record written by [VSL] (without the
    [bits] summary, whose glyphs are in the absent table). *)
Record health_line : Type := {
  hl_name : string;
  hl_msg : logmsg;
  hl_good : Z;
  hl_threshold : Z;
  hl_window : Z;
  hl_last : D;
  hl_avg : D;
  hl_resp : list byte
}.

(** [vbp_has_poked]; [now] is what [VTIM_real()] answers if it is
    called. *)
Definition vbp_has_poked (now : D) (vt : vbp_target) (be : backend)
  : vbp_target * backend * option health_line :=
  let vt1 := avg_update vt in
  let j := count_window (Z.to_nat (window (probe vt1))) (happy vt1) 0 in
  let vt2 := set_good j vt1 in
  if vt_backend vt2 then
    let '(msg, be2) :=
      if threshold (probe vt2) <=? good vt2 then
        let '(m, be1) :=
          if healthy be then (Still_healthy, be)
          else (Back_healthy, set_health_changed now be) in
        (m, set_healthy true be1)
      else
        let '(m, be1) :=
          if healthy be then (Went_sick, set_health_changed now be)
          else (Still_sick, be) in
        (m, set_healthy false be1) in
    let line := {| hl_name := display_name be2; hl_msg := msg;
                   hl_good := good vt2;
                   hl_threshold := threshold (probe vt2);
                   hl_window := window (probe vt2);
                   hl_last := last vt2; hl_avg := avg vt2;
                   hl_resp := cstr (resp_buf vt2) |} in
    (vt2, set_vsc_happy (happy vt2) be2, Some line)
  else (vt2, be, None).


(** ** Request and defaults *)

Definition bytes (s : string) : list byte := list_byte_of_string s.
Definition CRLF : list byte := [CR; LF].

(** [vbp_build_req]: the request as [VSB_data] holds it and its length
    [VSB_len]. *)
Definition vbp_build_req (hosthdr : option (list byte)) (vt : vbp_target)
  : vbp_target :=
  let vsb :=
    match request (probe vt) with
    | Some r => r
    | None =>
        bytes "GET "
        ++ match url (probe vt) with Some u => u | None => bytes "/" end
        ++ bytes " HTTP/1.1" ++ CRLF
        ++ match hosthdr with
           | Some h => bytes "Host: " ++ h ++ CRLF
           | None => []
           end
        ++ bytes "Connection: close" ++ CRLF
        ++ CRLF
    end in
  set_req vsb (Z.of_nat (List.length vsb)) vt.

(** [vbp_set_defaults]: "Sanitize and set defaults". *)
Definition vbp_set_defaults (vt : vbp_target) : vbp_target :=
  let p := probe vt in
  let timeout1 :=
    if deqb (timeout p) (d_of_Z 0) then d_of_Z 2 else timeout p in
  let interval1 :=
    if deqb (interval p) (d_of_Z 0) then d_of_Z 5 else interval p in
  let window1 := if window p =? 0 then 8 else window p in
  let threshold1 := if threshold p =? 0 then 3 else threshold p in
  let exp_status1 := if exp_status p =? 0 then 200 else exp_status p in
  let initial1 :=
    if initial p =? UINT_MAX then u32 (threshold1 - 1) else initial p in
  let initial2 :=
    if threshold1 <? initial1 then threshold1 else initial1 in
  set_probe
    {| url := url p; request := request p;
       timeout := timeout1; interval := interval1;
       exp_status := exp_status1; window := window1;
       threshold := threshold1; initial := initial2 |} vt.

(** ** One probe *)


(** The answers one call of [vbp_poke] gets. *)
Record poke_env : Type := {
  (** [VTIM_real()] on entry *)
  t_start : D;
  (** [VBT_Open]: [None] when it returns [s < 0], else the peer's family *)
  conn : option proto;
  (** [VTIM_real()] after the connect *)
  t_conn : D;
  (** what [write] returns *)
  wr_ret : Z;
  (** what arrives on the socket afterwards *)
  sock : list sock_event;
  (** [VTIM_real()] after the receive *)
  t_recv : D
}.


(** [poll(pfd, 1, tmo)] with [0 < tmo]: [0] on a timeout. *)
Definition sock_poll (s : list sock_event) : Z :=
  match s with
  | Quiet :: _ => 0
  | _ => 1
  end.

(** [read(s, dst, n)]: the return value, the bytes stored at [dst] and
    what is left to arrive. *)
Fixpoint sock_read (n : nat) (s : list sock_event)
  : Z * list byte * list sock_event :=
  match s with
  | [] => (0, [], [])
  | Quiet :: rest => sock_read n rest
  | RdErr :: rest => (-1, [], rest)
  | Seg bs :: rest =>
      let d := firstn n bs in
      (Z.of_nat (List.length d), d,
       if (List.length bs <=? n)%nat then rest else Seg (skipn n bs) :: rest)
  end.


(** The variables the receive loop of [vbp_poke] works on. *)
Record recv_state : Type := {
  rs_sock : list sock_event;
  rs_i : Z;
  rs_rlen : Z;
  rs_buf : list byte
}.

(** How the loop is left: by the [return] inside it, or by its
    condition [i > 0] failing. *)
Inductive recv_exit : Type :=
  | Timed_out (buf : list byte)
  | Read_done (i rlen : Z) (buf : list byte).

(** [tmo = (int)round((t_end - t_now) * 1e3)] *)
Definition tmo_ms (t_end t_now : D) : Z :=
  d_round_int (dmul (dsub t_end t_now) (d_of_Z 1000)).

(** One pass through the body of [do { ... } while (i > 0)]. *)
Definition recv_step (tmo : Z) (st : recv_state) : recv_state + recv_exit :=
  let i1 := if 0 <? tmo then sock_poll (rs_sock st) else rs_i st in
  if (i1 =? 0) || (tmo <=? 0) then inr (Timed_out (rs_buf st))
  else
    let '(i2, buf2, sock2) :=
      if rs_rlen st <? RESP_BUF_SIZE then
        let '(r, data, s') :=
          sock_read (Z.to_nat (RESP_BUF_SIZE - rs_rlen st)) (rs_sock st) in
        (r, buf_write (Z.to_nat (rs_rlen st)) data (rs_buf st), s')
      else
        let '(r, _, s') := sock_read (Z.to_nat SCRATCH_SIZE) (rs_sock st) in
        (r, rs_buf st, s') in
    let rlen2 := u32 (rs_rlen st + i2) in
    if 0 <? i2 then
      inl {| rs_sock := sock2; rs_i := i2; rs_rlen := rlen2; rs_buf := buf2 |}
    else inr (Read_done i2 rlen2 buf2).

Fixpoint recv_loop (fuel : nat) (t_end t_now : D) (st : recv_state)
  : outcome recv_exit :=
  match fuel with
  | O => OutOfFuel
  | S fuel' =>
      match recv_step (tmo_ms t_end t_now) st with
      | inl st' => recv_loop fuel' t_end t_now st'
      | inr x => Returned x
      end
  end.

(** Every pass takes a byte or an event off the socket: this bounds the
    passes. *)
Fixpoint sock_weight (s : list sock_event) : nat :=
  match s with
  | [] => 1
  | Seg bs :: rest => S (List.length bs) + sock_weight rest
  | _ :: rest => S (sock_weight rest)
  end.

(** What [vbp_poke] leaves: the target, and whether [VTCP_close] ran. *)
Record poke_result : Type := {
  pr_vt : vbp_target;
  pr_closed : bool
}.

(** The tail of [vbp_poke], "Now find out if we like the response". *)
Definition status_cut (buf : list byte) : list byte :=
  let b1 := buf_set (Z.to_nat (RESP_BUF_SIZE - 1)) NUL buf in
  let b2 := cut_at (strchr b1 CR) b1 in
  cut_at (strchr b2 LF) b2.

Definition status_ok (line : list byte) (exp : Z) : bool :=
  let '(i, resp) := sscanf_status line in
  ((i =? 1) || (i =? 2)) && (resp =? exp).

Definition like_response (vt : vbp_target) : vbp_target :=
  let vt1 := set_resp_buf (status_cut (resp_buf vt)) vt in
  if status_ok (cstr (resp_buf vt1)) (exp_status (probe vt1))
  then set_happy (or1 (happy vt1)) vt1
  else vt1.

(** The receive loop as [vbp_poke] starts it: [rlen = 0], [i] still
    holding what [write] returned. *)
Definition poke_recv (e : poke_env) (vt : vbp_target) : outcome recv_exit :=
  recv_loop (sock_weight (sock e))
    (dadd (t_start e) (timeout (probe vt))) (t_conn e)
    {| rs_sock := sock e; rs_i := wr_ret e; rs_rlen := 0;
       rs_buf := resp_buf vt |}.

(** [vt->good_ipv4 |= 1] or [vt->good_ipv6 |= 1], by the peer's
    family. *)
Definition mark_family (fam : proto) (vt : vbp_target) : vbp_target :=
  match fam with
  | AF_INET => set_good_ipv4 (or1 (good_ipv4 vt)) vt
  | AF_INET6 => set_good_ipv6 (or1 (good_ipv6 vt)) vt
  | AF_OTHER => vt
  end.

(** "So we have a good receive ...": the end of [vbp_poke], [raw]
    being [resp_buf] as the reads left it. *)
Definition good_receive (e : poke_env) (raw : list byte) (vt : vbp_target)
  : vbp_target :=
  let vt3 := set_resp_buf raw vt in
  let vt4 := set_last (dsub (t_recv e) (t_start e)) vt3 in
  let vt5 := set_good_recv (or1 (good_recv vt4)) vt4 in
  like_response vt5.

(** [vbp_poke]: poke one backend, once. *)
Definition vbp_poke (e : poke_env) (vt : vbp_target) : outcome poke_result :=
  let t_end := dadd (t_start e) (timeout (probe vt)) in
  match conn e with
  | None => Returned {| pr_vt := vt; pr_closed := false |}
  | Some AF_OTHER => Wrong "Wrong probe protocol family"
  | Some fam =>
      let vt1 := mark_family fam vt in
      if tmo_ms t_end (t_conn e) <=? 0 then
        Returned {| pr_vt := vt1; pr_closed := true |}
      else if negb (wr_ret e =? req_len vt1) then
        Returned
          {| pr_vt := if wr_ret e <? 0
                      then set_err_xmit (or1 (err_xmit vt1)) vt1 else vt1;
             pr_closed := true |}
      else
        let vt2 := set_good_xmit (or1 (good_xmit vt1)) vt1 in
        match poke_recv e vt2 with
        | OutOfFuel => OutOfFuel
        | Wrong m => Wrong m
        | Returned (Timed_out buf) =>
            Returned {| pr_vt := set_resp_buf buf vt2; pr_closed := true |}
        | Returned (Read_done i rlen buf) =>
            if i <? 0 then
              let vt3 := set_resp_buf buf vt2 in
              Returned {| pr_vt := set_err_recv (or1 (err_recv vt3)) vt3;
                          pr_closed := true |}
            else if rlen =? 0 then
              Returned {| pr_vt := set_resp_buf buf vt2; pr_closed := true |}
            else
              Returned {| pr_vt := good_receive e buf vt2;
                          pr_closed := true |}
        end
  end.

(** The ways [vbp_poke] returns. *)
Inductive poke_path (e : poke_env) (vt : vbp_target) : poke_result -> Prop :=
  | path_no_conn :
      conn e = None ->
      poke_path e vt {| pr_vt := vt; pr_closed := false |}
  | path_late fam :
      conn e = Some fam -> fam <> AF_OTHER ->
      tmo_ms (dadd (t_start e) (timeout (probe vt))) (t_conn e) <= 0 ->
      poke_path e vt {| pr_vt := mark_family fam vt; pr_closed := true |}
  | path_xmit fam :
      conn e = Some fam -> fam <> AF_OTHER ->
      0 < tmo_ms (dadd (t_start e) (timeout (probe vt))) (t_conn e) ->
      wr_ret e <> req_len vt ->
      poke_path e vt
        {| pr_vt := if wr_ret e <? 0
                    then set_err_xmit (or1 (err_xmit (mark_family fam vt)))
                           (mark_family fam vt)
                    else mark_family fam vt;
           pr_closed := true |}
  | path_timeout fam buf :
      conn e = Some fam -> fam <> AF_OTHER ->
      0 < tmo_ms (dadd (t_start e) (timeout (probe vt))) (t_conn e) ->
      wr_ret e = req_len vt ->
      poke_recv e vt = Returned (Timed_out buf) ->
      poke_path e vt
        {| pr_vt := set_resp_buf buf
                      (set_good_xmit (or1 (good_xmit (mark_family fam vt)))
                         (mark_family fam vt));
           pr_closed := true |}
  | path_recv_err fam i rlen buf :
      conn e = Some fam -> fam <> AF_OTHER ->
      0 < tmo_ms (dadd (t_start e) (timeout (probe vt))) (t_conn e) ->
      wr_ret e = req_len vt ->
      poke_recv e vt = Returned (Read_done i rlen buf) -> i < 0 ->
      poke_path e vt
        {| pr_vt :=
             set_err_recv (or1 (err_recv vt))
               (set_resp_buf buf
                  (set_good_xmit (or1 (good_xmit (mark_family fam vt)))
                     (mark_family fam vt)));
           pr_closed := true |}
  | path_empty fam i buf :
      conn e = Some fam -> fam <> AF_OTHER ->
      0 < tmo_ms (dadd (t_start e) (timeout (probe vt))) (t_conn e) ->
      wr_ret e = req_len vt ->
      poke_recv e vt = Returned (Read_done i 0 buf) -> 0 <= i ->
      poke_path e vt
        {| pr_vt := set_resp_buf buf
                      (set_good_xmit (or1 (good_xmit (mark_family fam vt)))
                         (mark_family fam vt));
           pr_closed := true |}
  | path_received fam i rlen raw :
      conn e = Some fam -> fam <> AF_OTHER ->
      0 < tmo_ms (dadd (t_start e) (timeout (probe vt))) (t_conn e) ->
      wr_ret e = req_len vt ->
      poke_recv e vt = Returned (Read_done i rlen raw) ->
      0 <= i -> rlen <> 0 ->
      poke_path e vt
        {| pr_vt := good_receive e raw
                      (set_good_xmit (or1 (good_xmit (mark_family fam vt)))
                         (mark_family fam vt));
           pr_closed := true |}.

(** The same answers of the world, but for what the socket delivers. *)
Definition with_sock (s : list sock_event) (e : poke_env) : poke_env :=
  {| t_start := t_start e; conn := conn e; t_conn := t_conn e;
     wr_ret := wr_ret e; sock := s; t_recv := t_recv e |}.

(** [vbp_task]: one scheduled probe.  The target is [None] afterwards
    when the task freed it ([running < 0]: the backend went away). *)
Definition vbp_task (e : poke_env) (now : D) (vt : vbp_target) (be : backend)
  : outcome (option vbp_target * backend * option health_line) :=
  if req_len vt <=? 0 then Wrong "assert(vt->req_len > 0)"
  else
    match vbp_poke e (vbp_start_poke vt) with
    | Returned r =>
        let '(vt1, be1, line) := vbp_has_poked now (pr_vt r) be in
        Returned
          (if running vt1 <? 0 then None else Some (set_running 0 vt1),
           be1, line)
    | Wrong m => Wrong m
    | OutOfFuel => OutOfFuel
    end.

(** ** The dispatcher *)

Definition BINHEAP_NOIDX : Z := 0.

(** [vbp_cmp] and [vbp_update], the callbacks given to the heap. *)
Definition vbp_cmp (a b : vbp_target) : bool := dltb (due a) (due b).

Definition vbp_update (vt : vbp_target) (u : Z) : vbp_target :=
  set_heap_idx u vt.

(** Modelled from the spec: the binary heap (binary_heap.h and its
    implementation are not among the sources at hand).  The spec has a
    min-heap keyed by due time, whose members are exactly the targets
    with [heap_idx] other than the sentinel.  Here the heap is a list
    kept in [vbp_cmp] order, the root its head, and [heap_idx] the
    position counted from 1. *)
Definition binheap : Type := list vbp_target.

Fixpoint reindex (i : Z) (h : binheap) : binheap :=
  match h with
  | [] => []
  | x :: t => vbp_update x i :: reindex (i + 1) t
  end.

Fixpoint sift (vt : vbp_target) (h : binheap) : binheap :=
  match h with
  | [] => [vt]
  | x :: t => if vbp_cmp vt x then vt :: x :: t else x :: sift vt t
  end.

(** Where [sift] puts the new member. *)
Fixpoint sift_pos (vt : vbp_target) (h : binheap) : Z :=
  match h with
  | [] => 1
  | x :: t => if vbp_cmp vt x then 1 else 1 + sift_pos vt t
  end.

Definition binheap_root (h : binheap) : option vbp_target :=
  match h with
  | [] => None
  | x :: _ => Some x
  end.

Definition binheap_insert (h : binheap) (vt : vbp_target) : binheap :=
  reindex 1 (sift vt h).

Fixpoint drop_idx (idx : Z) (h : binheap) : binheap :=
  match h with
  | [] => []
  | x :: t => if heap_idx x =? idx then t else x :: drop_idx idx t
  end.

Definition binheap_delete (h : binheap) (idx : Z) : binheap :=
  reindex 1 (drop_idx idx h).

(** One pass through the inner loop of [vbp_thread]: either the thread
    waits on the condition until [nxt], or it leaves the loop with the
    target to submit. *)
Inductive thread_step : Type :=
  | CondWait (nxt : D)
  | Submit (vt : vbp_target) (heap : binheap).

Definition vbp_thread (now : D) (heap : binheap) : thread_step :=
  match binheap_root heap with
  | None => CondWait (dadd (ddiv (d_of_Z 8192) (d_of_Z 1000)) now)
  | Some vt =>
      if dltb now (due vt) then CondWait (due vt)
      else
        let heap1 := binheap_delete heap (heap_idx vt) in
        let vt1 := set_running 1 (vbp_update vt BINHEAP_NOIDX) in
        let vt2 := set_due (dadd now (interval (probe vt1))) vt1 in
        Submit (vbp_update vt2 (sift_pos vt2 heap1)) (binheap_insert heap1 vt2)
  end.

(** ** Insert *)

(** [ALLOC_OBJ]: a zeroed target. *)
Definition alloc_target (p : vrt_backend_probe) (attached : bool)
  : vbp_target :=
  {| vt_backend := attached; probe := p; req := []; req_len := 0;
     resp_buf := repeat NUL (Z.to_nat RESP_BUF_SIZE); good := 0;
     good_ipv4 := 0; good_ipv6 := 0; err_xmit := 0; good_xmit := 0;
     err_recv := 0; good_recv := 0; happy := 0;
     last := d_of_Z 0; avg := d_of_Z 0; rate := d_of_Z 0;
     due := d_of_Z 0; running := 0; heap_idx := BINHEAP_NOIDX |}.

(** The seeding loop of [VBP_Insert],
    [for (u = 0; u < vt->probe.initial; u++) { ... }] with [n] passes
    left.  [clk k] is the clock reading offered to the [k]-th call of
    [vbp_has_poked]; the log lines are dropped. *)
Fixpoint insert_loop (n : nat) (u : Z) (clk : nat -> D) (k : nat)
  (vt : vbp_target) (be : backend) : nat * vbp_target * backend :=
  match n with
  | O => (k, vt, be)
  | S n' =>
      let '(k1, vt1, be1) :=
        if u =? 0 then (k, vt, be)
        else let '(v, b, _) := vbp_has_poked (clk k) vt be in (S k, v, b) in
      let vt2 := vbp_start_poke vt1 in
      let vt3 := set_happy (or1 (happy vt2)) vt2 in
      let '(vt4, be4, _) := vbp_has_poked (clk k1) vt3 be1 in
      insert_loop n' (u32 (u + 1)) clk (S k1) vt4 be4
  end.

(** [VBP_Insert]. *)
Definition VBP_Insert (b : backend) (p : vrt_backend_probe)
  (hosthdr : option (list byte)) (clk : nat -> D)
  : outcome (vbp_target * backend) :=
  if be_probe b then Wrong "AZ(b->probe)"
  else
    let vt := alloc_target p true in
    let vt := vbp_set_defaults vt in
    let vt := vbp_build_req hosthdr vt in
    let '(k, vt, b) :=
      insert_loop (Z.to_nat (initial (probe vt))) 0 clk O vt b in
    let b := set_be_probe true b in
    let '(vt, b, _) := vbp_has_poked (clk k) vt b in
    Returned (vt, b).

End Model.

(** ** The CLI view *)

Definition DASH : byte := x2d.

(** The loop of [vbp_bitmap],
    [for (i = 0; i < 64; i++) { if (map & u) ... else ...; map <<= 1; }]
    with [u = (1ULL << 63)] and [n] passes left: the characters it
    gives to [VCLI_Out], one per pass. *)
Fixpoint bitmap_loop (n : nat) (c : byte) (map : Z) : list byte :=
  match n with
  | O => []
  | S n' =>
      (if negb (Z.land map (Z.shiftl 1 63) =? 0) then c else DASH)
      :: bitmap_loop n' c (shl1 map)
  end.

(** [vbp_bitmap]: the text it hands to [VCLI_Out], call after call:
    two blanks, the 64 characters, then [" %s\n"] with the label. *)
Definition vbp_bitmap (c : byte) (map : Z) (lbl : list byte) : list byte :=
  bytes "  " ++ bitmap_loop 64 c map ++ bytes " " ++ lbl ++ [LF].

(** ** The control surface *)

Section Control.

Context {dbl : Double} {libc : Libc}.

Definition set_vt_backend (a : bool) (vt : vbp_target) : vbp_target :=
  {| vt_backend := a; probe := probe vt; req := req vt;
     req_len := req_len vt; resp_buf := resp_buf vt; good := good vt;
     good_ipv4 := good_ipv4 vt; good_ipv6 := good_ipv6 vt;
     err_xmit := err_xmit vt; good_xmit := good_xmit vt;
     err_recv := err_recv vt; good_recv := good_recv vt;
     happy := happy vt; last := last vt; avg := avg vt; rate := rate vt;
     due := due vt; running := running vt; heap_idx := heap_idx vt |}.

(** [VBP_Init]: the heap the poller starts with, [binheap_new]. *)
Definition VBP_Init : binheap := [].

(** [VBP_Control].  [vt] is the target [be->probe] points to when that
    is not null, [now] what [VTIM_real()] answers; the result is the
    target and the heap afterwards.  As in [vbp_thread], the heap
    tells the target its place through [vbp_update]: the index on
    [binheap_insert], [BINHEAP_NOIDX] on [binheap_delete]. *)
Definition VBP_Control (now : D) (heap : binheap) (be : backend)
  (vt : vbp_target) (enable : bool) : outcome (vbp_target * binheap) :=
  if negb (be_probe be) then Wrong "CHECK_OBJ_NOTNULL(vt, VBP_TARGET_MAGIC)"
  else if enable then
    if negb (heap_idx vt =? BINHEAP_NOIDX)
    then Wrong "assert(vt->heap_idx == BINHEAP_NOIDX)"
    else
      let vt1 := set_due now vt in
      Returned (vbp_update vt1 (sift_pos vt1 heap), binheap_insert heap vt1)
  else
    if heap_idx vt =? BINHEAP_NOIDX
    then Wrong "assert(vt->heap_idx != BINHEAP_NOIDX)"
    else
      Returned (vbp_update vt BINHEAP_NOIDX,
                binheap_delete heap (heap_idx vt)).

(** [VBP_Remove].  [vt] is the target [be->probe] points to when that
    is not null.  The target is [None] afterwards when [FREE_OBJ]
    released it. *)
Definition VBP_Remove (be : backend) (vt : vbp_target)
  : outcome (option vbp_target * backend) :=
  if negb (be_probe be) then Wrong "CHECK_OBJ_NOTNULL(vt, VBP_TARGET_MAGIC)"
  else
    let be1 := set_be_probe false (set_healthy true be) in
    let vt1 := set_vt_backend false vt in
    if running vt1 =? 0 then Returned (None, be1)
    else Returned (Some (set_running (-1) vt1), be1).

(** *** A probe task and [VBP_Remove] side by side

    [vbp_task] runs on a worker thread, [VBP_Remove] on the CLI thread.
    The task takes [vbp_mtx] twice: inside [vbp_has_poked], and for its
    last lines, where it looks at [running].  Before the first of the
    two it reads and writes neither [vt->backend] nor [vt->running] nor
    the backend, which is all that [VBP_Remove] writes under the lock.
    So the CLI thread runs as if before the probe, between two of the
    three stretches of the task, or after it. *)

Inductive task_pc : Type := At_poke | At_has_poked | At_tail | Task_done.

Record poller : Type := {
  (** the target, [None] once [FREE_OBJ] released it *)
  p_target : option vbp_target;
  p_backend : backend;
  (** where the task is *)
  p_task : task_pc;
  (** how many times [FREE_OBJ(vt)] ran *)
  p_frees : nat
}.

Inductive thread : Type := Worker | Cli.

(** What the model answers when a thread reaches for a target that
    was released. *)
Definition USE_AFTER_FREE : string := "use of a released target".

(** The last lines of [vbp_task]: [if (vt->running < 0) { ...
    FREE_OBJ(vt); } else { vt->running = 0; }]. *)
Definition task_tail (vt : vbp_target) : option vbp_target :=
  if running vt <? 0 then None else Some (set_running 0 vt).

(** The next stretch of the task. *)
Definition worker_step (e : poke_env) (now : D) (w : poller)
  : outcome poller :=
  match p_task w, p_target w with
  | Task_done, _ => Returned w
  | _, None => Wrong USE_AFTER_FREE
  | At_poke, Some vt =>
      if req_len vt <=? 0 then Wrong "assert(vt->req_len > 0)"
      else
        match vbp_poke e (vbp_start_poke vt) with
        | Returned r =>
            Returned {| p_target := Some (pr_vt r);
                        p_backend := p_backend w;
                        p_task := At_has_poked; p_frees := p_frees w |}
        | Wrong m => Wrong m
        | OutOfFuel => OutOfFuel
        end
  | At_has_poked, Some vt =>
      let '(vt1, be1, _) := vbp_has_poked now vt (p_backend w) in
      Returned {| p_target := Some vt1; p_backend := be1;
                  p_task := At_tail; p_frees := p_frees w |}
  | At_tail, Some vt =>
      match task_tail vt with
      | None =>
          Returned {| p_target := None; p_backend := p_backend w;
                      p_task := Task_done; p_frees := S (p_frees w) |}
      | Some vt1 =>
          Returned {| p_target := Some vt1; p_backend := p_backend w;
                      p_task := Task_done; p_frees := p_frees w |}
      end
  end.

(** One call of [VBP_Remove] from the CLI thread. *)
Definition cli_step (w : poller) : outcome poller :=
  if negb (be_probe (p_backend w))
  then Wrong "CHECK_OBJ_NOTNULL(vt, VBP_TARGET_MAGIC)"
  else
    match p_target w with
    | None => Wrong USE_AFTER_FREE
    | Some vt =>
        match VBP_Remove (p_backend w) vt with
        | Returned (None, be1) =>
            Returned {| p_target := None; p_backend := be1;
                        p_task := p_task w; p_frees := S (p_frees w) |}
        | Returned (Some vt1, be1) =>
            Returned {| p_target := Some vt1; p_backend := be1;
                        p_task := p_task w; p_frees := p_frees w |}
        | Wrong m => Wrong m
        | OutOfFuel => OutOfFuel
        end
    end.

(** The two threads taking turns as [sched] says. *)
Fixpoint run (e : poke_env) (now : D) (sched : list thread) (w : poller)
  : outcome poller :=
  match sched with
  | [] => Returned w
  | t :: rest =>
      match (match t with
             | Worker => worker_step e now w
             | Cli => cli_step w
             end) with
      | Returned w' => run e now rest w'
      | Wrong m => Wrong m
      | OutOfFuel => OutOfFuel
      end
  end.

(** A target that the dispatcher has just submitted, with its
    backend. *)
Definition submitted (vt : vbp_target) (be : backend) : poller :=
  {| p_target := Some vt; p_backend := be; p_task := At_poke;
     p_frees := 0 |}.

End Control.

(** *** Who owns the target

    While one task is under way and [VBP_Remove] may be called, the
    target and its backend are in one of three conditions: not removed;
    removed with the task still under way, which then owns the target;
    removed and released. *)

Section HandOff.

Context {dbl : Double}.

Definition task_done (pc : task_pc) : bool :=
  match pc with
  | Task_done => true
  | _ => false
  end.

Definition next_pc (pc : task_pc) : task_pc :=
  match pc with
  | At_poke => At_has_poked
  | At_has_poked => At_tail
  | At_tail | Task_done => Task_done
  end.

Definition attached (w : poller) : Prop :=
  be_probe (p_backend w) = true /\ p_frees w = 0%nat
  /\ exists vt,
       p_target w = Some vt /\ vt_backend vt = true
       /\ running vt = (if task_done (p_task w) then 0 else 1).

Definition doomed (w : poller) : Prop :=
  be_probe (p_backend w) = false /\ healthy (p_backend w) = true
  /\ task_done (p_task w) = false /\ p_frees w = 0%nat
  /\ exists vt,
       p_target w = Some vt /\ vt_backend vt = false /\ running vt = -1.

Definition released (w : poller) : Prop :=
  be_probe (p_backend w) = false /\ healthy (p_backend w) = true
  /\ task_done (p_task w) = true /\ p_frees w = 1%nat
  /\ p_target w = None.

Definition handoff_ok (w : poller) : Prop :=
  attached w \/ doomed w \/ released w.

(** Every target there is has a request of [q] bytes. *)
Definition req_len_is (q : Z) (w : poller) : Prop :=
  forall vt, p_target w = Some vt -> req_len vt = q.

End HandOff.

(** ** A libc for running the model

    [sscanf_decimal] reads the format ["HTTP/%*f %u %s"] the way glibc
    does on an LP64 machine when the version is written in decimal
    notation (it does not know hexadecimal floats, infinities and
    NaNs).  The statements below that quantify over [Libc] do not
    depend on it; it serves to run the model on sample responses. *)

Definition isspace (b : byte) : bool :=
  match b with
  | x20 | x09 | x0a | x0b | x0c | x0d => true
  | _ => false
  end.

Definition digit_val (b : byte) : option Z :=
  let n := Z.of_N (Byte.to_N b) in
  if (48 <=? n) && (n <=? 57) then Some (n - 48) else None.

Definition isdigit (b : byte) : bool :=
  match digit_val b with Some _ => true | None => false end.

Definition is_sign (b : byte) : bool :=
  match b with x2b | x2d => true | _ => false end.

Fixpoint skip_space (s : list byte) : list byte :=
  match s with
  | [] => []
  | b :: t => if isspace b then skip_space t else s
  end.

(** How one directive ends: matched (with the input left), a matching
    failure, or the end of the input. *)
Inductive scan (A : Type) : Type :=
  | Matched (a : A) (rest : list byte)
  | Mismatch
  | InputEnd.

Arguments Matched {A} a rest.
Arguments Mismatch {A}.
Arguments InputEnd {A}.

(** Ordinary characters of the format. *)
Fixpoint scan_lit (lit s : list byte) : scan unit :=
  match lit with
  | [] => Matched tt s
  | c :: lit' =>
      match s with
      | [] => InputEnd
      | b :: t => if Byte.eqb b c then scan_lit lit' t else Mismatch
      end
  end.

(** The characters [%f] takes after the sign: digits, one point, an
    exponent mark after a digit, a sign right after the mark.  The
    boolean tells whether a digit was among them. *)
Fixpoint float_chars (s : list byte) (got_digit got_dot got_e prev_e : bool)
  : bool * list byte :=
  match s with
  | [] => (got_digit, [])
  | c :: t =>
      if isdigit c then float_chars t true got_dot got_e false
      else if got_digit && negb got_e
              && match c with x65 | x45 => true | _ => false end
      then float_chars t got_digit true true true
      else if got_e && prev_e && is_sign c
      then float_chars t got_digit got_dot got_e false
      else if negb got_dot && Byte.eqb c x2e
      then float_chars t got_digit true got_e false
      else (got_digit, s)
  end.

(** [%*f] *)
Definition scan_float (s : list byte) : scan unit :=
  match skip_space s with
  | [] => InputEnd
  | c :: t =>
      let body := if is_sign c then t else c :: t in
      match float_chars body false false false false with
      | (true, rest) => Matched tt rest
      | (false, _) => Mismatch
      end
  end.

Fixpoint digits (s : list byte) (acc : Z) (n : nat) : Z * nat * list byte :=
  match s with
  | [] => (acc, n, [])
  | c :: t =>
      match digit_val c with
      | Some d => digits t (10 * acc + d) (S n)
      | None => (acc, n, s)
      end
  end.

(** [%u]: [strtoul] in base ten, stored through an [unsigned *]. *)
Definition scan_uint (s : list byte) : scan Z :=
  match skip_space s with
  | [] => InputEnd
  | c :: t =>
      let neg := Byte.eqb c x2d in
      let body := if is_sign c then t else c :: t in
      match digits body 0 O with
      | (_, O, _) => Mismatch
      | (v, _, rest) =>
          let ul := if 2 ^ 64 <=? v then 2 ^ 64 - 1 else v in
          let ul := if neg then u64 (- ul) else ul in
          Matched (u32 ul) rest
      end
  end.

(** The whole call: the count returned ([-1] is [EOF]) and [resp]
    (written as [0] while it was never assigned). *)
Definition sscanf_decimal (line : list byte) : Z * Z :=
  match scan_lit (bytes "HTTP/") line with
  | InputEnd => (-1, 0)
  | Mismatch => (0, 0)
  | Matched _ s1 =>
      match scan_float s1 with
      | InputEnd => (-1, 0)
      | Mismatch => (0, 0)
      | Matched _ s2 =>
          match scan_uint (skip_space s2) with
          | InputEnd => (-1, 0)
          | Mismatch => (0, 0)
          | Matched resp s3 =>
              match skip_space s3 with
              | [] => (1, resp)
              | _ => (2, resp)
              end
          end
      end
  end.

Definition glibc : Libc := {| sscanf_status := sscanf_decimal |}.

(** ** Vocabulary of the statements *)

(** The one-bits of [x] among its low [n] positions. *)
Definition ones_below (n : nat) (x : Z) : nat :=
  List.length (filter (fun i => Z.testbit x (Z.of_nat i)) (seq 0 n)).

(** The number of one-bits of a 64-bit value. *)
Definition popcount (x : Z) : Z := Z.of_nat (ones_below 64 x).

(** [n] rounds of [happy <<= 1; happy |= 1]. *)
Fixpoint seed (n : nat) (h : Z) : Z :=
  match n with
  | O => h
  | S n' => seed n' (or1 (shl1 h))
  end.

(** The bytes of [s] before the first one at which [stop] holds. *)
Fixpoint until (stop : byte -> bool) (s : list byte) : list byte :=
  match s with
  | [] => []
  | b :: t => if stop b then [] else b :: until stop t
  end.

Definition is_eol (b : byte) : bool :=
  Byte.eqb b CR || Byte.eqb b LF || Byte.eqb b NUL.

(** The response line a buffer holds: of its first 127 bytes, those
    before the first CR, LF or NUL. *)
Definition status_line (buf : list byte) : list byte :=
  until is_eol (firstn 127 buf).

(** The receive loop as a relation: [recv_run tmo st x] when the loop
    started in [st] is left by [x]. *)
Inductive recv_run (tmo : Z) : recv_state -> recv_exit -> Prop :=
  | run_exit st x :
      recv_step tmo st = inr x -> recv_run tmo st x
  | run_pass st st' x :
      recv_step tmo st = inl st' -> recv_run tmo st' x -> recv_run tmo st x.

(** The bytes still to arrive. *)
Fixpoint sock_bytes (s : list sock_event) : Z :=
  match s with
  | [] => 0
  | Seg bs :: rest => Z.of_nat (List.length bs) + sock_bytes rest
  | _ :: rest => sock_bytes rest
  end.

(** Two connections deliver the same events, segment by segment of
    the same sizes, and the same first [n] bytes. *)
Inductive sock_agree : nat -> list sock_event -> list sock_event -> Prop :=
  | agree_nil n : sock_agree n [] []
  | agree_seg n bs1 bs2 s1 s2 :
      List.length bs1 = List.length bs2 ->
      firstn n bs1 = firstn n bs2 ->
      sock_agree (n - List.length bs1) s1 s2 ->
      sock_agree n (Seg bs1 :: s1) (Seg bs2 :: s2)
  | agree_err n s1 s2 :
      sock_agree n s1 s2 -> sock_agree n (RdErr :: s1) (RdErr :: s2)
  | agree_quiet n s1 s2 :
      sock_agree n s1 s2 -> sock_agree n (Quiet :: s1) (Quiet :: s2).

(** Two response buffers of the full size with the same first 127
    bytes. *)
Definition buf_agree (b1 b2 : list byte) : Prop :=
  List.length b1 = 128%nat /\ List.length b2 = 128%nat
  /\ firstn 127 b1 = firstn 127 b2.

(** Two states of the receive loop that differ only in bytes of the
    response past the first 127, with a byte count that stays below
    [2^32]. *)
Definition st_agree (st1 st2 : recv_state) : Prop :=
  rs_i st1 = rs_i st2
  /\ rs_rlen st1 = rs_rlen st2
  /\ 0 <= rs_rlen st1
  /\ buf_agree (rs_buf st1) (rs_buf st2)
  /\ sock_agree (Z.to_nat (127 - rs_rlen st1)) (rs_sock st1) (rs_sock st2)
  /\ rs_rlen st1 + sock_bytes (rs_sock st1) < 2 ^ 32.

Definition exit_agree (x1 x2 : recv_exit) : Prop :=
  match x1, x2 with
  | Timed_out b1, Timed_out b2 => buf_agree b1 b2
  | Read_done i1 r1 b1, Read_done i2 r2 b2 =>
      i1 = i2 /\ r1 = r2 /\ buf_agree b1 b2
  | _, _ => False
  end.

Section Runs.

Context {dbl : Double} {libc : Libc}.



End Runs.



(** ** Sample inputs

    Concrete probes, targets and answers of the world, in the
    arithmetic of the source, on which the statements of Part II are
    exercised. *)

Definition fl (z : Z) : @D binary64 := @d_of_Z binary64 z.

(** Every parameter left to its default. *)
Definition probe_unset : @vrt_backend_probe binary64 :=
  {| url := None; request := None; timeout := fl 0; interval := fl 0;
     exp_status := 0; window := 0; threshold := 0; initial := UINT_MAX |}.

Definition probe_with (w t i : Z) : @vrt_backend_probe binary64 :=
  {| url := None; request := None; timeout := fl 0; interval := fl 0;
     exp_status := 0; window := w; threshold := t; initial := i |}.

Definition backend_new : @backend binary64 :=
  {| display_name := "b1"; healthy := false; health_changed := fl 0;
     be_probe := false; vsc_happy := Some 0 |}.

(** A target as [VBP_Insert] prepares it before seeding, with a given
    history in [happy]. *)
Definition target_with (p : @vrt_backend_probe binary64) (h : Z)
  : @vbp_target binary64 :=
  set_happy h (vbp_build_req None (vbp_set_defaults (alloc_target p true))).

(** A target on the heap, due at [d]. *)
Definition target_due (d : Z) : @vbp_target binary64 :=
  set_due (fl d) (target_with probe_unset 0).

Definition heap_one (d : Z) : @binheap binary64 :=
  binheap_insert [] (target_due d).

(** Whether a call has returned, and what. *)
Definition is_returned {A : Type} (o : outcome A) : bool :=
  match o with
  | Returned _ => true
  | _ => false
  end.

Definition returned {A : Type} (o : outcome A) (d : A) : A :=
  match o with
  | Returned r => r
  | _ => d
  end.

(** The clock of the sample runs: reading [k] is [100 + k]. *)
Definition clock (k : nat) : @D binary64 := fl (100 + Z.of_nat k).

(** A target and its backend as [VBP_Insert] leaves them. *)
Definition inserted (p : @vrt_backend_probe binary64)
  : @vbp_target binary64 * @backend binary64 :=
  returned (VBP_Insert backend_new p None clock)
    (alloc_target p true, backend_new).

(** A peer that is connected to at time 1000 and takes the whole
    request; what it sends back is [s], and the probe has received it
    by [1000 + rtt]. *)
Definition env_answering (s : list sock_event) (rtt : @D binary64)
  : @poke_env binary64 :=
  {| t_start := fl 1000; conn := Some AF_INET; t_conn := fl 1000;
     wr_ret := req_len (fst (inserted probe_unset));
     sock := s; t_recv := @dadd binary64 (fl 1000) rtt |}.

Definition resp_200 : list byte := bytes "HTTP/1.1 200 OK" ++ CRLF ++ CRLF.
Definition resp_500 : list byte := bytes "HTTP/1.1 500 Err" ++ CRLF ++ CRLF.

(** A response of [2^32 + 16] bytes: a head of 128 bytes that starts
    with a 500 status line, filler up to [2^32] bytes, and 16 bytes
    more. *)
Definition head_500 : list byte :=
  bytes "HTTP/1.1 500 Internal Server Error" ++ CRLF ++ repeat x2e 92.

Definition filler : list byte := repeat x2e (Z.to_nat (2 ^ 32 - 128)).

Definition tail_200 : list byte := bytes "HTTP/1.1 200 OK" ++ [LF].
Definition tail_500 : list byte := bytes "HTTP/1.1 500 No" ++ [LF].

Definition huge_response (tail : list byte) : list sock_event :=
  [Seg head_500; Seg filler; Seg tail].

(** The seeded target at the start of a probe. *)
Definition target_probing : @vbp_target binary64 :=
  vbp_start_poke (fst (inserted probe_unset)).

(** A peer whose socket takes [n] bytes of the request. *)
Definition env_writing (n : Z) : @poke_env binary64 :=
  {| t_start := fl 1000; conn := Some AF_INET; t_conn := fl 1000;
     wr_ret := n; sock := []; t_recv := fl 1001 |}.

(** A placeholder result. *)
Definition no_result : @poke_result binary64 :=
  {| pr_vt := target_probing; pr_closed := false |}.


Definition is_some {A : Type} (o : option A) : bool :=
  match o with
  | Some _ => true
  | None => false
  end.








(** The seeded target after one probe answered by [resp_200]. *)
Definition target_after_200 : @vbp_target binary64 :=
  match vbp_task (libc := glibc) (env_answering [Seg resp_200] (fl 1))
          (fl 1002) (fst (inserted probe_unset))
          (snd (inserted probe_unset)) with
  | Returned (Some vt, _, _) => vt
  | _ => fst (inserted probe_unset)
  end.

(** A response that ends after ten bytes, inside the status. *)
Definition resp_cut_short : list byte := bytes "HTTP/1.1 2".

(** A probe whose request is the empty string. *)
Definition probe_empty_request : @vrt_backend_probe binary64 :=
  {| url := None; request := Some []; timeout := fl 0; interval := fl 0;
     exp_status := 0; window := 0; threshold := 0; initial := UINT_MAX |}.

(** The seeded target as the dispatcher submits it. *)
Definition target_running : @vbp_target binary64 :=
  set_running 1 (fst (inserted probe_unset)).

(** One task on the seeded target, answered by [s] after one second. *)
Definition task_answered (s : list sock_event)
  : outcome (option (@vbp_target binary64) * @backend binary64
             * option (@health_line binary64)) :=
  vbp_task (libc := glibc) (env_answering s (fl 1)) (fl 1002)
    (fst (inserted probe_unset)) (snd (inserted probe_unset)).

(** A placeholder result of a task. *)
Definition no_task : option (@vbp_target binary64) * @backend binary64
                     * option (@health_line binary64) :=
  (None, backend_new, None).

(** The target a task left, when it left one. *)
Definition target_left (o : option (@vbp_target binary64))
  : @vbp_target binary64 :=
  match o with
  | Some v => v
  | None => target_probing
  end.

(* ================================================================== *)
(** * Part II: properties                                              *)
(* ================================================================== *)

(** ** Bits *)

Lemma bit0_testbit (x : Z) : bit0 x = Z.testbit x 0.
Proof.
  unfold bit0. rewrite Z.bit0_odd.
  change 1 with (Z.ones 1). rewrite Z.land_ones by lia.
  rewrite Zodd_mod. change (2 ^ 1) with 2.
  destruct (Z.eqb_spec (x mod 2) 0) as [E | E]; rewrite E || idtac.
  - reflexivity.
  - assert (x mod 2 = 1) as -> by (pose proof (Z.mod_pos_bound x 2); lia).
    reflexivity.
Qed.

Lemma filter_seq_shift (f : nat -> bool) (n s : nat) :
  filter f (seq (S s) n) = map S (filter (fun i => f (S i)) (seq s n)).
Proof.
  revert s. induction n as [| n IH]; intros s; simpl; [reflexivity |].
  rewrite IH. destruct (f (S s)); reflexivity.
Qed.

Lemma ones_below_S (n : nat) (x : Z) :
  ones_below (S n) x
  = ((if Z.testbit x 0 then 1 else 0) + ones_below n (Z.shiftr x 1))%nat.
Proof.
  unfold ones_below. cbn [seq filter]. rewrite filter_seq_shift.
  change (Z.of_nat 0) with 0.
  assert (E : filter (fun i => Z.testbit x (Z.of_nat (S i))) (seq 0 n)
              = filter (fun i => Z.testbit (Z.shiftr x 1) (Z.of_nat i)) (seq 0 n)).
  { apply filter_ext. intros i. rewrite Z.shiftr_spec by lia.
    f_equal. lia. }
  destruct (Z.testbit x 0); cbn [List.length]; rewrite length_map, E;
    reflexivity.
Qed.

(** The counting loop adds to [j] the one-bits among the low [n]
    positions, as long as the counter cannot wrap. *)
Lemma count_window_spec (n : nat) :
  forall u j, 0 <= j -> j + Z.of_nat n < 2 ^ 32 ->
  count_window n u j = j + Z.of_nat (ones_below n u).
Proof.
  induction n as [| n IH]; intros u j Hj Hn.
  - unfold ones_below. simpl. lia.
  - cbn [count_window]. rewrite ones_below_S, bit0_testbit.
    destruct (Z.testbit u 0).
    + unfold u32. rewrite Z.mod_small by lia. rewrite IH by lia. lia.
    + rewrite IH by lia. lia.
Qed.

Lemma filter_none {A : Type} (f : A -> bool) (l : list A) :
  (forall a, In a l -> f a = false) -> filter f l = [].
Proof.
  induction l as [| a l IH]; intros H; simpl; [reflexivity |].
  rewrite (H a) by (left; reflexivity). apply IH.
  intros b Hb. apply H. right. exact Hb.
Qed.

Lemma ones_below_land_ones (w : nat) (x : Z) :
  (w <= 64)%nat ->
  ones_below 64 (Z.land x (Z.ones (Z.of_nat w))) = ones_below w x.
Proof.
  intros Hw. unfold ones_below.
  replace 64%nat with (w + (64 - w))%nat at 1 by lia.
  rewrite seq_app, filter_app, length_app.
  assert (E1 : filter (fun i => Z.testbit (Z.land x (Z.ones (Z.of_nat w))) (Z.of_nat i))
                 (seq 0 w)
               = filter (fun i => Z.testbit x (Z.of_nat i)) (seq 0 w)).
  { apply filter_ext_in. intros i Hi. apply in_seq in Hi.
    rewrite Z.land_spec, Z.ones_spec_low by lia. apply andb_true_r. }
  assert (E2 : filter (fun i => Z.testbit (Z.land x (Z.ones (Z.of_nat w))) (Z.of_nat i))
                 (seq (0 + w) (64 - w)) = []).
  { apply filter_none. intros i Hi. apply in_seq in Hi.
    rewrite Z.land_spec, Z.ones_spec_high by lia. apply andb_false_r. }
  rewrite E1, E2. simpl. lia.
Qed.

(** ** The aggregator *)

Section Aggregator.

Context {dbl : Double}.

Lemma avg_update_frame (vt : vbp_target) :
  happy (avg_update vt) = happy vt
  /\ probe (avg_update vt) = probe vt
  /\ vt_backend (avg_update vt) = vt_backend vt
  /\ resp_buf (avg_update vt) = resp_buf vt
  /\ last (avg_update vt) = last vt.
Proof.
  unfold avg_update. destruct (bit0 (happy vt)); repeat split; reflexivity.
Qed.

(** What [vbp_has_poked] leaves in the target: the averages updated and
    [good] recomputed, whether or not a backend is attached. *)
Lemma has_poked_target (now : D) (vt : vbp_target) (be : backend) :
  fst (fst (vbp_has_poked now vt be))
  = set_good (count_window (Z.to_nat (window (probe vt))) (happy vt) 0)
      (avg_update vt).
Proof.
  unfold vbp_has_poked.
  destruct (avg_update_frame vt) as (Eh & Ep & _).
  rewrite Eh, Ep.
  destruct (vt_backend _); [| reflexivity].
  destruct (threshold _ <=? good _), (healthy be); reflexivity.
Qed.

Lemma has_poked_happy (now : D) (vt : vbp_target) (be : backend) :
  happy (fst (fst (vbp_has_poked now vt be))) = happy vt
  /\ probe (fst (fst (vbp_has_poked now vt be))) = probe vt.
Proof.
  rewrite has_poked_target. cbn [set_good happy probe].
  destruct (avg_update_frame vt) as (Eh & Ep & _). split; assumption.
Qed.

(** The value [vbp_has_poked] stores in [good], for a window that the
    32-bit counter can count. *)
Lemma has_poked_good (now : D) (vt : vbp_target) (be : backend) :
  0 <= window (probe vt) < 2 ^ 32 ->
  good (fst (fst (vbp_has_poked now vt be)))
  = Z.of_nat (ones_below (Z.to_nat (window (probe vt))) (happy vt)).
Proof.
  intros Hw. rewrite has_poked_target. cbn [set_good good].
  rewrite count_window_spec by lia. lia.
Qed.

Lemma has_poked_frame (now : D) (vt : vbp_target) (be : backend) :
  vt_backend (fst (fst (vbp_has_poked now vt be))) = vt_backend vt
  /\ be_probe (snd (fst (vbp_has_poked now vt be))) = be_probe be.
Proof.
  split.
  - rewrite has_poked_target. cbn [set_good vt_backend].
    apply (avg_update_frame vt).
  - unfold vbp_has_poked. destruct (vt_backend _); [| reflexivity].
    destruct (threshold _ <=? good _), (healthy be); reflexivity.
Qed.

(** With a backend attached, [healthy] ends as the comparison of
    [good] with the threshold. *)
Lemma has_poked_healthy (now : D) (vt : vbp_target) (be : backend) :
  vt_backend vt = true ->
  healthy (snd (fst (vbp_has_poked now vt be)))
  = (threshold (probe vt) <=? good (fst (fst (vbp_has_poked now vt be)))).
Proof.
  intros Hb. rewrite has_poked_target. unfold vbp_has_poked.
  destruct (avg_update_frame vt) as (Eh & Ep & Eb & _).
  cbn [set_good vt_backend probe good]. rewrite Eb, Hb, Ep, Eh.
  destruct (threshold (probe vt) <=? _), (healthy be); reflexivity.
Qed.

(** C1.  After [vbp_has_poked], [good] is the popcount of the low
    [window] bits of [happy], [popcount (happy & ((1 << window) - 1))],
    whatever [happy] holds and for every window from 1 to 64. *)
Theorem has_poked_good_popcount (now : D) (vt : vbp_target) (be : backend) :
  1 <= window (probe vt) <= 64 ->
  let vt' := fst (fst (vbp_has_poked now vt be)) in
  good vt'
  = popcount (Z.land (happy vt') (Z.shiftl 1 (window (probe vt')) - 1)).
Proof.
  intros Hw vt'. subst vt'.
  destruct (has_poked_happy now vt be) as [-> ->].
  rewrite has_poked_good by lia.
  change (Z.shiftl 1 (window (probe vt)) - 1)
    with (Z.ones (window (probe vt))).
  unfold popcount.
  rewrite <- (Z2Nat.id (window (probe vt))) at 2 by lia.
  rewrite ones_below_land_ones by lia. reflexivity.
Qed.

(** C2.  With a backend attached, [vbp_has_poked] leaves [healthy]
    true exactly when [good >= threshold] and false exactly when
    [good < threshold]; it writes the current time to [health_changed]
    when the flag changes value (the messages "Back healthy" and "Went
    sick") and leaves [health_changed] alone when it does not ("Still
    healthy", "Still sick"). *)
Theorem has_poked_health (now : D) (vt : vbp_target) (be : backend) :
  vt_backend vt = true ->
  let r := vbp_has_poked now vt be in
  let vt' := fst (fst r) in
  let be' := snd (fst r) in
  (healthy be' = true <-> threshold (probe vt') <= good vt')
  /\ (healthy be' = false <-> good vt' < threshold (probe vt'))
  /\ (healthy be' <> healthy be ->
      health_changed be' = now
      /\ exists l, snd r = Some l
                   /\ (hl_msg l = Back_healthy \/ hl_msg l = Went_sick))
  /\ (healthy be' = healthy be ->
      health_changed be' = health_changed be
      /\ exists l, snd r = Some l
                   /\ (hl_msg l = Still_healthy \/ hl_msg l = Still_sick)).
Proof.
  intros Hb r vt' be'. subst r vt' be'. unfold vbp_has_poked.
  destruct (avg_update_frame vt) as (_ & _ & Eb & _).
  cbn [set_good vt_backend probe good]. rewrite Eb, Hb.
  set (j := count_window _ _ _).
  set (t := threshold (probe (avg_update vt))).
  destruct (Z.leb_spec t j) as [Hle | Hlt];
    destruct (healthy be) eqn:Hh; cbn;
    repeat split; try lia; try congruence; intros;
    try (eexists; split; [reflexivity |]; cbn; auto);
    try (exfalso; congruence).
Qed.

End Aggregator.

(** ** Seeding *)

Lemma shl1_double (x : Z) : shl1 x = 2 * (x mod 2 ^ 63).
Proof.
  unfold shl1, u64. rewrite Z.shiftl_mul_pow2 by lia.
  change (2 ^ 1) with 2. change (2 ^ 64) with (2 * 2 ^ 63).
  rewrite (Z.mul_comm x 2). apply Z.mul_mod_distr_l; lia.
Qed.

Lemma or1_shl1 (x : Z) : or1 (shl1 x) = 2 * (x mod 2 ^ 63) + 1.
Proof.
  rewrite shl1_double. unfold or1.
  assert (H : Z.land (2 * (x mod 2 ^ 63)) 1 = 0).
  { change 1 with (Z.ones 1). rewrite Z.land_ones by lia.
    change (2 ^ 1) with 2. rewrite Z.mul_comm. apply Z.mod_mul. lia. }
  rewrite <- (Z.lxor_lor _ _ H). symmetry. apply Z.add_nocarry_lxor. exact H.
Qed.

(** Seeding a bitmap of [a] low ones gives one more low one, up to the
    64 the bitmap holds. *)
Lemma seed_step_ones (a : nat) :
  (a <= 64)%nat ->
  or1 (shl1 (Z.ones (Z.of_nat a))) = Z.ones (Z.of_nat (Nat.min (S a) 64)).
Proof.
  intros Ha. rewrite or1_shl1, !Z.ones_equiv.
  destruct (Nat.eq_dec a 64) as [-> | Hne].
  - reflexivity.
  - rewrite Nat.min_l by lia.
    assert (H63 : 2 ^ Z.of_nat a <= 2 ^ 63)
      by (apply Z.pow_le_mono_r; lia).
    assert (Hp : 0 < 2 ^ Z.of_nat a) by (apply Z.pow_pos_nonneg; lia).
    rewrite Z.mod_small by lia.
    rewrite Nat2Z.inj_succ, Z.pow_succ_r by lia. lia.
Qed.

Lemma seed_ones (n : nat) :
  forall a, (a <= 64)%nat ->
  seed n (Z.ones (Z.of_nat a)) = Z.ones (Z.of_nat (Nat.min (a + n) 64)).
Proof.
  induction n as [| n IH]; intros a Ha; cbn [seed].
  - rewrite Nat.add_0_r, Nat.min_l by lia. reflexivity.
  - rewrite seed_step_ones by exact Ha.
    rewrite IH by lia. f_equal. f_equal. lia.
Qed.

Lemma ones_below_ones (m a : nat) :
  ones_below m (Z.ones (Z.of_nat a)) = Nat.min m a.
Proof.
  unfold ones_below. induction m as [| m IH]; [reflexivity |].
  rewrite seq_S, filter_app, length_app, IH. cbn [filter Nat.add].
  destruct (Nat.lt_ge_cases m a) as [Hlt | Hge].
  - rewrite Z.ones_spec_low by lia. cbn [List.length]. lia.
  - rewrite Z.ones_spec_high by lia. cbn [List.length]. lia.
Qed.

Section Seeding.

Context {dbl : Double}.

Lemma start_poke_frame (vt : vbp_target) :
  happy (vbp_start_poke vt) = shl1 (happy vt)
  /\ probe (vbp_start_poke vt) = probe vt
  /\ vt_backend (vbp_start_poke vt) = vt_backend vt.
Proof. repeat split; reflexivity. Qed.

(** The seeding loop: [n] rounds on [happy], the parameters and the
    attachment as they were. *)
Lemma insert_loop_spec (clk : nat -> D) (n : nat) :
  forall u k vt be,
  let r := insert_loop n u clk k vt be in
  happy (snd (fst r)) = seed n (happy vt)
  /\ probe (snd (fst r)) = probe vt
  /\ vt_backend (snd (fst r)) = vt_backend vt
  /\ be_probe (snd r) = be_probe be.
Proof.
  induction n as [| n IH]; intros u k vt be; cbn [insert_loop].
  - cbn. repeat split; reflexivity.
  - set (s1 := if u =? 0 then (k, vt, be)
               else let '(v, b, _) := vbp_has_poked (clk k) vt be in
                    (S k, v, b)).
    assert (H1 : happy (snd (fst s1)) = happy vt
                 /\ probe (snd (fst s1)) = probe vt
                 /\ vt_backend (snd (fst s1)) = vt_backend vt
                 /\ be_probe (snd s1) = be_probe be).
    { subst s1. destruct (u =? 0); [cbn; repeat split; reflexivity |].
      pose proof (has_poked_happy (clk k) vt be) as (Hh & Hp).
      pose proof (has_poked_frame (clk k) vt be) as (Hb & Hq).
      destruct (vbp_has_poked (clk k) vt be) as [[v b] l].
      cbn in *. repeat split; assumption. }
    destruct s1 as [[k1 vt1] be1]. cbn [fst snd] in H1.
    destruct H1 as (Hh1 & Hp1 & Hb1 & Hq1).
    set (vt3 := set_happy (or1 (happy (vbp_start_poke vt1)))
                  (vbp_start_poke vt1)).
    pose proof (has_poked_happy (clk k1) vt3 be1) as (Hh & Hp).
    pose proof (has_poked_frame (clk k1) vt3 be1) as (Hb & Hq).
    destruct (vbp_has_poked (clk k1) vt3 be1) as [[vt4 be4] l].
    cbn [fst snd] in Hh, Hp, Hb, Hq.
    specialize (IH (u32 (u + 1)) (S k1) vt4 be4). cbv zeta in IH.
    destruct IH as (I1 & I2 & I3 & I4).
    rewrite I1, I2, I3, I4, Hh, Hp, Hb, Hq.
    subst vt3. cbn [set_happy happy probe vt_backend vbp_start_poke].
    rewrite Hh1, Hp1, Hb1, Hq1. repeat split; reflexivity.
Qed.

(** What [VBP_Insert] returns for a backend without a probe: the
    target carries [initial] rounds of seeding, and [good] and
    [healthy] are those of the last call of [vbp_has_poked]. *)
Lemma insert_returns (b : backend) (p : vrt_backend_probe)
    (hosthdr : option (list byte)) (clk : nat -> D) :
  be_probe b = false ->
  let p' := probe (vbp_set_defaults (alloc_target p true)) in
  exists vt b',
    VBP_Insert b p hosthdr clk = Returned (vt, b')
    /\ probe vt = p'
    /\ happy vt = seed (Z.to_nat (initial p')) 0
    /\ (0 <= window p' < 2 ^ 32 ->
        good vt = Z.of_nat (ones_below (Z.to_nat (window p')) (happy vt)))
    /\ healthy b' = (threshold p' <=? good vt).
Proof.
  intros Hb p'. unfold VBP_Insert. rewrite Hb.
  set (vt0 := vbp_build_req hosthdr (vbp_set_defaults (alloc_target p true))).
  assert (E0 : probe vt0 = p' /\ happy vt0 = 0 /\ vt_backend vt0 = true)
    by (repeat split; reflexivity).
  destruct E0 as (Ep0 & Eh0 & Eb0).
  pose proof (insert_loop_spec clk (Z.to_nat (initial (probe vt0))) 0 O vt0 b)
    as Hl. cbv zeta in Hl.
  destruct (insert_loop _ 0 clk 0%nat vt0 b) as [[k vt1] b1].
  cbn [fst snd] in Hl. destruct Hl as (Hh & Hp & Hv & _).
  pose proof (has_poked_happy (clk k) vt1 (set_be_probe true b1)) as (Fh & Fp).
  pose proof (has_poked_good (clk k) vt1 (set_be_probe true b1)) as Fg.
  pose proof (has_poked_healthy (clk k) vt1 (set_be_probe true b1)) as Fb.
  destruct (vbp_has_poked (clk k) vt1 (set_be_probe true b1)) as [[vt2 b2] l].
  cbn [fst snd] in Fh, Fp, Fg, Fb.
  exists vt2, b2. split; [reflexivity |].
  rewrite Fp, Fh, Hp, Hh, Ep0, Eh0. split; [reflexivity |].
  split; [reflexivity |].
  rewrite Hp, Ep0, Hh, Eh0 in Fg. rewrite Hp, Ep0 in Fb.
  split; [exact Fg |]. apply Fb. rewrite Hv. exact Eb0.
Qed.

(** C6, as amended.  For a backend without a probe and a probe spec
    whose initial count after the defaults is at most 64, [VBP_Insert]
    returns a target whose [happy] holds exactly [initial] one-bits,
    the low ones:
    [popcount (happy & ((1 << (initial + 1)) - 1)) = initial]. *)
Theorem insert_seeds_initial_ones (b : backend) (p : vrt_backend_probe)
    (hosthdr : option (list byte)) (clk : nat -> D) :
  be_probe b = false ->
  let i := initial (probe (vbp_set_defaults (alloc_target p true))) in
  0 <= i <= 64 ->
  exists vt b',
    VBP_Insert b p hosthdr clk = Returned (vt, b')
    /\ happy vt = Z.ones i
    /\ popcount (Z.land (happy vt) (Z.shiftl 1 (i + 1) - 1)) = i.
Proof.
  intros Hb i Hi.
  destruct (insert_returns b p hosthdr clk Hb) as (vt & b' & Hr & _ & Hh & _).
  fold i in Hh. exists vt, b'. split; [exact Hr |].
  assert (E : happy vt = Z.ones i).
  { rewrite Hh. change 0 with (Z.ones (Z.of_nat 0)).
    rewrite seed_ones by lia. f_equal. lia. }
  split; [exact E |]. rewrite E.
  change (Z.shiftl 1 (i + 1) - 1) with (Z.ones (i + 1)).
  rewrite Z.land_ones by lia.
  assert (Hp : 0 < 2 ^ i) by (apply Z.pow_pos_nonneg; lia).
  rewrite Z.mod_small
    by (rewrite Z.ones_equiv, Z.pow_add_r by lia; change (2 ^ 1) with 2; lia).
  unfold popcount. rewrite <- (Z2Nat.id i) at 1 by lia.
  rewrite ones_below_ones. lia.
Qed.

(** C7, as amended.  For a backend without a probe and a probe spec
    whose values after the defaults have [initial = threshold] and a
    threshold that is at most the window and at most 64, the backend
    is healthy when [VBP_Insert] returns, with [good = threshold]. *)
Theorem insert_initial_threshold_healthy (b : backend)
    (p : vrt_backend_probe) (hosthdr : option (list byte))
    (clk : nat -> D) :
  be_probe b = false ->
  let p' := probe (vbp_set_defaults (alloc_target p true)) in
  initial p' = threshold p' ->
  0 <= threshold p' <= window p' ->
  threshold p' <= 64 ->
  window p' < 2 ^ 32 ->
  exists vt b',
    VBP_Insert b p hosthdr clk = Returned (vt, b')
    /\ good vt = threshold p'
    /\ healthy b' = true.
Proof.
  intros Hb p' Hi Ht H64 Hw.
  destruct (insert_returns b p hosthdr clk Hb)
    as (vt & b' & Hr & _ & Hh & Hg & Hy).
  fold p' in Hh, Hg, Hy. exists vt, b'. split; [exact Hr |].
  assert (E : good vt = threshold p').
  { rewrite Hg by lia. rewrite Hh.
    change 0 with (Z.ones (Z.of_nat 0)) at 1.
    rewrite seed_ones, ones_below_ones by lia. lia. }
  split; [exact E |]. rewrite Hy, E. apply Z.leb_refl.
Qed.

End Seeding.

(** ** Defaults *)

Section Defaults.

Context {dbl : Double}.

(** C3, as amended.  After [vbp_set_defaults] the initial count is at
    most the threshold.  The threshold is never compared with the
    window: both are what the caller gave, or their defaults 3 and 8
    where the caller gave 0. *)
Theorem set_defaults_clamps_initial (vt : vbp_target) :
  let p := probe vt in
  let p' := probe (vbp_set_defaults vt) in
  initial p' <= threshold p'
  /\ threshold p' = (if threshold p =? 0 then 3 else threshold p)
  /\ window p' = (if window p =? 0 then 8 else window p).
Proof.
  intros p p'. subst p p'. unfold vbp_set_defaults.
  cbn [set_probe probe initial threshold window].
  repeat split.
  destruct (Z.ltb_spec (if threshold (probe vt) =? 0 then 3
                        else threshold (probe vt))
              (if initial (probe vt) =? UINT_MAX
               then u32 ((if threshold (probe vt) =? 0 then 3
                          else threshold (probe vt)) - 1)
               else initial (probe vt))); lia.
Qed.

End Defaults.

(** ** The dispatcher *)

Section Dispatcher.

Context {dbl : Double}.

Lemma sift_lands (v : vbp_target) (h : binheap) :
  forall i, In (vbp_update v (i - 1 + sift_pos v h)) (reindex i (sift v h)).
Proof.
  induction h as [| x t IH]; intros i; cbn [sift sift_pos].
  - cbn [reindex]. left. f_equal. lia.
  - destruct (vbp_cmp v x); cbn [reindex].
    + left. f_equal. lia.
    + right. replace (i - 1 + (1 + sift_pos v t))
        with (i + 1 - 1 + sift_pos v t) by lia.
      apply IH.
Qed.

(** C5, as amended.  When the root of the heap is not due later than
    [now], the dispatcher takes it off the heap, sets [running = 1],
    sets its due time to [now + interval] (the clock reading, not the
    old due time, plus the interval), puts it back on the heap and
    leaves the loop to submit it. *)
Theorem thread_reschedules_from_now (now : D) (heap : binheap)
    (vt : vbp_target) :
  binheap_root heap = Some vt ->
  dltb now (due vt) = false ->
  exists vt' heap',
    vbp_thread now heap = Submit vt' heap'
    /\ running vt' = 1
    /\ due vt' = dadd now (interval (probe vt))
    /\ probe vt' = probe vt
    /\ In vt' heap'.
Proof.
  intros Hroot Hdue. unfold vbp_thread. rewrite Hroot, Hdue.
  eexists. eexists. split; [reflexivity |].
  repeat split.
  unfold binheap_insert.
  match goal with
  | |- In (vbp_update ?v (sift_pos ?v ?h)) _ =>
      replace (sift_pos v h) with (1 - 1 + sift_pos v h) by lia
  end.
  apply sift_lands.
Qed.

End Dispatcher.

(** ** The receive loop *)

Lemma sock_read_weight (n : nat) (s : list sock_event) :
  forall r d s', sock_read n s = (r, d, s') -> 0 < r ->
  (sock_weight s' < sock_weight s)%nat.
Proof.
  induction s as [| ev rest IH]; intros r d s' E Hr; cbn [sock_read] in E.
  - inversion E; subst. lia.
  - destruct ev as [bs | |].
    + inversion E; subst; clear E. rewrite length_firstn in Hr.
      cbn [sock_weight].
      destruct (Nat.leb_spec (List.length bs) n); cbn [sock_weight]; [lia |].
      rewrite length_skipn. lia.
    + inversion E; subst. lia.
    + specialize (IH _ _ _ E Hr). cbn [sock_weight]. lia.
Qed.

Lemma recv_step_weight (tmo : Z) (st st' : recv_state) :
  recv_step tmo st = inl st' ->
  (sock_weight (rs_sock st') < sock_weight (rs_sock st))%nat.
Proof.
  unfold recv_step. intros E.
  destruct ((_ =? 0) || (tmo <=? 0)); [discriminate |].
  destruct (rs_rlen st <? RESP_BUF_SIZE).
  - destruct (sock_read _ _) as [[r d] s'] eqn:R.
    destruct (Z.ltb_spec 0 r); [| discriminate].
    inversion E; subst; cbn [rs_sock].
    eapply sock_read_weight; eassumption.
  - destruct (sock_read _ _) as [[r d] s'] eqn:R.
    destruct (Z.ltb_spec 0 r); [| discriminate].
    inversion E; subst; cbn [rs_sock].
    eapply sock_read_weight; eassumption.
Qed.

Lemma sock_weight_pos (s : list sock_event) : (0 < sock_weight s)%nat.
Proof. destruct s as [| [bs | |] rest]; cbn [sock_weight]; lia. Qed.

(** *** Buffers *)

Lemma nth_error_buf_write (off : nat) (d buf : list byte) (j : nat) :
  (off <= List.length buf)%nat ->
  nth_error (buf_write off d buf) j
  = if (j <? off)%nat then nth_error buf j
    else if (j <? off + List.length d)%nat then nth_error d (j - off)
         else nth_error buf j.
Proof.
  intros Hoff. unfold buf_write.
  rewrite nth_error_app, length_firstn, Nat.min_l by lia.
  destruct (Nat.ltb_spec j off).
  - rewrite nth_error_firstn.
    destruct (Nat.ltb_spec j off); [reflexivity | lia].
  - rewrite nth_error_app.
    destruct (Nat.ltb_spec (j - off) (List.length d));
      destruct (Nat.ltb_spec j (off + List.length d)); try lia.
    + reflexivity.
    + rewrite nth_error_skipn. f_equal. lia.
Qed.

Lemma buf_write_length (off : nat) (d buf : list byte) :
  (off + List.length d <= List.length buf)%nat ->
  List.length (buf_write off d buf) = List.length buf.
Proof.
  intros H. unfold buf_write.
  rewrite !length_app, length_firstn, length_skipn. lia.
Qed.

Lemma buf_set_length (i : nat) (b : byte) (buf : list byte) :
  List.length (buf_set i b buf) = List.length buf.
Proof.
  revert i. induction buf as [| x t IH]; intros [| i]; cbn; auto.
Qed.

Lemma nth_error_buf_set (i : nat) (b : byte) (buf : list byte) (j : nat) :
  nth_error (buf_set i b buf) j
  = if ((j =? i) && (j <? List.length buf))%nat then Some b
    else nth_error buf j.
Proof.
  revert i j. induction buf as [| x t IH]; intros [| i] [| j]; cbn;
    try reflexivity.
  - rewrite andb_false_r. reflexivity.
  - rewrite IH. reflexivity.
Qed.

Lemma cut_at_length (p : option nat) (buf : list byte) :
  List.length (cut_at p buf) = List.length buf.
Proof. destruct p; cbn; [apply buf_set_length | reflexivity]. Qed.

Lemma status_cut_length (buf : list byte) :
  List.length (status_cut buf) = List.length buf.
Proof. unfold status_cut. rewrite !cut_at_length. apply buf_set_length. Qed.

Lemma firstn_agree_nth (n : nat) (l1 l2 : list byte) :
  firstn n l1 = firstn n l2 <->
  (forall j, (j < n)%nat -> nth_error l1 j = nth_error l2 j).
Proof.
  split.
  - intros H j Hj.
    pose proof (f_equal (fun l => nth_error l j) H) as E. cbn in E.
    rewrite !nth_error_firstn in E.
    destruct (Nat.ltb_spec j n); [exact E | lia].
  - intros H. apply nth_error_ext. intros j.
    rewrite !nth_error_firstn.
    destruct (Nat.ltb_spec j n); [apply H; assumption | reflexivity].
Qed.

(** Buffers that agree leave the same string to parse. *)
Lemma buf_agree_status_cut (b1 b2 : list byte) :
  buf_agree b1 b2 -> status_cut b1 = status_cut b2.
Proof.
  intros (L1 & L2 & E). unfold status_cut.
  assert (H : buf_set (Z.to_nat (RESP_BUF_SIZE - 1)) NUL b1
              = buf_set (Z.to_nat (RESP_BUF_SIZE - 1)) NUL b2).
  { apply nth_error_ext. intros j. rewrite !nth_error_buf_set, L1, L2.
    change (Z.to_nat (RESP_BUF_SIZE - 1)) with 127%nat.
    destruct (Nat.eqb_spec j 127) as [-> | Hj]; [reflexivity |].
    cbn [andb].
    destruct (Nat.lt_ge_cases j 127) as [Hlt | Hge].
    - apply (proj1 (firstn_agree_nth 127 b1 b2) E). exact Hlt.
    - rewrite (proj2 (nth_error_None b1 j)) by lia.
      rewrite (proj2 (nth_error_None b2 j)) by lia. reflexivity. }
  rewrite H. reflexivity.
Qed.

(** *** Reads *)

Lemma sock_bytes_nonneg (s : list sock_event) : 0 <= sock_bytes s.
Proof.
  induction s as [| [bs | |] rest IH]; cbn [sock_bytes]; lia.
Qed.

Lemma sock_agree_poll (n : nat) (s1 s2 : list sock_event) :
  sock_agree n s1 s2 -> sock_poll s1 = sock_poll s2.
Proof. intros H; inversion H; reflexivity. Qed.

Lemma sock_read_agree (c : nat) (n : nat) (s1 s2 : list sock_event) :
  sock_agree n s1 s2 ->
  forall r1 d1 t1 r2 d2 t2,
  sock_read c s1 = (r1, d1, t1) -> sock_read c s2 = (r2, d2, t2) ->
  r1 = r2
  /\ List.length d1 = List.length d2
  /\ (List.length d1 <= c)%nat
  /\ firstn n d1 = firstn n d2
  /\ sock_agree (n - List.length d1) t1 t2
  /\ (r1 = -1 \/ r1 = Z.of_nat (List.length d1))
  /\ sock_bytes t1 = sock_bytes s1 - Z.of_nat (List.length d1).
Proof.
  induction 1 as [n | n bs1 bs2 s1 s2 Hl Hf Hs _ | n s1 s2 Hs _ | n s1 s2 Hs IH];
    intros r1 d1 t1 r2 d2 t2 E1 E2; cbn [sock_read] in E1, E2.
  - inversion E1; inversion E2; subst. cbn.
    repeat split; auto; try lia. constructor.
  - inversion E1; inversion E2; subst; clear E1 E2.
    rewrite !length_firstn, <- Hl. cbn [sock_bytes].
    repeat split; try lia.
    + apply firstn_agree_nth. intros j Hj. rewrite !nth_error_firstn.
      destruct (Nat.ltb_spec j c); [| reflexivity].
      apply (proj1 (firstn_agree_nth n bs1 bs2) Hf). exact Hj.
    + destruct (Nat.leb_spec (List.length bs1) c).
      * replace (n - Nat.min c (List.length bs1))%nat
          with (n - List.length bs1)%nat by lia.
        exact Hs.
      * apply agree_seg.
        -- rewrite !length_skipn. lia.
        -- rewrite Nat.min_l by lia.
           rewrite <- !skipn_firstn_comm.
           apply nth_error_ext. intros j. rewrite !nth_error_skipn.
           rewrite !nth_error_firstn.
           destruct (Nat.ltb_spec (c + j) n); [| reflexivity].
           apply (proj1 (firstn_agree_nth n bs1 bs2) Hf). assumption.
        -- rewrite length_skipn.
           replace (n - Nat.min c (List.length bs1) - (List.length bs1 - c))%nat
             with (n - List.length bs1)%nat by lia.
           exact Hs.
    + destruct (Nat.leb_spec (List.length bs1) c); cbn [sock_bytes];
        rewrite ?length_skipn; lia.
  - inversion E1; inversion E2; subst. cbn [List.length sock_bytes].
    repeat split; auto; try lia.
    replace (n - 0)%nat with n by lia. exact Hs.
  - destruct (IH _ _ _ _ _ _ E1 E2) as (? & ? & ? & ? & ? & ? & ?).
    cbn [sock_bytes]. repeat split; auto.
Qed.

(** *** One pass of the loop on two agreeing states *)

Lemma recv_step_agree (tmo : Z) (st1 st2 : recv_state) :
  st_agree st1 st2 ->
  match recv_step tmo st1, recv_step tmo st2 with
  | inl a, inl b => st_agree a b
  | inr x, inr y => exit_agree x y
  | _, _ => False
  end.
Proof.
  intros (Ei & Er & H0 & (L1 & L2 & Eb) & Hs & Hw).
  unfold recv_step. rewrite <- Ei, <- Er, <- (sock_agree_poll _ _ _ Hs).
  destruct ((_ =? 0) || (tmo <=? 0)).
  { cbn. repeat split; assumption. }
  unfold RESP_BUF_SIZE, SCRATCH_SIZE.
  destruct (Z.ltb_spec (rs_rlen st1) 128) as [Hlt | Hge].
  - destruct (sock_read _ (rs_sock st1)) as [[r1 d1] t1] eqn:R1.
    destruct (sock_read _ (rs_sock st2)) as [[r2 d2] t2] eqn:R2.
    destruct (sock_read_agree _ _ _ _ Hs _ _ _ _ _ _ R1 R2)
      as (<- & Hd & Hc & Hf & Ht & Hr & Hb).
    pose proof (sock_bytes_nonneg t1) as Hp.
    assert (Hbuf : buf_agree (buf_write (Z.to_nat (rs_rlen st1)) d1 (rs_buf st1))
                     (buf_write (Z.to_nat (rs_rlen st1)) d2 (rs_buf st2))).
    { repeat split.
      - rewrite buf_write_length; lia.
      - rewrite buf_write_length; lia.
      - apply firstn_agree_nth. intros j Hj.
        rewrite !nth_error_buf_write by lia. rewrite <- Hd.
        destruct (Nat.ltb_spec j (Z.to_nat (rs_rlen st1))).
        + apply (proj1 (firstn_agree_nth 127 _ _) Eb). exact Hj.
        + destruct (Nat.ltb_spec j (Z.to_nat (rs_rlen st1) + List.length d1)).
          * apply (proj1 (firstn_agree_nth _ _ _) Hf). lia.
          * apply (proj1 (firstn_agree_nth 127 _ _) Eb). exact Hj. }
    destruct (Z.ltb_spec 0 r1) as [Hpos | Hnp].
    + assert (r1 = Z.of_nat (List.length d1)) as Hr1 by lia.
      unfold st_agree. cbn [rs_i rs_rlen rs_buf rs_sock]. unfold u32.
      rewrite Z.mod_small by lia.
      repeat split; try lia; try apply Hbuf.
      replace (Z.to_nat (127 - (rs_rlen st1 + r1)))
        with (Z.to_nat (127 - rs_rlen st1) - List.length d1)%nat by lia.
      exact Ht.
    + cbn. repeat split; apply Hbuf.
  - destruct (sock_read _ (rs_sock st1)) as [[r1 d1] t1] eqn:R1.
    destruct (sock_read _ (rs_sock st2)) as [[r2 d2] t2] eqn:R2.
    destruct (sock_read_agree _ _ _ _ Hs _ _ _ _ _ _ R1 R2)
      as (<- & Hd & Hc & Hf & Ht & Hr & Hb).
    pose proof (sock_bytes_nonneg t1) as Hp.
    destruct (Z.ltb_spec 0 r1) as [Hpos | Hnp].
    + assert (r1 = Z.of_nat (List.length d1)) as Hr1 by lia.
      unfold st_agree. cbn [rs_i rs_rlen rs_buf rs_sock]. unfold u32.
      rewrite Z.mod_small by lia.
      repeat split; try lia; try assumption.
      replace (Z.to_nat (127 - (rs_rlen st1 + r1))) with 0%nat by lia.
      replace (Z.to_nat (127 - rs_rlen st1)) with 0%nat in Ht by lia.
      exact Ht.
    + cbn. repeat split; assumption.
Qed.

Lemma recv_run_agree (tmo : Z) (st1 : recv_state) (x1 : recv_exit) :
  recv_run tmo st1 x1 ->
  forall st2, st_agree st1 st2 ->
  exists x2, recv_run tmo st2 x2 /\ exit_agree x1 x2.
Proof.
  induction 1 as [st1 x1 E | st1 st1' x1 E _ IH]; intros st2 Ha;
    pose proof (recv_step_agree tmo st1 st2 Ha) as Hstep; rewrite E in Hstep;
    destruct (recv_step tmo st2) as [st2' | x2] eqn:E2; try contradiction.
  - exists x2. split; [apply run_exit; exact E2 | exact Hstep].
  - destruct (IH st2' Hstep) as (x2 & Hx & Hag).
    exists x2. split; [eapply run_pass; eassumption | exact Hag].
Qed.

(** Every buffer the loop touches keeps the size of [resp_buf]: no
    read stores a byte outside it. *)
Lemma recv_step_length (tmo : Z) (st : recv_state) :
  List.length (rs_buf st) = 128%nat -> 0 <= rs_rlen st ->
  match recv_step tmo st with
  | inl st' => List.length (rs_buf st') = 128%nat /\ 0 <= rs_rlen st'
  | inr (Timed_out b) => List.length b = 128%nat
  | inr (Read_done _ _ b) => List.length b = 128%nat
  end.
Proof.
  intros L H0. unfold recv_step.
  destruct ((_ =? 0) || (tmo <=? 0)); [exact L |].
  unfold RESP_BUF_SIZE.
  assert (Hrd : forall c s r d t, sock_read c s = (r, d, t) ->
                  (List.length d <= c)%nat).
  { intros c s. induction s as [| [bs | |] rest IH]; intros r d t E;
      cbn [sock_read] in E; try (inversion E; subst; cbn; lia).
    - inversion E; subst. rewrite length_firstn. lia.
    - eapply IH; eassumption. }
  destruct (Z.ltb_spec (rs_rlen st) 128) as [Hlt | Hge].
  - destruct (sock_read _ _) as [[r d] t] eqn:R.
    pose proof (Hrd _ _ _ _ _ R) as Hd.
    assert (List.length (buf_write (Z.to_nat (rs_rlen st)) d (rs_buf st))
            = 128%nat) by (rewrite buf_write_length; lia).
    destruct (0 <? r); cbn [rs_buf rs_rlen]; [| assumption].
    split; [assumption |]. unfold u32. apply Z.mod_pos_bound. lia.
  - destruct (sock_read _ _) as [[r d] t] eqn:R.
    destruct (0 <? r); cbn [rs_buf rs_rlen]; [| assumption].
    split; [assumption |]. unfold u32. apply Z.mod_pos_bound. lia.
Qed.

Lemma recv_run_length (tmo : Z) (st : recv_state) (x : recv_exit) :
  recv_run tmo st x ->
  List.length (rs_buf st) = 128%nat -> 0 <= rs_rlen st ->
  match x with
  | Timed_out b => List.length b = 128%nat
  | Read_done _ _ b => List.length b = 128%nat
  end.
Proof.
  induction 1 as [st x E | st st' x E _ IH]; intros L H0;
    pose proof (recv_step_length tmo st L H0) as Hs; rewrite E in Hs.
  - exact Hs.
  - apply IH; apply Hs.
Qed.

(** *** A receive past [2^32] bytes

    [rlen] is an [unsigned]: once [2^32] bytes have been read it is
    back at 0, and the next read stores into [resp_buf] again. *)

Lemma buf_write_nil (off : nat) (buf : list byte) : buf_write off [] buf = buf.
Proof.
  unfold buf_write. cbn [List.length app]. rewrite Nat.add_0_r.
  apply firstn_skipn.
Qed.

(** A pass that stores a whole segment in [resp_buf]. *)
Lemma recv_step_fill (tmo : Z) (bs : list byte) (rest : list sock_event)
    (i rlen : Z) (buf : list byte) :
  0 < tmo -> 0 <= rlen < 128 ->
  (0 < List.length bs)%nat -> Z.of_nat (List.length bs) <= 128 - rlen ->
  recv_step tmo {| rs_sock := Seg bs :: rest; rs_i := i; rs_rlen := rlen;
                   rs_buf := buf |}
  = inl {| rs_sock := rest; rs_i := Z.of_nat (List.length bs);
           rs_rlen := rlen + Z.of_nat (List.length bs);
           rs_buf := buf_write (Z.to_nat rlen) bs buf |}.
Proof.
  intros Ht Hr Hn Hc. unfold recv_step, RESP_BUF_SIZE.
  cbn [rs_sock rs_i rs_rlen rs_buf sock_poll sock_read].
  destruct (Z.ltb_spec 0 tmo); [| lia].
  destruct (Z.leb_spec tmo 0); [lia |]. cbn [Z.eqb orb].
  destruct (Z.ltb_spec rlen 128); [| lia].
  rewrite firstn_all2 by lia.
  destruct (Nat.leb_spec (List.length bs) (Z.to_nat (128 - rlen))); [| lia].
  destruct (Z.ltb_spec 0 (Z.of_nat (List.length bs))); [| lia].
  unfold u32. rewrite Z.mod_small by lia. reflexivity.
Qed.

(** A pass that drains into the scratch buffer. *)
Lemma recv_step_drain (tmo : Z) (bs : list byte) (rest : list sock_event)
    (i rlen : Z) (buf : list byte) :
  0 < tmo -> 128 <= rlen -> (0 < List.length bs)%nat ->
  recv_step tmo {| rs_sock := Seg bs :: rest; rs_i := i; rs_rlen := rlen;
                   rs_buf := buf |}
  = inl {| rs_sock := if (List.length bs <=? Z.to_nat SCRATCH_SIZE)%nat
                      then rest
                      else Seg (skipn (Z.to_nat SCRATCH_SIZE) bs) :: rest;
           rs_i := Z.of_nat (Nat.min (Z.to_nat SCRATCH_SIZE) (List.length bs));
           rs_rlen := u32 (rlen + Z.of_nat (Nat.min (Z.to_nat SCRATCH_SIZE)
                                             (List.length bs)));
           rs_buf := buf |}.
Proof.
  intros Ht Hr Hn. unfold recv_step, RESP_BUF_SIZE.
  cbn [rs_sock rs_i rs_rlen rs_buf sock_poll sock_read].
  destruct (Z.ltb_spec 0 tmo); [| lia].
  destruct (Z.leb_spec tmo 0); [lia |]. cbn [Z.eqb orb].
  destruct (Z.ltb_spec rlen 128); [lia |].
  rewrite length_firstn.
  destruct (Z.ltb_spec 0 (Z.of_nat (Nat.min (Z.to_nat SCRATCH_SIZE)
                                       (List.length bs))));
    [reflexivity | unfold SCRATCH_SIZE in *; lia].
Qed.

(** The end of file. *)
Lemma recv_step_eof (tmo i rlen : Z) (buf : list byte) :
  0 < tmo ->
  recv_step tmo {| rs_sock := []; rs_i := i; rs_rlen := rlen; rs_buf := buf |}
  = inr (Read_done 0 (u32 rlen) buf).
Proof.
  intros Ht. unfold recv_step.
  cbn [rs_sock rs_i rs_rlen rs_buf sock_poll sock_read].
  destruct (Z.ltb_spec 0 tmo); [| lia].
  destruct (Z.leb_spec tmo 0); [lia |]. cbn [Z.eqb orb].
  destruct (rlen <? RESP_BUF_SIZE); cbn [Z.ltb Z.compare];
    rewrite ?buf_write_nil, Z.add_0_r; reflexivity.
Qed.

(** Draining a segment of [n] bytes moves [rlen] on by [n] modulo
    [2^32], provided it does not pass [2^32] before the last read. *)
Lemma recv_run_drain (tmo : Z) (x : recv_exit) (rest : list sock_event)
    (buf : list byte) :
  0 < tmo ->
  forall n bs i rlen,
  List.length bs = n -> (0 < n)%nat -> 128 <= rlen ->
  rlen + Z.of_nat n <= 2 ^ 32 ->
  (forall i', recv_run tmo {| rs_sock := rest; rs_i := i';
                             rs_rlen := u32 (rlen + Z.of_nat n);
                             rs_buf := buf |} x) ->
  recv_run tmo {| rs_sock := Seg bs :: rest; rs_i := i; rs_rlen := rlen;
                  rs_buf := buf |} x.
Proof.
  intros Ht n. induction n as [n IH] using lt_wf_ind.
  intros bs i rlen Hl Hn Hr Hb Hk.
  eapply run_pass; [apply recv_step_drain; lia |].
  rewrite Hl. unfold SCRATCH_SIZE.
  destruct (Nat.leb_spec n (Z.to_nat 8192)) as [Hs | Hs].
  - rewrite Nat.min_r by lia. apply Hk.
  - rewrite Nat.min_l by lia.
    unfold u32. rewrite Z.mod_small by lia.
    apply (IH (n - Z.to_nat 8192)%nat); try lia.
    + rewrite length_skipn. lia.
    + replace (rlen + Z.of_nat (Z.to_nat 8192)
               + Z.of_nat (n - Z.to_nat 8192))
        with (rlen + Z.of_nat n) by lia.
      exact Hk.
Qed.

(** 128 bytes, then [2^32 - 128] more, then a last segment: the last
    segment lands at the start of [resp_buf]. *)
Lemma recv_run_wrapped (tmo i : Z) (head pad tail buf : list byte) :
  0 < tmo ->
  List.length head = 128%nat -> List.length buf = 128%nat ->
  Z.of_nat (List.length pad) = 2 ^ 32 - 128 ->
  (0 < List.length tail <= 128)%nat ->
  recv_run tmo
    {| rs_sock := [Seg head; Seg pad; Seg tail]; rs_i := i; rs_rlen := 0;
       rs_buf := buf |}
    (Read_done 0 (Z.of_nat (List.length tail))
       (buf_write 0 tail (buf_write 0 head buf))).
Proof.
  intros Ht Lh Lb Lp Lt.
  eapply run_pass; [apply recv_step_fill; lia |].
  rewrite Lh. change (0 + Z.of_nat 128) with 128. change (Z.to_nat 0) with 0%nat.
  apply (recv_run_drain tmo _ _ _ Ht (List.length pad)); try lia.
  intros i'. rewrite Lp. replace (128 + (2 ^ 32 - 128)) with (2 ^ 32) by lia.
  change (u32 (2 ^ 32)) with 0.
  eapply run_pass; [apply recv_step_fill; lia |].
  change (Z.to_nat 0) with 0%nat. rewrite Z.add_0_l.
  apply run_exit. rewrite recv_step_eof by lia.
  unfold u32. rewrite Z.mod_small by lia. reflexivity.
Qed.

Section Receive.

Context {dbl : Double}.

(** The receive loop ends: a fuel of [sock_weight] is enough. *)
Lemma recv_loop_total (t_end t_now : D) (fuel : nat) :
  forall st, (sock_weight (rs_sock st) <= fuel)%nat ->
  exists x, recv_loop fuel t_end t_now st = Returned x.
Proof.
  induction fuel as [| fuel IH]; intros st Hw.
  - pose proof (sock_weight_pos (rs_sock st)). lia.
  - cbn [recv_loop].
    destruct (recv_step _ st) as [st' | x] eqn:E.
    + apply IH. apply recv_step_weight in E. lia.
    + exists x. reflexivity.
Qed.

Lemma recv_loop_run (t_end t_now : D) (fuel : nat) :
  forall st x, recv_loop fuel t_end t_now st = Returned x ->
  recv_run (tmo_ms t_end t_now) st x.
Proof.
  induction fuel as [| fuel IH]; intros st x E; cbn [recv_loop] in E.
  - discriminate.
  - destruct (recv_step _ st) as [st' | y] eqn:S.
    + eapply run_pass; [exact S | apply IH; exact E].
    + inversion E; subst. apply run_exit. exact S.
Qed.

Lemma recv_run_det (tmo : Z) (st : recv_state) (x y : recv_exit) :
  recv_run tmo st x -> recv_run tmo st y -> x = y.
Proof.
  intros Hx. revert y. induction Hx as [st x E | st st' x E _ IH];
    intros y Hy; inversion Hy; subst; try congruence.
  apply IH. congruence.
Qed.

(** The loop of the model computes what the relation describes. *)
Lemma recv_run_loop (t_end t_now : D) (st : recv_state) (x : recv_exit) :
  recv_run (tmo_ms t_end t_now) st x ->
  recv_loop (sock_weight (rs_sock st)) t_end t_now st = Returned x.
Proof.
  intros Hx.
  destruct (recv_loop_total t_end t_now (sock_weight (rs_sock st)) st
              (Nat.le_refl _)) as [y Hy].
  rewrite Hy. f_equal. eapply recv_run_det; [| exact Hx].
  eapply recv_loop_run. exact Hy.
Qed.

End Receive.

(** ** C strings *)

Lemma cstr_until (s : list byte) : cstr s = until (fun b => Byte.eqb b NUL) s.
Proof. induction s as [| b t IH]; cbn; [| rewrite IH]; reflexivity. Qed.

Lemma byte_eqb_eq (a b : byte) : Byte.eqb a b = true -> a = b.
Proof. apply Byte.byte_dec_bl. Qed.

(** Cutting a C string at the first [c] leaves what stood before the
    first [c] or NUL. *)
Lemma cstr_cut_at (c : byte) (s : list byte) :
  cstr (cut_at (strchr s c) s)
  = until (fun b => Byte.eqb b c || Byte.eqb b NUL) s.
Proof.
  induction s as [| b t IH]; [reflexivity |].
  cbn [strchr until].
  destruct (Byte.eqb b c) eqn:Ec; [reflexivity |].
  destruct (Byte.eqb b NUL) eqn:En; cbn [orb].
  - cbn [cut_at cstr]. rewrite En. reflexivity.
  - destruct (strchr t c) as [i |] eqn:Es; cbn [option_map cut_at buf_set cstr] in *;
      rewrite En, IH; reflexivity.
Qed.

Lemma until_cut_at_CR (s : list byte) :
  until (fun b => Byte.eqb b LF || Byte.eqb b NUL) (cut_at (strchr s CR) s)
  = until is_eol s.
Proof.
  induction s as [| b t IH]; [reflexivity |].
  cbn [strchr until]. unfold is_eol at 1.
  destruct (Byte.eqb b CR) eqn:Ec; [reflexivity |].
  destruct (Byte.eqb b NUL) eqn:En; cbn [orb].
  - cbn [cut_at until]. rewrite En, orb_true_r. reflexivity.
  - rewrite orb_false_r.
    destruct (strchr t CR) as [i |] eqn:Es;
      cbn [option_map cut_at buf_set until] in *;
      rewrite En, orb_false_r; destruct (Byte.eqb b LF); try reflexivity;
      rewrite IH; reflexivity.
Qed.

Lemma until_buf_set_NUL (stop : byte -> bool) (n : nat) :
  stop NUL = true ->
  forall s, until stop (buf_set n NUL s) = until stop (firstn n s).
Proof.
  intros Hs. induction n as [| n IH]; intros [| b t]; cbn; try reflexivity.
  - rewrite Hs. reflexivity.
  - rewrite IH. reflexivity.
Qed.

(** The C string that [vbp_poke] hands to [sscanf] is the response
    line of the buffer. *)
Lemma cstr_status_cut (buf : list byte) :
  cstr (status_cut buf) = status_line buf.
Proof.
  unfold status_cut, status_line.
  rewrite cstr_cut_at, until_cut_at_CR.
  apply until_buf_set_NUL. reflexivity.
Qed.

Lemma bit0_shl1 (x : Z) : bit0 (shl1 x) = false.
Proof.
  rewrite bit0_testbit. unfold shl1, u64.
  rewrite Z.mod_pow2_bits_low by lia. apply Z.shiftl_spec_low. lia.
Qed.

Lemma bit0_or1 (x : Z) : bit0 (or1 x) = true.
Proof.
  rewrite bit0_testbit. unfold or1. rewrite Z.lor_spec.
  apply orb_true_r.
Qed.

(** ** One probe *)

Section Probe.

Context {dbl : Double} {libc : Libc}.

Lemma poke_recv_total (e : poke_env) (vt : vbp_target) :
  exists x, poke_recv e vt = Returned x.
Proof. unfold poke_recv. apply recv_loop_total. cbn [rs_sock]. lia. Qed.

(** [like_response] touches [resp_buf] and [happy] only. *)
Lemma like_response_frame (vt : vbp_target) :
  let vt' := like_response vt in
  probe vt' = probe vt /\ good_xmit vt' = good_xmit vt
  /\ err_xmit vt' = err_xmit vt /\ good_recv vt' = good_recv vt
  /\ err_recv vt' = err_recv vt /\ avg vt' = avg vt /\ rate vt' = rate vt
  /\ last vt' = last vt /\ resp_buf vt' = status_cut (resp_buf vt)
  /\ happy vt' = (if status_ok (cstr (status_cut (resp_buf vt)))
                       (exp_status (probe vt))
                  then or1 (happy vt) else happy vt).
Proof.
  unfold like_response. cbn [set_resp_buf resp_buf probe].
  destruct (status_ok _ _); cbn; repeat split; reflexivity.
Qed.

Lemma poke_recv_ext (e : poke_env) (vt vt' : vbp_target) :
  probe vt' = probe vt -> resp_buf vt' = resp_buf vt ->
  poke_recv e vt' = poke_recv e vt.
Proof. unfold poke_recv. intros -> ->. reflexivity. Qed.

Lemma mark_family_frame (fam : proto) (vt : vbp_target) :
  let vt' := mark_family fam vt in
  probe vt' = probe vt /\ req_len vt' = req_len vt
  /\ resp_buf vt' = resp_buf vt /\ good_xmit vt' = good_xmit vt
  /\ err_xmit vt' = err_xmit vt /\ good_recv vt' = good_recv vt
  /\ happy vt' = happy vt /\ avg vt' = avg vt /\ rate vt' = rate vt.
Proof. destruct fam; cbn; repeat split; reflexivity. Qed.

Lemma good_receive_frame (e : poke_env) (raw : list byte) (vt : vbp_target) :
  let vt' := good_receive e raw vt in
  probe vt' = probe vt /\ good_xmit vt' = good_xmit vt
  /\ err_xmit vt' = err_xmit vt /\ good_recv vt' = or1 (good_recv vt)
  /\ avg vt' = avg vt /\ rate vt' = rate vt
  /\ last vt' = dsub (t_recv e) (t_start e)
  /\ resp_buf vt' = status_cut raw
  /\ happy vt' = (if status_ok (cstr (status_cut raw)) (exp_status (probe vt))
                  then or1 (happy vt) else happy vt).
Proof.
  unfold good_receive.
  match goal with
  | |- context [like_response ?v] =>
      destruct (like_response_frame v)
        as (-> & -> & -> & -> & _ & -> & -> & -> & -> & ->)
  end.
  cbn. repeat split; reflexivity.
Qed.

Lemma vbp_poke_paths (e : poke_env) (vt : vbp_target) (r : poke_result) :
  vbp_poke e vt = Returned r <-> poke_path e vt r.
Proof.
  assert (Hfam : forall fam, fam = AF_INET \/ fam = AF_INET6 ->
            fam <> AF_OTHER) by (intros ? [-> | ->]; discriminate).
  assert (Hrecv : forall fam,
            poke_recv e (set_good_xmit (or1 (good_xmit (mark_family fam vt)))
                           (mark_family fam vt)) = poke_recv e vt).
  { intros fam. apply poke_recv_ext; destruct fam; reflexivity. }
  assert (Hlen : forall fam, req_len (mark_family fam vt) = req_len vt)
    by (intros []; reflexivity).
  assert (Herr : forall fam buf,
            err_recv (set_resp_buf buf
              (set_good_xmit (or1 (good_xmit (mark_family fam vt)))
                 (mark_family fam vt))) = err_recv vt)
    by (intros [] ?; reflexivity).
  assert (Main : forall fam, fam = AF_INET \/ fam = AF_INET6 ->
            conn e = Some fam ->
            (vbp_poke e vt = Returned r <-> poke_path e vt r)).
  { intros fam Hf Hc. pose proof (Hfam fam Hf) as Hne.
    assert (E : vbp_poke e vt =
      let vt1 := mark_family fam vt in
      if tmo_ms (dadd (t_start e) (timeout (probe vt))) (t_conn e) <=? 0 then
        Returned {| pr_vt := vt1; pr_closed := true |}
      else if negb (wr_ret e =? req_len vt1) then
        Returned
          {| pr_vt := if wr_ret e <? 0
                      then set_err_xmit (or1 (err_xmit vt1)) vt1 else vt1;
             pr_closed := true |}
      else
        let vt2 := set_good_xmit (or1 (good_xmit vt1)) vt1 in
        match poke_recv e vt2 with
        | OutOfFuel => OutOfFuel
        | Wrong m => Wrong m
        | Returned (Timed_out buf) =>
            Returned {| pr_vt := set_resp_buf buf vt2; pr_closed := true |}
        | Returned (Read_done i rlen buf) =>
            if i <? 0 then
              let vt3 := set_resp_buf buf vt2 in
              Returned {| pr_vt := set_err_recv (or1 (err_recv vt3)) vt3;
                          pr_closed := true |}
            else if rlen =? 0 then
              Returned {| pr_vt := set_resp_buf buf vt2; pr_closed := true |}
            else
              Returned {| pr_vt := good_receive e buf vt2;
                          pr_closed := true |}
        end).
    { unfold vbp_poke. rewrite Hc. destruct Hf as [-> | ->]; reflexivity. }
    rewrite E; clear E. cbv zeta. rewrite Hlen, Hrecv.
    destruct (Z.leb_spec (tmo_ms (dadd (t_start e) (timeout (probe vt))) (t_conn e)) 0)
      as [Ht | Ht].
    { split.
      - intros H; inversion H; subst. eapply path_late; eauto.
      - intros H; inversion H; subst; try congruence; try lia.
        all: replace fam0 with fam by congruence; reflexivity. }
    destruct (Z.eqb_spec (wr_ret e) (req_len vt)) as [Ew | Ew]; cbn [negb].
    2:{ split.
        - intros H; inversion H; subst. eapply path_xmit; eauto.
        - intros H; inversion H; subst; try congruence; try lia.
          all: replace fam0 with fam by congruence; reflexivity. }
    destruct (poke_recv_total e vt) as [x Hx]. rewrite Hx.
    destruct x as [buf | i rlen buf].
    { split.
      - intros H; inversion H; subst. eapply path_timeout; eauto.
      - intros H; inversion H; subst; try congruence; try lia.
        all: replace fam0 with fam by congruence;
          replace buf0 with buf by congruence; reflexivity. }
    destruct (Z.ltb_spec i 0) as [Hi | Hi].
    { rewrite Herr. split.
      - intros H; inversion H; subst. eapply path_recv_err; eauto.
      - intros H; inversion H; subst; try congruence; try lia;
          match goal with
          | H1 : poke_recv e vt = Returned (Read_done ?a ?b ?c) |- _ =>
              rewrite Hx in H1; inversion H1; subst
          end; try lia.
        all: replace fam0 with fam by congruence; reflexivity. }
    destruct (Z.eqb_spec rlen 0) as [Hr | Hr].
    { subst rlen. split.
      - intros H; inversion H; subst. eapply path_empty; eauto.
      - intros H; inversion H; subst; try congruence; try lia;
          match goal with
          | H1 : poke_recv e vt = Returned (Read_done ?a ?b ?c) |- _ =>
              rewrite Hx in H1; inversion H1; subst
          end; try lia.
        all: replace fam0 with fam by congruence; reflexivity. }
    split.
    - intros H; inversion H; subst. eapply path_received; eauto.
    - intros H; inversion H; subst; try congruence; try lia;
        match goal with
        | H1 : poke_recv e vt = Returned (Read_done ?a ?b ?c) |- _ =>
            rewrite Hx in H1; inversion H1; subst
        end; try lia.
      all: replace fam0 with fam by congruence; reflexivity. }
  destruct (conn e) as [[| |] |] eqn:Hc.
  - apply (Main AF_INET); auto.
  - apply (Main AF_INET6); auto.
  - unfold vbp_poke. rewrite Hc. split; [discriminate |].
    intros H; inversion H; subst; congruence.
  - unfold vbp_poke. rewrite Hc. split.
    + intros H; inversion H; subst. apply path_no_conn. exact Hc.
    + intros H; inversion H; subst; try congruence; reflexivity.
Qed.

(** [vbp_poke] always comes back: it returns, or it stops on the
    wrong-family assertion. *)
Theorem vbp_poke_total (e : poke_env) (vt : vbp_target) :
  (exists r, vbp_poke e vt = Returned r)
  \/ (conn e = Some AF_OTHER /\ exists m, vbp_poke e vt = Wrong m).
Proof.
  destruct (conn e) as [[| |] |] eqn:Hc.
  3:{ right. split; [reflexivity |]. unfold vbp_poke. rewrite Hc.
      eexists; reflexivity. }
  3:{ left. eexists. apply vbp_poke_paths. apply path_no_conn. exact Hc. }
  all: left;
    match type of Hc with _ = Some ?fam =>
      assert (Hne : fam <> AF_OTHER) by discriminate;
      destruct (Z.leb_spec (tmo_ms (dadd (t_start e) (timeout (probe vt))) (t_conn e)) 0);
      [eexists; apply vbp_poke_paths; eapply path_late; eauto |];
      destruct (Z.eq_dec (wr_ret e) (req_len vt));
      [| eexists; apply vbp_poke_paths; eapply path_xmit; eauto];
      destruct (poke_recv_total e vt) as [[buf | i rlen buf] Hx];
      [eexists; apply vbp_poke_paths; eapply path_timeout; eauto |];
      destruct (Z.ltb_spec i 0);
      [eexists; apply vbp_poke_paths; eapply path_recv_err; eauto |];
      destruct (Z.eq_dec rlen 0);
      [subst; eexists; apply vbp_poke_paths; eapply path_empty; eauto
      | eexists; apply vbp_poke_paths; eapply path_received; eauto]
    end.
Qed.

(** C4, as amended.  Once the probe has a connection and time left, a
    [write] that returns anything but [req_len] makes it close the
    socket and return with [good_xmit] untouched; [err_xmit] is set
    only when [write] returned a negative value, and a short write
    with a non-negative return leaves it as it was.  A [write] that
    returns [req_len] sets [good_xmit] and leaves [err_xmit]. *)
Theorem poke_write_outcome (e : poke_env) (vt : vbp_target) (fam : proto) :
  conn e = Some fam -> fam <> AF_OTHER ->
  0 < tmo_ms (dadd (t_start e) (timeout (probe vt))) (t_conn e) ->
  exists r,
    vbp_poke e vt = Returned r
    /\ pr_closed r = true
    /\ (wr_ret e <> req_len vt ->
        good_xmit (pr_vt r) = good_xmit vt
        /\ err_xmit (pr_vt r)
           = (if wr_ret e <? 0 then or1 (err_xmit vt) else err_xmit vt))
    /\ (wr_ret e = req_len vt ->
        good_xmit (pr_vt r) = or1 (good_xmit vt)
        /\ err_xmit (pr_vt r) = err_xmit vt).
Proof.
  intros Hc Hfam Htmo.
  destruct (vbp_poke_total e vt) as [[r Hr] | [Hc' _]]; [| congruence].
  exists r. split; [exact Hr |].
  destruct (mark_family_frame fam vt) as (_ & _ & _ & Egx & Eex & _).
  apply vbp_poke_paths in Hr.
  inversion Hr; subst; try congruence; try lia;
    replace fam0 with fam in * by congruence;
    (split; [reflexivity |]); cbn [pr_vt];
    (split; [intros Hw; try congruence | intros Hw; try congruence]).
  - destruct (wr_ret e <? 0); cbn; rewrite ?Egx, ?Eex; split; reflexivity.
  - cbn. rewrite Egx, Eex. split; reflexivity.
  - cbn. rewrite Egx, Eex. split; reflexivity.
  - cbn. rewrite Egx, Eex. split; reflexivity.
  - match goal with
    | |- context [good_receive e ?raw ?v] =>
        destruct (good_receive_frame e raw v) as (_ & -> & -> & _)
    end. cbn. rewrite Egx, Eex. split; reflexivity.
Qed.


(** *** The response buffer *)

Lemma poke_recv_length (e : poke_env) (vt : vbp_target) (x : recv_exit) :
  List.length (resp_buf vt) = 128%nat ->
  poke_recv e vt = Returned x ->
  match x with
  | Timed_out b => List.length b = 128%nat
  | Read_done _ _ b => List.length b = 128%nat
  end.
Proof.
  intros L Hx. unfold poke_recv in Hx. apply recv_loop_run in Hx.
  apply (recv_run_length _ _ _ Hx); cbn [rs_buf rs_rlen]; [exact L | lia].
Qed.

Lemma nth_error_cut_at_NUL (p : option nat) (buf : list byte) (j : nat) :
  nth_error buf j = Some NUL -> nth_error (cut_at p buf) j = Some NUL.
Proof.
  intros H. destruct p as [i |]; cbn [cut_at]; [| exact H].
  rewrite nth_error_buf_set. destruct (_ && _); [reflexivity | exact H].
Qed.

Lemma status_cut_terminated (buf : list byte) :
  List.length buf = 128%nat ->
  nth_error (status_cut buf) 127 = Some NUL.
Proof.
  intros L. unfold status_cut. do 2 apply nth_error_cut_at_NUL.
  rewrite nth_error_buf_set, L. reflexivity.
Qed.

Lemma until_length_firstn (stop : byte -> bool) (n : nat) (s : list byte) :
  (List.length (until stop (firstn n s)) <= n)%nat.
Proof.
  revert s. induction n as [| n IH]; intros [| b t]; cbn; try lia.
  destruct (stop b); cbn; [lia |]. specialize (IH t). lia.
Qed.

(** X7.  No read of the response stores a byte outside the 128 bytes
    of [resp_buf]: in the model, where a store past the end would lengthen
    the list, the buffer keeps its size on every path.  When the probe
    gets to look at the response, byte 127 of the buffer is NUL, so the
    string given to [strchr] and [sscanf] ends within the buffer and
    holds at most 127 bytes. *)
Theorem poke_resp_buf_bounded (e : poke_env) (vt : vbp_target)
    (r : poke_result) :
  List.length (resp_buf vt) = 128%nat ->
  vbp_poke e (vbp_start_poke vt) = Returned r ->
  List.length (resp_buf (pr_vt r)) = 128%nat
  /\ (bit0 (good_recv (pr_vt r)) = true ->
      nth_error (resp_buf (pr_vt r)) 127 = Some NUL
      /\ (List.length (cstr (resp_buf (pr_vt r))) <= 127)%nat).
Proof.
  intros L Hr. apply vbp_poke_paths in Hr.
  assert (L' : List.length (resp_buf (vbp_start_poke vt)) = 128%nat).
  { cbn [vbp_start_poke resp_buf]. rewrite buf_set_length. exact L. }
  assert (Hm : forall fam,
            List.length (resp_buf (mark_family fam (vbp_start_poke vt)))
            = 128%nat).
  { intros fam. destruct (mark_family_frame fam (vbp_start_poke vt))
      as (_ & _ & -> & _). exact L'. }
  assert (Hs : forall fam,
            bit0 (good_recv (mark_family fam (vbp_start_poke vt))) = false).
  { intros fam. destruct (mark_family_frame fam (vbp_start_poke vt))
      as (_ & _ & _ & _ & _ & -> & _). apply bit0_shl1. }
  inversion Hr; subst; cbn [pr_vt].
  - split; [exact L' |]. cbn [vbp_start_poke good_recv].
    rewrite bit0_shl1. discriminate.
  - split; [apply Hm |]. rewrite Hs. discriminate.
  - destruct (wr_ret e <? 0); cbn - [bit0 mark_family];
      (split; [apply Hm |]); rewrite Hs; discriminate.
  - pose proof (poke_recv_length _ _ _ L' H3) as Lb.
    cbn - [bit0 mark_family]. split; [exact Lb |].
    rewrite Hs. discriminate.
  - pose proof (poke_recv_length _ _ _ L' H3) as Lb.
    cbn - [bit0 mark_family]. split; [exact Lb |].
    rewrite Hs. discriminate.
  - pose proof (poke_recv_length _ _ _ L' H3) as Lb.
    cbn - [bit0 mark_family]. split; [exact Lb |].
    rewrite Hs. discriminate.
  - pose proof (poke_recv_length _ _ _ L' H3) as Lb. cbn beta iota in Lb.
    match goal with
    | |- context [good_receive e raw ?v] =>
        destruct (good_receive_frame e raw v)
          as (_ & _ & _ & _ & _ & _ & _ & Eb & _)
    end.
    rewrite Eb, status_cut_length. split; [exact Lb |]. intros _.
    split; [apply status_cut_terminated; exact Lb |].
    rewrite cstr_status_cut. apply until_length_firstn.
Qed.

(** X8.  Two connections that deliver the same events and the same
    first 127 bytes, and fewer than [2^32] bytes in all, lead to the same
    verdict in [happy]. *)
Theorem poke_first_127_bytes (e : poke_env) (s2 : list sock_event)
    (vt : vbp_target) (r1 : poke_result) :
  List.length (resp_buf vt) = 128%nat ->
  sock_agree 127 (sock e) s2 ->
  sock_bytes (sock e) < 2 ^ 32 ->
  vbp_poke e vt = Returned r1 ->
  exists r2,
    vbp_poke (with_sock s2 e) vt = Returned r2
    /\ happy (pr_vt r2) = happy (pr_vt r1).
Proof.
  intros L Hag Hb Hr. apply vbp_poke_paths in Hr.
  assert (Hrecv : forall x1, poke_recv e vt = Returned x1 ->
            exists x2, poke_recv (with_sock s2 e) vt = Returned x2
                       /\ exit_agree x1 x2).
  { intros x1 Hx. unfold poke_recv in Hx. apply recv_loop_run in Hx.
    destruct (recv_run_agree _ _ _ Hx
                {| rs_sock := s2; rs_i := wr_ret e; rs_rlen := 0;
                   rs_buf := resp_buf vt |}) as (x2 & Hx2 & Hex).
    { unfold st_agree, buf_agree. cbn [rs_i rs_rlen rs_buf rs_sock].
      repeat split; try lia; assumption. }
    exists x2. split; [| exact Hex].
    unfold poke_recv. cbn [with_sock sock wr_ret t_start t_conn].
    apply (recv_run_loop _ _
             {| rs_sock := s2; rs_i := wr_ret e; rs_rlen := 0;
                rs_buf := resp_buf vt |}). exact Hx2. }
  inversion Hr; subst.
  - eexists. split; [apply vbp_poke_paths; apply path_no_conn; assumption |].
    reflexivity.
  - eexists. split;
      [apply vbp_poke_paths; eapply path_late; eassumption | reflexivity].
  - eexists. split;
      [apply vbp_poke_paths; eapply path_xmit; eassumption | reflexivity].
  - destruct (Hrecv _ H3) as ([b2 | ? ? ?] & Hx2 & Hex);
      [| contradiction].
    eexists. split;
      [apply vbp_poke_paths; eapply path_timeout; eassumption | reflexivity].
  - destruct (Hrecv _ H3) as ([? | i2 rl2 b2] & Hx2 & Hex);
      [contradiction |]. destruct Hex as (<- & <- & _).
    eexists. split;
      [apply vbp_poke_paths; eapply path_recv_err; eassumption | reflexivity].
  - destruct (Hrecv _ H3) as ([? | i2 rl2 b2] & Hx2 & Hex);
      [contradiction |]. destruct Hex as (<- & <- & _).
    eexists. split;
      [apply vbp_poke_paths; eapply path_empty; eassumption | reflexivity].
  - destruct (Hrecv _ H3) as ([? | i2 rl2 b2] & Hx2 & Hex);
      [contradiction |]. destruct Hex as (<- & <- & Hbuf).
    eexists. split;
      [apply vbp_poke_paths; eapply path_received; eassumption |].
    cbn [pr_vt].
    match goal with
    | |- happy (good_receive ?e2 b2 ?v) = _ =>
        destruct (good_receive_frame e2 b2 v)
          as (_ & _ & _ & _ & _ & _ & _ & _ & ->);
        destruct (good_receive_frame e raw v)
          as (_ & _ & _ & _ & _ & _ & _ & _ & ->)
    end.
    rewrite (buf_agree_status_cut _ _ Hbuf). reflexivity.
Qed.

(** What [vbp_poke] makes of a response of 128 bytes, [2^32 - 128]
    more, and a last segment: it judges the last segment. *)
Lemma poke_wrapped (e : poke_env) (vt : vbp_target)
    (head pad tail : list byte) :
  conn e = Some AF_INET ->
  0 < tmo_ms (dadd (t_start e) (timeout (probe vt))) (t_conn e) ->
  wr_ret e = req_len vt ->
  List.length head = 128%nat -> List.length (resp_buf vt) = 128%nat ->
  Z.of_nat (List.length pad) = 2 ^ 32 - 128 ->
  (0 < List.length tail <= 128)%nat ->
  vbp_poke (with_sock [Seg head; Seg pad; Seg tail] e) vt
  = Returned
      {| pr_vt :=
           good_receive e (buf_write 0 tail (buf_write 0 head (resp_buf vt)))
             (set_good_xmit (or1 (good_xmit (mark_family AF_INET vt)))
                (mark_family AF_INET vt));
         pr_closed := true |}.
Proof.
  intros Hc Ht Hw Lh Lb Lp Lt. apply vbp_poke_paths.
  change (good_receive e) with
    (good_receive (with_sock [Seg head; Seg pad; Seg tail] e)).
  eapply (path_received _ _ AF_INET 0 (Z.of_nat (List.length tail)));
    try assumption; try discriminate; try lia.
  unfold poke_recv. cbn [with_sock sock wr_ret t_start t_conn].
  apply (recv_run_loop _ _
           {| rs_sock := [Seg head; Seg pad; Seg tail]; rs_i := wr_ret e;
              rs_rlen := 0; rs_buf := resp_buf vt |}).
  apply recv_run_wrapped; assumption.
Qed.

(** *** Consecutive probes *)

Lemma poke_avg_rate (e : poke_env) (vt : vbp_target) (r : poke_result) :
  vbp_poke e vt = Returned r ->
  avg (pr_vt r) = avg vt /\ rate (pr_vt r) = rate vt.
Proof.
  intros Hr. apply vbp_poke_paths in Hr.
  inversion Hr; subst; cbn [pr_vt];
    try (destruct (mark_family_frame fam vt)
           as (_ & _ & _ & _ & _ & _ & _ & Ea & Er)).
  - split; reflexivity.
  - split; assumption.
  - destruct (wr_ret e <? 0); cbn; split; assumption.
  - cbn. split; assumption.
  - cbn. split; assumption.
  - cbn. split; assumption.
  - match goal with
    | |- context [good_receive e raw ?v] =>
        destruct (good_receive_frame e raw v)
          as (_ & _ & _ & _ & -> & -> & _)
    end. cbn. split; assumption.
Qed.





End Probe.

(** ** The average in exact arithmetic *)


(** [rate] starts at 0 and is never lowered: it is not negative in any
    target that [VBP_Insert] made and tasks probed. *)
Lemma avg_update_rate_exact (vt : @vbp_target exactQ) :
  (0 <= rate vt)%Q -> (0 <= rate (avg_update vt))%Q.
Proof.
  intros H. unfold avg_update. destruct (bit0 (happy vt)); [| exact H].
  cbn [set_avg_rate rate dltb dadd d_of_Z exactQ].
  destruct (negb _); [| exact H].
  change (inject_Z 1) with (1 # 1)%Q. lra.
Qed.

Lemma has_poked_rate_exact (now : Q) (vt : @vbp_target exactQ)
    (be : @backend exactQ) :
  (0 <= rate vt)%Q ->
  (0 <= rate (fst (fst (vbp_has_poked (dbl := exactQ) now vt be))))%Q.
Proof.
  intros H. rewrite has_poked_target. cbn [set_good rate].
  apply avg_update_rate_exact. exact H.
Qed.

Lemma insert_loop_rate_exact (clk : nat -> Q) (n : nat) :
  forall u k (vt : @vbp_target exactQ) (be : @backend exactQ),
  (0 <= rate vt)%Q ->
  (0 <= rate (snd (fst (insert_loop (dbl := exactQ) n u clk k vt be))))%Q.
Proof.
  induction n as [| n IH]; intros u k vt be H; cbn [insert_loop].
  - exact H.
  - set (s1 := if u =? 0 then (k, vt, be)
               else let '(v, b, _) := vbp_has_poked (dbl := exactQ) (clk k) vt be in
                    (S k, v, b)).
    assert (H1 : (0 <= rate (snd (fst s1)))%Q).
    { subst s1. destruct (u =? 0); [exact H |].
      pose proof (has_poked_rate_exact (clk k) vt be H) as Hr.
      destruct (vbp_has_poked (dbl := exactQ) (clk k) vt be) as [[v b] l]. exact Hr. }
    destruct s1 as [[k1 vt1] be1]. cbn [fst snd] in H1.
    set (vt3 := set_happy (or1 (happy (vbp_start_poke vt1)))
                  (vbp_start_poke vt1)).
    assert (H3 : (0 <= rate vt3)%Q) by exact H1.
    pose proof (has_poked_rate_exact (clk k1) vt3 be1 H3) as Hr.
    destruct (vbp_has_poked (dbl := exactQ) (clk k1) vt3 be1) as [[vt4 be4] l].
    apply IH. exact Hr.
Qed.

Lemma insert_rate_exact (b : @backend exactQ) (p : @vrt_backend_probe exactQ)
    (hosthdr : option (list byte)) (clk : nat -> Q)
    (vt : @vbp_target exactQ) (b' : @backend exactQ) :
  VBP_Insert (dbl := exactQ) b p hosthdr clk = Returned (vt, b') ->
  (0 <= rate vt)%Q.
Proof.
  unfold VBP_Insert. destruct (be_probe b); [discriminate |].
  set (vt0 := vbp_build_req hosthdr (vbp_set_defaults (alloc_target p true))).
  assert (H0 : (0 <= rate vt0)%Q) by exact (Qle_refl 0).
  pose proof (insert_loop_rate_exact clk (Z.to_nat (initial (probe vt0)))
                0 O vt0 b H0) as Hl.
  destruct (insert_loop (dbl := exactQ) _ 0 clk 0%nat vt0 b) as [[k vt1] b1].
  cbn [fst snd] in Hl.
  pose proof (has_poked_rate_exact (clk k) vt1 (set_be_probe true b1) Hl)
    as Hr.
  destruct (vbp_has_poked (dbl := exactQ) (clk k) vt1 (set_be_probe true b1))
    as [[vt2 b2] l].
  intros E. inversion E; subst. exact Hr.
Qed.

Lemma task_rate_exact {libc : Libc} (e : @poke_env exactQ) (now : Q)
    (vt vt' : @vbp_target exactQ) (be be' : @backend exactQ)
    (line : option (@health_line exactQ)) :
  vbp_task (dbl := exactQ) e now vt be = Returned (Some vt', be', line) ->
  (0 <= rate vt)%Q -> (0 <= rate vt')%Q.
Proof.
  unfold vbp_task. intros H Hr.
  destruct (req_len vt <=? 0); [discriminate |].
  destruct (vbp_poke e (vbp_start_poke vt)) as [r | |] eqn:P;
    try discriminate.
  destruct (poke_avg_rate _ _ _ P) as (_ & Er).
  cbn [vbp_start_poke rate] in Er.
  assert (Hp : (0 <= rate (pr_vt r))%Q) by (rewrite Er; exact Hr).
  pose proof (has_poked_rate_exact now (pr_vt r) be Hp) as Hh.
  destruct (vbp_has_poked (dbl := exactQ) now (pr_vt r) be)
    as [[vt1 be1] l].
  cbn [fst] in Hh.
  destruct (running vt1 <? 0); inversion H; subst. exact Hh.
Qed.


(** ** More on one probe *)

Lemma shiftr_or1 (x : Z) : Z.shiftr (or1 x) 1 = Z.shiftr x 1.
Proof.
  unfold or1. rewrite Z.shiftr_lor. change (Z.shiftr 1 1) with 0.
  apply Z.lor_0_r.
Qed.

Section ProbeFrame.

Context {dbl : Double} {libc : Libc}.

(** Splits a returned [vbp_poke] into its paths and computes the
    fields of the target each leaves. *)
Ltac poke_paths Hr :=
  apply vbp_poke_paths in Hr; inversion Hr; subst; clear Hr;
  try match goal with fam : proto |- _ => destruct fam end;
  try congruence;
  cbn [pr_vt]; unfold good_receive, like_response;
  repeat match goal with
         | |- context [if status_ok ?a ?b then _ else _] =>
             destruct (status_ok a b)
         | |- context [if wr_ret ?x <? 0 then _ else _] =>
             destruct (wr_ret x <? 0)
         end;
  cbn - [bit0 or1 shl1 Z.shiftr status_cut].

(** The fields no path of [vbp_poke] writes. *)
Lemma poke_fields (e : poke_env) (vt : vbp_target) (r : poke_result) :
  vbp_poke e vt = Returned r ->
  vt_backend (pr_vt r) = vt_backend vt /\ probe (pr_vt r) = probe vt
  /\ req (pr_vt r) = req vt /\ req_len (pr_vt r) = req_len vt
  /\ good (pr_vt r) = good vt /\ avg (pr_vt r) = avg vt
  /\ rate (pr_vt r) = rate vt /\ due (pr_vt r) = due vt
  /\ running (pr_vt r) = running vt /\ heap_idx (pr_vt r) = heap_idx vt.
Proof. intros Hr. poke_paths Hr; repeat split; reflexivity. Qed.

(** [happy] after [vbp_poke]: as it was, or with the newest bit set. *)
Lemma poke_happy_value (e : poke_env) (vt : vbp_target) (r : poke_result) :
  vbp_poke e vt = Returned r ->
  happy (pr_vt r) = happy vt \/ happy (pr_vt r) = or1 (happy vt).
Proof. intros Hr. poke_paths Hr; auto. Qed.

(** X3.  [vbp_poke] writes the newest bit of the bitmaps, [last] and
    [resp_buf], and nothing else: the older bits of all seven bitmaps
    are as before, and so are the backend pointer, the probe
    parameters, the request, [good], [avg], [rate], [due], [running]
    and [heap_idx]. *)
Theorem poke_writes_newest_bits_only (e : poke_env) (vt : vbp_target)
    (r : poke_result) :
  vbp_poke e vt = Returned r ->
  (forall f,
     In f [good_ipv4; good_ipv6; err_xmit; good_xmit; err_recv; good_recv;
           happy] ->
     Z.shiftr (f (pr_vt r)) 1 = Z.shiftr (f vt) 1)
  /\ vt_backend (pr_vt r) = vt_backend vt /\ probe (pr_vt r) = probe vt
  /\ req (pr_vt r) = req vt /\ req_len (pr_vt r) = req_len vt
  /\ good (pr_vt r) = good vt /\ avg (pr_vt r) = avg vt
  /\ rate (pr_vt r) = rate vt /\ due (pr_vt r) = due vt
  /\ running (pr_vt r) = running vt /\ heap_idx (pr_vt r) = heap_idx vt.
Proof.
  intros Hr. split; [| apply (poke_fields e vt r Hr)].
  intros f Hf. cbn [In] in Hf.
  destruct Hf as [<- | [<- | [<- | [<- | [<- | [<- | [<- | []]]]]]]];
    poke_paths Hr; rewrite ?shiftr_or1; reflexivity.
Qed.

(** X2.  The newest bits a probe leaves, [vbp_start_poke] having
    cleared them, are ordered: [happy] needs [good_recv]; [good_recv]
    needs [good_xmit] and excludes [err_recv]; [err_recv] needs
    [good_xmit]; [good_xmit] excludes [err_xmit]; a write, good or
    failed, comes with exactly one of [good_ipv4] and [good_ipv6]; one
    of these two is set exactly when there was a connection, and never
    both. *)
Theorem poke_newest_bits_ordered (e : poke_env) (vt : vbp_target)
    (r : poke_result) :
  vbp_poke e (vbp_start_poke vt) = Returned r ->
  let b f := bit0 (f (pr_vt r)) in
  (b happy = true -> b good_recv = true)
  /\ (b good_recv = true -> b good_xmit = true /\ b err_recv = false)
  /\ (b err_recv = true -> b good_xmit = true)
  /\ (b good_xmit = true -> b err_xmit = false)
  /\ (b good_xmit = true \/ b err_xmit = true ->
      xorb (b good_ipv4) (b good_ipv6) = true)
  /\ (b good_ipv4 = true \/ b good_ipv6 = true <-> conn e <> None)
  /\ b good_ipv4 && b good_ipv6 = false.
Proof.
  intros Hr b. subst b. cbv beta.
  poke_paths Hr; rewrite ?bit0_or1, ?bit0_shl1;
    repeat split; intros; try reflexivity; try discriminate;
    try congruence; try (left; reflexivity); try (right; reflexivity);
    try tauto;
    try match goal with
        | H : _ \/ _ |- _ => destruct H; discriminate
        end.
Qed.

(** X4.  After [vbp_start_poke] and [vbp_poke], [last] is the time
    from the start of the probe to the end of the receive when the
    newest bit of [good_recv] is set, and 0 when it is not. *)
Theorem poke_last_is_round_trip (e : poke_env) (vt : vbp_target)
    (r : poke_result) :
  vbp_poke e (vbp_start_poke vt) = Returned r ->
  last (pr_vt r)
  = if bit0 (good_recv (pr_vt r)) then dsub (t_recv e) (t_start e)
    else d_of_Z 0.
Proof.
  intros Hr. poke_paths Hr; rewrite ?bit0_or1, ?bit0_shl1; reflexivity.
Qed.


End ProbeFrame.

(** ** A response that does not end *)

(** A pass over a segment that holds bytes reads some of them and goes
    on. *)
Lemma recv_step_seg (tmo : Z) (st : recv_state) (bs : list byte)
    (rest : list sock_event) :
  0 < tmo -> bs <> [] -> rs_sock st = Seg bs :: rest ->
  exists st' n,
    recv_step tmo st = inl st' /\ (0 < n)%nat
    /\ rs_sock st' = if (List.length bs <=? n)%nat then rest
                     else Seg (skipn n bs) :: rest.
Proof.
  intros Ht Hne Hs. unfold recv_step. rewrite Hs.
  cbn [sock_poll sock_read].
  destruct (Z.ltb_spec 0 tmo); [| lia].
  destruct (Z.leb_spec tmo 0); [lia |]. cbn [Z.eqb orb].
  assert (Hl : (0 < List.length bs)%nat)
    by (destruct bs; [congruence | cbn; lia]).
  destruct (Z.ltb_spec (rs_rlen st) RESP_BUF_SIZE) as [Hr | Hr].
  - set (n := Z.to_nat (RESP_BUF_SIZE - rs_rlen st)).
    assert (Hn : (0 < n)%nat) by (unfold n; lia).
    destruct (Z.ltb_spec 0 (Z.of_nat (List.length (firstn n bs))));
      [| rewrite length_firstn in *; lia].
    eexists _, n. split; [reflexivity |]. split; [exact Hn | reflexivity].
  - set (n := Z.to_nat SCRATCH_SIZE).
    assert (Hn : (0 < n)%nat) by (unfold n, SCRATCH_SIZE; lia).
    destruct (Z.ltb_spec 0 (Z.of_nat (List.length (firstn n bs))));
      [| rewrite length_firstn in *; lia].
    eexists _, n. split; [reflexivity |]. split; [exact Hn | reflexivity].
Qed.

(** The loop reads through segments that hold bytes and is left by
    what the first other event makes of it. *)
Lemma recv_run_segs (tmo : Z) (rest : list sock_event)
    (P : recv_exit -> Prop) :
  0 < tmo ->
  (forall st, rs_sock st = rest -> exists x, recv_run tmo st x /\ P x) ->
  forall w bss st,
  (sock_weight (rs_sock st) <= w)%nat ->
  Forall (fun bs => bs <> []) bss ->
  rs_sock st = map Seg bss ++ rest ->
  exists x, recv_run tmo st x /\ P x.
Proof.
  intros Ht Hrest w. induction w as [| w IH]; intros bss st Hw Hne Hs.
  - pose proof (sock_weight_pos (rs_sock st)). lia.
  - destruct bss as [| bs bss]; [apply Hrest; exact Hs |].
    cbn [map app] in Hs. inversion Hne as [| ? ? Hb Hbs]; subst.
    destruct (recv_step_seg tmo st bs _ Ht Hb Hs) as (st' & n & E & Hn & Hs').
    pose proof (recv_step_weight _ _ _ E) as Hd.
    destruct (Nat.leb_spec (List.length bs) n) as [Hle | Hgt].
    + destruct (IH bss st') as (x & Hx & Px); try assumption; [lia |].
      exists x. split; [eapply run_pass; eassumption | exact Px].
    + destruct (IH (skipn n bs :: bss) st') as (x & Hx & Px);
        [lia | | exact Hs' |].
      * constructor; [| assumption]. intros E0.
        apply (f_equal (@List.length byte)) in E0.
        rewrite length_skipn in E0. cbn in E0. lia.
      * exists x. split; [eapply run_pass; eassumption | exact Px].
Qed.

Lemma recv_step_quiet (tmo : Z) (st : recv_state) (rest : list sock_event) :
  0 < tmo -> rs_sock st = Quiet :: rest ->
  recv_step tmo st = inr (Timed_out (rs_buf st)).
Proof.
  intros Ht Hs. unfold recv_step. rewrite Hs. cbn [sock_poll].
  destruct (Z.ltb_spec 0 tmo); [| lia]. reflexivity.
Qed.

Lemma recv_step_err (tmo : Z) (st : recv_state) (rest : list sock_event) :
  0 < tmo -> rs_sock st = RdErr :: rest ->
  exists rlen buf, recv_step tmo st = inr (Read_done (-1) rlen buf).
Proof.
  intros Ht Hs. unfold recv_step. rewrite Hs. cbn [sock_poll sock_read].
  destruct (Z.ltb_spec 0 tmo); [| lia].
  destruct (Z.leb_spec tmo 0); [lia |]. cbn [Z.eqb orb].
  destruct (rs_rlen st <? RESP_BUF_SIZE); cbn [Z.ltb Z.compare];
    eexists _, _; reflexivity.
Qed.

Section NoEnd.

Context {dbl : Double} {libc : Libc}.

Lemma poke_recv_run (e : poke_env) (vt : vbp_target) (x : recv_exit) :
  poke_recv e vt = Returned x ->
  recv_run (tmo_ms (dadd (t_start e) (timeout (probe vt))) (t_conn e))
    {| rs_sock := sock e; rs_i := wr_ret e; rs_rlen := 0;
       rs_buf := resp_buf vt |} x.
Proof. unfold poke_recv. apply recv_loop_run. Qed.

(** X5.  A peer that sends bytes and then keeps the connection open
    in silence until [poll] times out is a missed probe, whatever it
    sent before: the probe returns with the newest bits of
    [good_recv], [err_recv] and [happy] all 0. *)
Theorem poke_silent_peer_is_missed (e : poke_env) (vt : vbp_target)
    (r : poke_result) (bss : list (list byte)) (rest : list sock_event) :
  vbp_poke e (vbp_start_poke vt) = Returned r ->
  Forall (fun bs => bs <> []) bss ->
  sock e = map Seg bss ++ Quiet :: rest ->
  bit0 (good_recv (pr_vt r)) = false
  /\ bit0 (err_recv (pr_vt r)) = false
  /\ bit0 (happy (pr_vt r)) = false.
Proof.
  intros Hr Hne Hs.
  assert (Hx : forall v x,
            0 < tmo_ms (dadd (t_start e) (timeout (probe v))) (t_conn e) ->
            poke_recv e v = Returned x -> exists buf, x = Timed_out buf).
  { intros v x Ht Hx. apply poke_recv_run in Hx.
    destruct (recv_run_segs _ (Quiet :: rest)
                (fun y => exists buf, y = Timed_out buf) Ht) with
      (w := sock_weight (sock e)) (bss := bss)
      (st := {| rs_sock := sock e; rs_i := wr_ret e; rs_rlen := 0;
                rs_buf := resp_buf v |}) as (y & Hy & Py);
      try assumption; try (cbn [rs_sock]; lia).
    - intros st Hst. eexists. split;
        [apply run_exit; apply (recv_step_quiet _ _ rest Ht Hst) |].
      eexists; reflexivity.
    - rewrite (recv_run_det _ _ _ _ Hx Hy). exact Py. }
  apply vbp_poke_paths in Hr. inversion Hr; subst; clear Hr;
    try match goal with
        | H : poke_recv _ _ = Returned _, T : 0 < tmo_ms _ _ |- _ =>
            destruct (Hx _ _ T H) as (? & Ex); try discriminate Ex
        end;
    try match goal with fam : proto |- _ => destruct fam end;
    try congruence;
    cbn [pr_vt];
    repeat match goal with
           | |- context [if wr_ret ?x <? 0 then _ else _] =>
               destruct (wr_ret x <? 0)
           end;
    cbn - [bit0 or1 shl1]; rewrite ?bit0_shl1; repeat split; reflexivity.
Qed.

(** X6.  A [read] that fails after some bytes have arrived discards
    them: the newest bits of [good_recv] and [happy] stay 0, and
    [err_recv] is set whenever the request had been written
    ([good_xmit]). *)
Theorem poke_read_error_is_missed (e : poke_env) (vt : vbp_target)
    (r : poke_result) (bss : list (list byte)) (rest : list sock_event) :
  vbp_poke e (vbp_start_poke vt) = Returned r ->
  Forall (fun bs => bs <> []) bss ->
  sock e = map Seg bss ++ RdErr :: rest ->
  bit0 (good_recv (pr_vt r)) = false
  /\ bit0 (happy (pr_vt r)) = false
  /\ bit0 (err_recv (pr_vt r)) = bit0 (good_xmit (pr_vt r)).
Proof.
  intros Hr Hne Hs.
  assert (Hx : forall v x,
            0 < tmo_ms (dadd (t_start e) (timeout (probe v))) (t_conn e) ->
            poke_recv e v = Returned x ->
            exists rlen buf, x = Read_done (-1) rlen buf).
  { intros v x Ht Hx. apply poke_recv_run in Hx.
    destruct (recv_run_segs _ (RdErr :: rest)
                (fun y => exists rlen buf, y = Read_done (-1) rlen buf) Ht)
      with (w := sock_weight (sock e)) (bss := bss)
      (st := {| rs_sock := sock e; rs_i := wr_ret e; rs_rlen := 0;
                rs_buf := resp_buf v |}) as (y & Hy & Py);
      try assumption; try (cbn [rs_sock]; lia).
    - intros st Hst.
      destruct (recv_step_err _ _ rest Ht Hst) as (rl & bf & E).
      eexists. split; [apply run_exit; exact E |].
      eexists _, _; reflexivity.
    - rewrite (recv_run_det _ _ _ _ Hx Hy). exact Py. }
  apply vbp_poke_paths in Hr. inversion Hr; subst; clear Hr;
    try match goal with
        | H : poke_recv _ _ = Returned _, T : 0 < tmo_ms _ _ |- _ =>
            destruct (Hx _ _ T H) as (? & ? & Ex);
            try discriminate Ex; try (inversion Ex; subst; lia)
        end;
    try match goal with fam : proto |- _ => destruct fam end;
    try congruence;
    cbn [pr_vt];
    repeat match goal with
           | |- context [if wr_ret ?x <? 0 then _ else _] =>
               destruct (wr_ret x <? 0)
           end;
    cbn - [bit0 or1 shl1]; rewrite ?bit0_or1, ?bit0_shl1;
    repeat split; reflexivity.
Qed.

End NoEnd.

(** ** More on the aggregator *)

Lemma filter_length_le {A : Type} (f : A -> bool) (l : list A) :
  (List.length (filter f l) <= List.length l)%nat.
Proof.
  induction l as [| a l IH]; cbn; [lia |]. destruct (f a); cbn; lia.
Qed.

(** A 64-bit value has at most 64 one-bits, and at most [n] among its
    low [n] positions. *)
Lemma ones_below_bound (n : nat) (x : Z) :
  0 <= x < 2 ^ 64 -> (ones_below n x <= Nat.min n 64)%nat.
Proof.
  intros Hx. unfold ones_below.
  replace n with (Nat.min n 64 + (n - Nat.min n 64))%nat at 1 by lia.
  rewrite seq_app, filter_app, length_app.
  rewrite (filter_none _ (seq _ (n - Nat.min n 64))).
  - pose proof (filter_length_le (fun i => Z.testbit x (Z.of_nat i))
                  (seq 0 (Nat.min n 64))) as L.
    rewrite length_seq in L. cbn [List.length]. lia.
  - intros i Hi. apply in_seq in Hi.
    destruct (Z.eq_dec x 0) as [-> | Hn]; [apply Z.bits_0 |].
    apply Z.bits_above_log2; [lia |].
    assert (Z.log2 x < 64) by (apply Z.log2_lt_pow2; lia). lia.
Qed.

(** The bits of [x mod 2^63]. *)
Lemma ones_below_drop_top (n : nat) (x : Z) :
  0 <= x < 2 ^ 64 ->
  ones_below n x
  = (ones_below n (x mod 2 ^ 63)
     + (if (63 <? n)%nat && Z.testbit x 63 then 1 else 0))%nat.
Proof.
  intros Hx. unfold ones_below.
  induction n as [| n IH]; [reflexivity |].
  rewrite !seq_S, !filter_app, !length_app, IH. cbn [filter Nat.add].
  destruct (Nat.lt_trichotomy n 63) as [Hlt | [-> | Hgt]].
  - rewrite Z.mod_pow2_bits_low by lia.
    destruct (Nat.ltb_spec 63 n); [lia |].
    destruct (Nat.ltb_spec 63 (S n)); [lia |]. cbn [andb]. lia.
  - rewrite Z.mod_pow2_bits_high by lia.
    change (Z.of_nat 63) with 63.
    destruct (Nat.ltb_spec 63 63); [lia |].
    destruct (Nat.ltb_spec 63 (S 63)); [| lia].
    destruct (Z.testbit x 63); cbn [andb List.length]; lia.
  - rewrite Z.mod_pow2_bits_high by lia.
    assert (E : Z.testbit x (Z.of_nat n) = false).
    { destruct (Z.eq_dec x 0) as [-> | Hn]; [apply Z.bits_0 |].
      apply Z.bits_above_log2; [lia |].
      assert (Z.log2 x < 64) by (apply Z.log2_lt_pow2; lia). lia. }
    rewrite E.
    destruct (Nat.ltb_spec 63 n); [| lia].
    destruct (Nat.ltb_spec 63 (S n)); [| lia]. cbn [List.length]. lia.
Qed.

(** Moving the window on by one probe changes the count by at most
    one. *)
Lemma ones_below_slide (n : nat) (x : Z) (b : bool) :
  0 <= x < 2 ^ 64 ->
  let x' := if b then or1 (shl1 x) else shl1 x in
  (ones_below n x' <= ones_below n x + 1
   /\ ones_below n x <= ones_below n x' + 1)%nat.
Proof.
  intros Hx x'. destruct n as [| n]; [unfold ones_below; cbn [seq filter List.length]; lia |].
  assert (E : ones_below (S n) x'
              = ((if b then 1 else 0) + ones_below n (x mod 2 ^ 63))%nat).
  { rewrite ones_below_S. subst x'. destruct b.
    - rewrite <- bit0_testbit, bit0_or1, shiftr_or1.
      rewrite shl1_double, Z.shiftr_div_pow2 by lia.
      change (2 ^ 1) with 2. rewrite Z.mul_comm, Z.div_mul by lia.
      reflexivity.
    - rewrite <- bit0_testbit, bit0_shl1.
      rewrite shl1_double, Z.shiftr_div_pow2 by lia.
      change (2 ^ 1) with 2. rewrite Z.mul_comm, Z.div_mul by lia.
      reflexivity. }
  rewrite E.
  assert (F : ones_below (S n) x
              = (ones_below n x
                 + (if Z.testbit x (Z.of_nat n) then 1 else 0))%nat).
  { unfold ones_below. rewrite seq_S, filter_app, length_app.
    cbn [filter Nat.add]. destruct (Z.testbit x (Z.of_nat n)); reflexivity. }
  rewrite F, (ones_below_drop_top n x Hx).
  destruct (Nat.ltb_spec 63 n) as [Hn | Hn]; cbn [andb].
  - assert (T : Z.testbit x (Z.of_nat n) = false).
    { destruct (Z.eq_dec x 0) as [-> | Hz]; [apply Z.bits_0 |].
      apply Z.bits_above_log2; [lia |].
      assert (Z.log2 x < 64) by (apply Z.log2_lt_pow2; lia). lia. }
    rewrite T. destruct b, (Z.testbit x 63); lia.
  - destruct b, (Z.testbit x (Z.of_nat n)); lia.
Qed.

Section AggregatorMore.

Context {dbl : Double} {libc : Libc}.

(** X9.  A threshold above the window, or above 64, cannot be met:
    with a backend attached, [vbp_has_poked] leaves the backend sick
    whatever the 64-bit history in [happy] holds. *)
Theorem has_poked_threshold_out_of_reach (now : D) (vt : vbp_target)
    (be : backend) :
  vt_backend vt = true ->
  0 <= window (probe vt) < 2 ^ 32 ->
  0 <= happy vt < 2 ^ 64 ->
  window (probe vt) < threshold (probe vt) \/ 64 < threshold (probe vt) ->
  healthy (snd (fst (vbp_has_poked now vt be))) = false.
Proof.
  intros Hb Hw Hh Ht. rewrite has_poked_healthy by exact Hb.
  rewrite has_poked_good by exact Hw.
  pose proof (ones_below_bound (Z.to_nat (window (probe vt))) (happy vt) Hh).
  apply Z.leb_gt. lia.
Qed.

(** What a task that returns is made of. *)
Lemma task_returns (e : poke_env) (now : D) (vt : vbp_target) (be : backend)
    (o : option vbp_target) (be' : backend) (line : option health_line) :
  vbp_task e now vt be = Returned (o, be', line) ->
  0 < req_len vt
  /\ exists r,
       vbp_poke e (vbp_start_poke vt) = Returned r
       /\ be' = snd (fst (vbp_has_poked now (pr_vt r) be))
       /\ line = snd (vbp_has_poked now (pr_vt r) be)
       /\ o = task_tail (fst (fst (vbp_has_poked now (pr_vt r) be))).
Proof.
  unfold vbp_task, task_tail. intros H.
  destruct (Z.leb_spec (req_len vt) 0); [discriminate |].
  split; [assumption |].
  destruct (vbp_poke e (vbp_start_poke vt)) as [r | |]; try discriminate.
  exists r. split; [reflexivity |].
  destruct (vbp_has_poked now (pr_vt r) be) as [[vt1 be1] l].
  cbn [fst snd]. inversion H; subst. repeat split; reflexivity.
Qed.

(** X11.  A task that does not end happy leaves [avg] and [rate] as
    they were. *)
Theorem task_unhappy_keeps_average (e : poke_env) (now : D)
    (vt vt' : vbp_target) (be be' : backend) (line : option health_line) :
  vbp_task e now vt be = Returned (Some vt', be', line) ->
  bit0 (happy vt') = false ->
  avg vt' = avg vt /\ rate vt' = rate vt.
Proof.
  intros H Hh. apply task_returns in H.
  destruct H as (_ & r & P & _ & _ & Ho).
  rewrite has_poked_target in Ho. unfold task_tail in Ho.
  destruct (running _ <? 0); [discriminate |].
  inversion Ho; subst vt'; clear Ho.
  cbn [set_running set_good happy avg rate] in *.
  destruct (avg_update_frame (pr_vt r)) as (Eh & _).
  rewrite Eh in Hh. unfold avg_update. rewrite Hh.
  destruct (poke_avg_rate _ _ _ P) as (Ea & Er). exact (conj Ea Er).
Qed.

(** X10.  One task moves [good] by at most one: when [good] is the
    count [vbp_has_poked] last made of [happy], the count after the
    next task differs from it by 1 at most. *)
Theorem task_moves_good_by_one (e : poke_env) (now : D)
    (vt vt' : vbp_target) (be be' : backend) (line : option health_line) :
  vbp_task e now vt be = Returned (Some vt', be', line) ->
  0 <= window (probe vt) < 2 ^ 32 ->
  0 <= happy vt < 2 ^ 64 ->
  good vt = Z.of_nat (ones_below (Z.to_nat (window (probe vt))) (happy vt)) ->
  good vt - 1 <= good vt' <= good vt + 1.
Proof.
  intros H Hw Hh Hg. apply task_returns in H.
  destruct H as (_ & r & P & _ & _ & Ho).
  pose proof (has_poked_good now (pr_vt r) be) as G.
  pose proof (has_poked_happy now (pr_vt r) be) as (Fh & Fp).
  unfold task_tail in Ho.
  destruct (running _ <? 0); [discriminate |].
  inversion Ho; subst vt'; clear Ho. cbn [set_running good].
  destruct (poke_fields _ _ _ P) as (_ & Ep & _).
  cbn [vbp_start_poke probe] in Ep. rewrite Ep in G.
  rewrite G by exact Hw. rewrite Hg.
  destruct (poke_happy_value _ _ _ P) as [E | E];
    cbn [vbp_start_poke happy] in E; rewrite E.
  - pose proof (ones_below_slide (Z.to_nat (window (probe vt))) (happy vt)
                  false Hh) as S. cbv zeta in S. lia.
  - pose proof (ones_below_slide (Z.to_nat (window (probe vt))) (happy vt)
                  true Hh) as S. cbv zeta in S. lia.
Qed.

End AggregatorMore.

(** ** The averaging rate in the arithmetic of the source *)

Lemma fl_below_rate (k : Z) :
  0 <= k < 4 ->
  @dltb binary64 (fl k) (@d_of_Z binary64 AVG_RATE) = true
  /\ @dadd binary64 (fl k) (@d_of_Z binary64 1) = fl (k + 1).
Proof.
  intros Hk.
  assert (E : k = 0 \/ k = 1 \/ k = 2 \/ k = 3) by lia.
  destruct E as [-> | [-> | [-> | ->]]]; split; reflexivity.
Qed.

Lemma fl_at_rate :
  @dltb binary64 (fl 4) (@d_of_Z binary64 AVG_RATE) = false.
Proof. reflexivity. Qed.

Lemma fl_zero_step (k : Z) :
  1 <= k <= 4 ->
  @dadd binary64 (fl 0) (@ddiv binary64 (@dsub binary64 (fl 0) (fl 0)) (fl k))
  = fl 0.
Proof.
  intros Hk.
  assert (E : k = 1 \/ k = 2 \/ k = 3 \/ k = 4) by lia.
  destruct E as [-> | [-> | [-> | ->]]]; reflexivity.
Qed.

(** [rate] counts the happy probes, up to [AVG_RATE]. *)
Lemma avg_update_rate (vt : @vbp_target binary64) (k : Z) :
  0 <= k <= 4 -> rate vt = fl k ->
  rate (avg_update vt) = fl (if bit0 (happy vt) then Z.min (k + 1) 4 else k).
Proof.
  intros Hk Er. unfold avg_update.
  destruct (bit0 (happy vt)); [| exact Er].
  cbn [set_avg_rate rate]. rewrite Er.
  destruct (Z.eq_dec k 4) as [-> | Hne].
  - rewrite fl_at_rate. reflexivity.
  - destruct (fl_below_rate k) as (-> & ->); [lia |].
    rewrite Z.min_l by lia. reflexivity.
Qed.

(** A seeding sample, with [last = 0], leaves the average at 0. *)
Lemma avg_update_seed (vt : @vbp_target binary64) (k : Z) :
  0 <= k <= 4 -> rate vt = fl k -> avg vt = fl 0 -> last vt = fl 0 ->
  avg (avg_update vt) = fl 0.
Proof.
  intros Hk Er Ea El. unfold avg_update.
  destruct (bit0 (happy vt)); [| exact Ea].
  cbn [set_avg_rate avg]. rewrite Er, Ea, El.
  destruct (Z.eq_dec k 4) as [-> | Hne].
  - rewrite fl_at_rate. apply fl_zero_step. lia.
  - destruct (fl_below_rate k) as (-> & ->); [lia |].
    apply fl_zero_step. lia.
Qed.

(** The count of happy calls of [vbp_has_poked] before pass [u] of the
    seeding loop. *)
Lemma has_poked_seed (now : @D binary64) (vt : @vbp_target binary64)
    (be : @backend binary64) (c : Z) :
  0 <= c ->
  rate vt = fl (Z.min c 4) -> avg vt = fl 0 -> last vt = fl 0 ->
  let vt' := fst (fst (vbp_has_poked now vt be)) in
  rate vt' = fl (Z.min (if bit0 (happy vt) then c + 1 else c) 4)
  /\ avg vt' = fl 0 /\ last vt' = fl 0 /\ happy vt' = happy vt.
Proof.
  intros Hc Er Ea El vt'. subst vt'. rewrite has_poked_target.
  cbn [set_good rate avg last happy].
  destruct (avg_update_frame vt) as (Eh & _ & _ & _ & El').
  rewrite (avg_update_rate vt (Z.min c 4)) by (try lia; exact Er).
  rewrite (avg_update_seed vt (Z.min c 4)) by (try lia; assumption).
  rewrite El', El, Eh. repeat split; try reflexivity.
  f_equal. destruct (bit0 (happy vt)); lia.
Qed.

Lemma insert_loop_rate (clk : nat -> @D binary64) (n : nat) :
  forall u k (vt : @vbp_target binary64) (be : @backend binary64),
  0 <= u -> u + Z.of_nat n < 2 ^ 32 ->
  rate vt = fl (Z.min (if u =? 0 then 0 else 2 * u - 1) 4) ->
  avg vt = fl 0 -> last vt = fl 0 ->
  (0 < u -> bit0 (happy vt) = true) ->
  let vt' := snd (fst (insert_loop n u clk k vt be)) in
  let m := u + Z.of_nat n in
  rate vt' = fl (Z.min (if m =? 0 then 0 else 2 * m - 1) 4)
  /\ avg vt' = fl 0 /\ last vt' = fl 0
  /\ (0 < m -> bit0 (happy vt') = true)
  /\ (m = 0 -> happy vt' = happy vt).
Proof.
  induction n as [| n IH]; intros u k vt be Hu Hb Er Ea El Hh;
    cbn [insert_loop].
  - cbn [fst snd]. rewrite Z.add_0_r.
    repeat split; assumption.
  - set (s1 := if u =? 0 then (k, vt, be)
               else let '(v, b, _) := vbp_has_poked (dbl := binary64) (clk k) vt be in
                    (S k, v, b)).
    assert (H1 : rate (snd (fst s1)) = fl (Z.min (if u =? 0 then 0 else 2 * u) 4)
                 /\ avg (snd (fst s1)) = fl 0
                 /\ last (snd (fst s1)) = fl 0).
    { subst s1. destruct (Z.eqb_spec u 0) as [-> | Hne];
        [repeat split; assumption |].
      pose proof (has_poked_seed (clk k) vt be (2 * u - 1) ltac:(lia)
                    Er Ea El) as Hs.
      cbv zeta in Hs. rewrite Hh in Hs by lia.
      destruct (vbp_has_poked (dbl := binary64) (clk k) vt be) as [[v b] l].
      cbn [fst snd] in *. destruct Hs as (R & A & L & _).
      repeat split; try assumption. rewrite R. f_equal. lia. }
    destruct s1 as [[k1 vt1] be1]. cbn [fst snd] in H1.
    destruct H1 as (R1 & A1 & L1).
    set (vt3 := set_happy (or1 (happy (vbp_start_poke vt1)))
                  (vbp_start_poke vt1)).
    pose proof (has_poked_seed (clk k1) vt3 be1
                  (if u =? 0 then 0 else 2 * u)
                  ltac:(destruct (u =? 0); lia) R1 A1 eq_refl) as Hs.
    cbv zeta in Hs.
    assert (B3 : bit0 (happy vt3) = true) by apply bit0_or1.
    rewrite B3 in Hs.
    destruct (vbp_has_poked (dbl := binary64) (clk k1) vt3 be1)
      as [[vt4 be4] l].
    cbn [fst snd] in Hs. destruct Hs as (R & A & L & H4).
    unfold u32. rewrite Z.mod_small by lia.
    destruct (IH (u + 1) (S k1) vt4 be4) as (I1 & I2 & I3 & I4 & _);
      try assumption; try lia.
    + rewrite R. f_equal.
      destruct (Z.eqb_spec u 0), (Z.eqb_spec (u + 1) 0); lia.
    + intros _. rewrite H4. exact B3.
    + replace (u + Z.of_nat (S n)) with (u + 1 + Z.of_nat n) by lia.
      split; [exact I1 |]. split; [exact I2 |]. split; [exact I3 |].
      split; [intros _; apply I4; lia | intros; lia].
Qed.

(** X21.  In the arithmetic of the source, [VBP_Insert] leaves
    [avg = 0] and [last = 0], and [rate = min (2 * initial) 4]: every
    seeded probe is averaged as a round trip of 0 seconds, and it is
    counted each time [vbp_has_poked] is called on it, twice in
    all. *)
Theorem insert_average_starts_at_zero (b : @backend binary64)
    (p : @vrt_backend_probe binary64) (hosthdr : option (list byte))
    (clk : nat -> @D binary64) :
  be_probe b = false ->
  let n := initial (probe (vbp_set_defaults (alloc_target p true))) in
  0 <= n < 2 ^ 32 ->
  exists vt b',
    VBP_Insert b p hosthdr clk = Returned (vt, b')
    /\ avg vt = fl 0 /\ last vt = fl 0
    /\ rate vt = fl (Z.min (2 * n) 4).
Proof.
  intros Hb n Hn. unfold VBP_Insert. rewrite Hb.
  set (vt0 := vbp_build_req hosthdr (vbp_set_defaults (alloc_target p true))).
  assert (E0 : initial (probe vt0) = n) by reflexivity.
  pose proof (insert_loop_rate clk (Z.to_nat n) 0 O vt0 b ltac:(lia)
                ltac:(lia) eq_refl eq_refl eq_refl ltac:(lia)) as Hl.
  cbv zeta in Hl. rewrite E0.
  destruct (insert_loop (dbl := binary64) (Z.to_nat n) 0 clk 0%nat vt0 b)
    as [[k vt1] b1].
  cbn [fst snd] in Hl. destruct Hl as (R & A & L & Bh & Bz).
  rewrite Z.add_0_l, Z2Nat.id in R, Bh, Bz by lia.
  pose proof (has_poked_seed (clk k) vt1 (set_be_probe true b1)
                (if n =? 0 then 0 else 2 * n - 1)
                ltac:(destruct (Z.eqb_spec n 0); lia) R A L) as Hs.
  cbv zeta in Hs.
  destruct (vbp_has_poked (dbl := binary64) (clk k) vt1 (set_be_probe true b1))
    as [[vt2 b2] l].
  cbn [fst snd] in Hs. destruct Hs as (R2 & A2 & L2 & _).
  exists vt2, b2. split; [reflexivity |]. split; [exact A2 |].
  split; [exact L2 |]. rewrite R2. f_equal.
  destruct (Z.eqb_spec n 0) as [E | E].
  - rewrite (Bz E). change (bit0 (happy vt0)) with false. cbv iota.
    rewrite E. reflexivity.
  - rewrite Bh by lia. lia.
Qed.

(** X12.  In the arithmetic of the source, [rate] counts the happy
    probes up to [AVG_RATE]: from [rate = k] with [k] from 0 to 4, a
    task leaves [min (k + 1) 4] when it ends happy and [k] when it does
    not.  The divisor of the average, which is the new [rate] of a
    happy probe, is thus one of 1, 2, 3, 4 and never 0. *)
Theorem task_rate_counts_happy_probes {libc : Libc}
    (e : @poke_env binary64) (now : @D binary64)
    (vt vt' : @vbp_target binary64) (be be' : @backend binary64)
    (line : option (@health_line binary64)) (k : Z) :
  vbp_task (dbl := binary64) e now vt be = Returned (Some vt', be', line) ->
  0 <= k <= 4 -> rate vt = fl k ->
  rate vt' = fl (if bit0 (happy vt') then Z.min (k + 1) 4 else k).
Proof.
  intros H Hk Er. apply task_returns in H.
  destruct H as (_ & r & P & _ & _ & Ho).
  rewrite has_poked_target in Ho. unfold task_tail in Ho.
  destruct (running _ <? 0); [discriminate |].
  inversion Ho; subst vt'; clear Ho.
  cbn [set_running set_good happy rate].
  destruct (avg_update_frame (pr_vt r)) as (Eh & _). rewrite Eh.
  destruct (poke_avg_rate _ _ _ P) as (_ & Er').
  cbn [vbp_start_poke rate] in Er'.
  apply avg_update_rate; [exact Hk | congruence].
Qed.

(** ** The rows of the CLI view *)

Lemma land_top_bit (m : Z) :
  negb (Z.land m (Z.shiftl 1 63) =? 0) = Z.testbit m 63.
Proof.
  change (Z.shiftl 1 63) with (2 ^ 63).
  destruct (Z.testbit m 63) eqn:E.
  - apply negb_true_iff, Z.eqb_neq. intros H.
    assert (T : Z.testbit (Z.land m (2 ^ 63)) 63 = true).
    { rewrite Z.land_spec, E, Z.pow2_bits_true by lia. reflexivity. }
    rewrite H in T. rewrite Z.bits_0 in T. discriminate.
  - apply negb_false_iff, Z.eqb_eq. apply Z.bits_inj'. intros k Hk.
    rewrite Z.land_spec, Z.bits_0.
    destruct (Z.eq_dec k 63) as [-> | Hne].
    + rewrite E. reflexivity.
    + rewrite Z.pow2_bits_false by lia. apply andb_false_r.
Qed.

Lemma shl1_testbit (m k : Z) :
  0 <= k < 64 -> Z.testbit (shl1 m) k = if k =? 0 then false else Z.testbit m (k - 1).
Proof.
  intros Hk. unfold shl1, u64. rewrite Z.mod_pow2_bits_low by lia.
  destruct (Z.eqb_spec k 0) as [-> | Hne].
  - apply Z.shiftl_spec_low. lia.
  - apply Z.shiftl_spec. lia.
Qed.

Lemma bitmap_loop_length (n : nat) (c : byte) :
  forall m, List.length (bitmap_loop n c m) = n.
Proof. induction n as [| n IH]; intros m; cbn; [reflexivity |]. now rewrite IH. Qed.

Lemma bitmap_loop_nth (n : nat) (c : byte) :
  forall m i, (i < n)%nat -> (i < 64)%nat ->
  nth_error (bitmap_loop n c m) i
  = Some (if Z.testbit m (63 - Z.of_nat i) then c else DASH).
Proof.
  induction n as [| n IH]; intros m i Hn H64; [lia |].
  cbn [bitmap_loop]. destruct i as [| i]; cbn [nth_error].
  - rewrite land_top_bit. reflexivity.
  - rewrite IH by lia. rewrite shl1_testbit by lia.
    destruct (Z.eqb_spec (63 - Z.of_nat i) 0); [lia |].
    replace (63 - Z.of_nat i - 1) with (63 - Z.of_nat (S i)) by lia.
    reflexivity.
Qed.

Lemma vbp_bitmap_nth (c : byte) (map : Z) (lbl : list byte) (i : nat) :
  (i < 64)%nat ->
  nth_error (vbp_bitmap c map lbl) (2 + i)
  = Some (if Z.testbit map (63 - Z.of_nat i) then c else DASH).
Proof.
  intros Hi. unfold vbp_bitmap. cbn [bytes list_byte_of_string app Nat.add nth_error].
  change (nth_error (bitmap_loop 64 c map ++ bytes " " ++ lbl ++ [LF]) i = Some (if Z.testbit map (63 - Z.of_nat i) then c else DASH)).
  rewrite nth_error_app1 by (rewrite bitmap_loop_length; exact Hi).
  apply bitmap_loop_nth; exact Hi.
Qed.

(** X13.  The line [vbp_bitmap] prints: two blanks, 64 characters, a
    blank, the label and a newline.  The character at place [i] of the
    64 shows bit [63 - i] of the map, the glyph for 1 and a dash for 0:
    the oldest probe is on the left, the newest on the right. *)
Theorem vbp_bitmap_shows_bits (c : byte) (map : Z) (lbl : list byte) :
  List.length (vbp_bitmap c map lbl) = (68 + List.length lbl)%nat
  /\ firstn 2 (vbp_bitmap c map lbl) = bytes "  "
  /\ skipn 66 (vbp_bitmap c map lbl) = bytes " " ++ lbl ++ [LF]
  /\ forall i, (i < 64)%nat ->
       nth_error (vbp_bitmap c map lbl) (2 + i)
       = Some (if Z.testbit map (63 - Z.of_nat i) then c else DASH).
Proof.
  split; [| split; [| split]].
  - unfold vbp_bitmap. rewrite !length_app, bitmap_loop_length. cbn. lia.
  - reflexivity.
  - unfold vbp_bitmap.
    change (skipn 64 (bitmap_loop 64 c map ++ bytes " " ++ lbl ++ [LF]) = bytes " " ++ lbl ++ [LF]).
    rewrite skipn_app, bitmap_loop_length, Nat.sub_diag.
    rewrite skipn_all2 by (rewrite bitmap_loop_length; lia). reflexivity.
  - intros i Hi. apply vbp_bitmap_nth. exact Hi.
Qed.

(** X14.  With a glyph other than the dash, the line [vbp_bitmap]
    prints determines the 64-bit map: two maps with the same line are
    equal. *)
Theorem vbp_bitmap_injective (c : byte) (m1 m2 : Z) (l1 l2 : list byte) :
  c <> DASH ->
  0 <= m1 < 2 ^ 64 -> 0 <= m2 < 2 ^ 64 ->
  vbp_bitmap c m1 l1 = vbp_bitmap c m2 l2 ->
  m1 = m2.
Proof.
  intros Hc H1 H2 E. apply Z.bits_inj'. intros k Hk.
  destruct (Z.lt_ge_cases k 64) as [Hlt | Hge].
  - pose proof (vbp_bitmap_nth c m1 l1 (Z.to_nat (63 - k))) as N1.
    pose proof (vbp_bitmap_nth c m2 l2 (Z.to_nat (63 - k))) as N2.
    rewrite E in N1. rewrite N2 in N1 by lia. specialize (N1 ltac:(lia)).
    replace (63 - Z.of_nat (Z.to_nat (63 - k))) with k in N1 by lia.
    destruct (Z.testbit m1 k), (Z.testbit m2 k); try reflexivity;
      inversion N1; congruence.
  - assert (L : forall m, 0 <= m < 2 ^ 64 -> Z.log2 m < 64).
    { intros m Hm. destruct (Z.eq_dec m 0) as [-> | Hn]; [reflexivity |].
      apply Z.log2_lt_pow2; lia. }
    pose proof (L m1 H1). pose proof (L m2 H2).
    rewrite !Z.bits_above_log2 by lia. reflexivity.
Qed.

Lemma bitmap_loop_ones (c : byte) (n : nat) :
  (n <= 64)%nat ->
  bitmap_loop 64 c (Z.ones (Z.of_nat n)) = repeat DASH (64 - n) ++ repeat c n.
Proof.
  intros Hn. apply nth_error_ext. intros i.
  destruct (Nat.lt_ge_cases i 64) as [Hi | Hi].
  - rewrite bitmap_loop_nth by lia.
    destruct (Nat.lt_ge_cases i (64 - n)) as [Hd | Hd].
    + rewrite nth_error_app1 by (rewrite repeat_length; lia).
      rewrite nth_error_repeat by lia.
      rewrite Z.ones_spec_high by lia. reflexivity.
    + rewrite nth_error_app2 by (rewrite repeat_length; lia).
      rewrite repeat_length, nth_error_repeat by lia.
      rewrite Z.ones_spec_low by lia. reflexivity.
  - transitivity (@None byte).
    + apply nth_error_None. rewrite bitmap_loop_length. lia.
    + symmetry. apply nth_error_None.
      rewrite length_app, !repeat_length. lia.
Qed.

Section Rows.

Context {dbl : Double}.

(** X15.  [vbp_start_poke] scrolls the row of every bitmap one place
    to the left: each of the first 63 characters is the one that stood
    to its right, the oldest is gone, and the last place shows a
    dash. *)
Theorem start_poke_scrolls_rows (vt : vbp_target) (c : byte)
    (lbl : list byte) (f : vbp_target -> Z) :
  In f [good_ipv4; good_ipv6; err_xmit; good_xmit; err_recv; good_recv;
        happy] ->
  let old := vbp_bitmap c (f vt) lbl in
  let new := vbp_bitmap c (f (vbp_start_poke vt)) lbl in
  (forall i, (i < 63)%nat -> nth_error new (2 + i) = nth_error old (3 + i))
  /\ nth_error new 65 = Some DASH.
Proof.
  intros Hf old new.
  assert (E : f (vbp_start_poke vt) = shl1 (f vt)).
  { cbn [In] in Hf.
    destruct Hf as [<- | [<- | [<- | [<- | [<- | [<- | [<- | []]]]]]]];
      reflexivity. }
  subst old new. rewrite E. split.
  - intros i Hi.
    rewrite vbp_bitmap_nth by lia.
    change (3 + i)%nat with (2 + S i)%nat. rewrite vbp_bitmap_nth by lia.
    rewrite shl1_testbit by lia.
    destruct (Z.eqb_spec (63 - Z.of_nat i) 0); [lia |].
    replace (63 - Z.of_nat i - 1) with (63 - Z.of_nat (S i)) by lia.
    reflexivity.
  - change 65%nat with (2 + 63)%nat. rewrite vbp_bitmap_nth by lia.
    rewrite shl1_testbit by (cbn; lia). reflexivity.
Qed.

(** X16.  After [VBP_Insert] with an initial count [n] of at most 64
    (after the defaults), the row of [happy] is [64 - n] dashes
    followed by [n] glyphs. *)
Theorem insert_happy_row (b : backend) (p : vrt_backend_probe)
    (hosthdr : option (list byte)) (clk : nat -> D) (c : byte)
    (lbl : list byte) :
  be_probe b = false ->
  let n := initial (probe (vbp_set_defaults (alloc_target p true))) in
  0 <= n <= 64 ->
  exists vt b',
    VBP_Insert b p hosthdr clk = Returned (vt, b')
    /\ vbp_bitmap c (happy vt) lbl
       = bytes "  " ++ repeat DASH (64 - Z.to_nat n) ++ repeat c (Z.to_nat n)
         ++ bytes " " ++ lbl ++ [LF].
Proof.
  intros Hb n Hn.
  destruct (insert_returns b p hosthdr clk Hb) as (vt & b' & Hr & _ & Hh & _).
  fold n in Hh. exists vt, b'. split; [exact Hr |].
  assert (E : happy vt = Z.ones (Z.of_nat (Z.to_nat n))).
  { rewrite Hh. change 0 with (Z.ones (Z.of_nat 0)).
    rewrite seed_ones by lia. f_equal. lia. }
  unfold vbp_bitmap. rewrite E, bitmap_loop_ones by lia.
  rewrite <- !app_assoc. reflexivity.
Qed.

End Rows.

(** ** Defaults, request and the life of a target *)

(** X17.  [vbp_set_defaults] is idempotent on parameters that fit
    their [unsigned] fields: applied to its own result it changes
    nothing. *)
Theorem set_defaults_idempotent (vt : @vbp_target binary64) :
  0 <= threshold (probe vt) <= UINT_MAX ->
  0 <= initial (probe vt) <= UINT_MAX ->
  vbp_set_defaults (vbp_set_defaults vt) = vbp_set_defaults vt.
Proof.
  intros Ht Hi. unfold vbp_set_defaults, set_probe, UINT_MAX, u32 in *.
  cbn [probe url request timeout interval exp_status window threshold
       initial vt_backend req req_len resp_buf good good_ipv4 good_ipv6
       err_xmit good_xmit err_recv good_recv happy last avg rate due
       running heap_idx].
  f_equal. f_equal.
  - destruct (deqb (timeout (probe vt)) (d_of_Z 0)) eqn:E;
      [reflexivity | rewrite E; reflexivity].
  - destruct (deqb (interval (probe vt)) (d_of_Z 0)) eqn:E;
      [reflexivity | rewrite E; reflexivity].
  - destruct (Z.eqb_spec (exp_status (probe vt)) 0) as [E | E];
      [reflexivity |].
    destruct (Z.eqb_spec (exp_status (probe vt)) 0); [contradiction |].
    reflexivity.
  - destruct (Z.eqb_spec (window (probe vt)) 0) as [E | E];
      [reflexivity |].
    destruct (Z.eqb_spec (window (probe vt)) 0); [contradiction |].
    reflexivity.
  - destruct (Z.eqb_spec (threshold (probe vt)) 0) as [E | E];
      [reflexivity |].
    destruct (Z.eqb_spec (threshold (probe vt)) 0); [contradiction |].
    reflexivity.
  - set (t := threshold (probe vt)) in *. set (i := initial (probe vt)) in *.
    set (t1 := if t =? 0 then 3 else t).
    assert (Ht1 : 1 <= t1 <= 2 ^ 32 - 1)
      by (subst t1; destruct (Z.eqb_spec t 0); lia).
    assert (E1 : (if t1 =? 0 then 3 else t1) = t1)
      by (destruct (Z.eqb_spec t1 0); lia).
    rewrite E1.
    set (i1 := if i =? 2 ^ 32 - 1 then (t1 - 1) mod 2 ^ 32 else i).
    assert (Hi1 : 0 <= i1 < 2 ^ 32 - 1).
    { subst i1. destruct (Z.eqb_spec i (2 ^ 32 - 1));
        [rewrite Z.mod_small by lia |]; lia. }
    set (i2 := if t1 <? i1 then t1 else i1).
    assert (Hi2 : 0 <= i2 < 2 ^ 32 - 1 /\ i2 <= t1)
      by (subst i2; destruct (Z.ltb_spec t1 i1); lia).
    destruct (Z.eqb_spec i2 (2 ^ 32 - 1)); [lia |].
    destruct (Z.ltb_spec t1 i2); [lia | reflexivity].
Qed.

Section Life.

Context {dbl : Double} {libc : Libc}.

(** [vbp_has_poked] writes [good], [avg] and [rate] in the target and
    nothing else. *)
Lemma has_poked_fields (now : D) (vt : vbp_target) (be : backend) :
  let vt' := fst (fst (vbp_has_poked now vt be)) in
  req vt' = req vt /\ req_len vt' = req_len vt
  /\ running vt' = running vt /\ heap_idx vt' = heap_idx vt
  /\ due vt' = due vt /\ resp_buf vt' = resp_buf vt.
Proof.
  cbv zeta. rewrite has_poked_target. unfold avg_update.
  destruct (bit0 (happy vt)); repeat split; reflexivity.
Qed.

Lemma insert_loop_fields (clk : nat -> D) (n : nat) :
  forall u k vt be,
  let vt' := snd (fst (insert_loop n u clk k vt be)) in
  req vt' = req vt /\ req_len vt' = req_len vt
  /\ running vt' = running vt /\ heap_idx vt' = heap_idx vt
  /\ due vt' = due vt.
Proof.
  induction n as [| n IH]; intros u k vt be; cbn [insert_loop].
  - cbn. repeat split; reflexivity.
  - set (s1 := if u =? 0 then (k, vt, be)
               else let '(v, b, _) := vbp_has_poked (clk k) vt be in
                    (S k, v, b)).
    assert (H1 : req (snd (fst s1)) = req vt
                 /\ req_len (snd (fst s1)) = req_len vt
                 /\ running (snd (fst s1)) = running vt
                 /\ heap_idx (snd (fst s1)) = heap_idx vt
                 /\ due (snd (fst s1)) = due vt).
    { subst s1. destruct (u =? 0); [cbn; repeat split; reflexivity |].
      pose proof (has_poked_fields (clk k) vt be) as F. cbv zeta in F.
      destruct (vbp_has_poked (clk k) vt be) as [[v b] l].
      cbn [fst snd] in *. tauto. }
    destruct s1 as [[k1 vt1] be1]. cbn [fst snd] in H1.
    set (vt3 := set_happy (or1 (happy (vbp_start_poke vt1)))
                  (vbp_start_poke vt1)).
    pose proof (has_poked_fields (clk k1) vt3 be1) as F. cbv zeta in F.
    destruct (vbp_has_poked (clk k1) vt3 be1) as [[vt4 be4] l].
    cbn [fst snd] in F.
    specialize (IH (u32 (u + 1)) (S k1) vt4 be4). cbv zeta in IH.
    destruct IH as (I1 & I2 & I3 & I4 & I5).
    destruct F as (F1 & F2 & F3 & F4 & F5 & _).
    destruct H1 as (G1 & G2 & G3 & G4 & G5).
    rewrite I1, I2, I3, I4, I5, F1, F2, F3, F4, F5.
    subst vt3. cbn [set_happy vbp_start_poke req req_len running heap_idx due].
    repeat split; assumption.
Qed.

(** The target [VBP_Insert] returns: attached, with the request built
    from the probe, idle and off the heap. *)
Lemma insert_fields (b : backend) (p : vrt_backend_probe)
    (hosthdr : option (list byte)) (clk : nat -> D) :
  be_probe b = false ->
  let vt0 := vbp_build_req hosthdr (vbp_set_defaults (alloc_target p true)) in
  exists vt b',
    VBP_Insert b p hosthdr clk = Returned (vt, b')
    /\ req vt = req vt0 /\ req_len vt = req_len vt0
    /\ running vt = 0 /\ heap_idx vt = BINHEAP_NOIDX
    /\ vt_backend vt = true /\ be_probe b' = true.
Proof.
  intros Hb vt0. unfold VBP_Insert. rewrite Hb. fold vt0.
  pose proof (insert_loop_fields clk (Z.to_nat (initial (probe vt0))) 0 O
                vt0 b) as Hl.
  pose proof (insert_loop_spec clk (Z.to_nat (initial (probe vt0))) 0 O
                vt0 b) as Hs.
  cbv zeta in Hl, Hs.
  destruct (insert_loop _ 0 clk 0%nat vt0 b) as [[k vt1] b1].
  cbn [fst snd] in Hl, Hs.
  pose proof (has_poked_fields (clk k) vt1 (set_be_probe true b1)) as F.
  pose proof (has_poked_frame (clk k) vt1 (set_be_probe true b1)) as (Fb & Fq).
  cbv zeta in F.
  destruct (vbp_has_poked (clk k) vt1 (set_be_probe true b1)) as [[vt2 b2] l].
  cbn [fst snd] in F, Fb, Fq.
  exists vt2, b2. split; [reflexivity |].
  destruct F as (F1 & F2 & F3 & F4 & _).
  destruct Hl as (L1 & L2 & L3 & L4 & _).
  destruct Hs as (_ & _ & S3 & _).
  rewrite F1, F2, F3, F4, L1, L2, L3, L4, Fb, S3, Fq.
  repeat split; reflexivity.
Qed.

(** X18.  When the probe gives no request of its own, the request
    [VBP_Insert] builds has [req_len] bytes, at least 36, and
    [vbp_task] never fails [assert(vt->req_len > 0)] on the target. *)
Theorem insert_default_request_passes_assert (b : backend)
    (p : vrt_backend_probe) (hosthdr : option (list byte))
    (clk : nat -> D) :
  be_probe b = false -> request p = None ->
  exists vt b',
    VBP_Insert b p hosthdr clk = Returned (vt, b')
    /\ req_len vt = Z.of_nat (List.length (req vt))
    /\ 36 <= req_len vt
    /\ forall e now be,
         vbp_task e now vt be <> Wrong "assert(vt->req_len > 0)".
Proof.
  intros Hb Hq.
  destruct (insert_fields b p hosthdr clk Hb)
    as (vt & b' & Hr & Eq & El & _).
  exists vt, b'. split; [exact Hr |].
  assert (L : req_len vt = Z.of_nat (List.length (req vt))
              /\ 36 <= req_len vt).
  { rewrite Eq, El. unfold vbp_build_req.
    cbn [set_req req req_len vbp_set_defaults set_probe probe request
         alloc_target url].
    rewrite Hq. split; [reflexivity |].
    rewrite !length_app. cbn [bytes list_byte_of_string List.length CRLF].
    destruct (url p), hosthdr; cbn [List.length]; rewrite ?length_app;
      cbn [List.length];
      repeat match goal with
             | |- context [List.length (bytes ?s)] =>
                 let n := eval vm_compute in (List.length (bytes s)) in
                 change (List.length (bytes s)) with n
             end;
      lia. }
  split; [apply L |]. split; [apply L |].
  intros e now be. unfold vbp_task.
  destruct (Z.leb_spec (req_len vt) 0); [lia |].
  destruct (vbp_poke e (vbp_start_poke vt)) as [r | m |] eqn:P.
  - destruct (vbp_has_poked now (pr_vt r) be) as [[? ?] ?]. discriminate.
  - unfold vbp_poke in P.
    destruct (conn e) as [[| |] |]; try discriminate;
      try (inversion P; discriminate);
      repeat match type of P with
             | (if ?c then _ else _) = _ => destruct c
             | match ?c with _ => _ end = _ => destruct c eqn:?
             end; try discriminate.
    all: exfalso;
      match goal with
      | H : poke_recv ?e ?v = Wrong _ |- _ =>
          destruct (poke_recv_total e v) as (x & Hx); congruence
      end.
  - discriminate.
Qed.

(** X19.  A probe whose request is the empty string is accepted by
    [VBP_Insert], and every [vbp_task] on the target then fails
    [assert(vt->req_len > 0)]. *)
Theorem insert_empty_request_trips_assert (b : backend)
    (p : vrt_backend_probe) (hosthdr : option (list byte))
    (clk : nat -> D) :
  be_probe b = false -> request p = Some [] ->
  exists vt b',
    VBP_Insert b p hosthdr clk = Returned (vt, b')
    /\ forall e now be,
         vbp_task e now vt be = Wrong "assert(vt->req_len > 0)".
Proof.
  intros Hb Hq.
  destruct (insert_fields b p hosthdr clk Hb)
    as (vt & b' & Hr & _ & El & _).
  exists vt, b'. split; [exact Hr |].
  intros e now be. unfold vbp_task. rewrite El. unfold vbp_build_req.
  cbn [set_req req_len vbp_set_defaults set_probe probe request
       alloc_target].
  rewrite Hq. reflexivity.
Qed.

End Life.

(** ** The default seeding *)

Section DefaultSeed.

Context {dbl : Double} {libc : Libc}.

(** X20.  With the initial count left unset ([~0U]), [VBP_Insert]
    seeds [threshold - 1] happy probes and leaves the backend sick.
    When the threshold is at most the window and at most 64, [good] is
    [threshold - 1], and the first task that ends happy makes [good]
    the threshold and the backend healthy. *)
Theorem insert_default_is_one_probe_short (b : backend)
    (p : vrt_backend_probe) (hosthdr : option (list byte))
    (clk : nat -> D) :
  be_probe b = false -> initial p = UINT_MAX ->
  0 <= threshold p <= UINT_MAX -> 0 <= window p < 2 ^ 32 ->
  let p' := probe (vbp_set_defaults (alloc_target p true)) in
  exists vt b',
    VBP_Insert b p hosthdr clk = Returned (vt, b')
    /\ healthy b' = false
    /\ (threshold p' <= window p' -> threshold p' <= 64 ->
        good vt = threshold p' - 1
        /\ forall e now vt1 b1 line,
             vbp_task e now vt b' = Returned (Some vt1, b1, line) ->
             bit0 (happy vt1) = true ->
             good vt1 = threshold p' /\ healthy b1 = true).
Proof.
  intros Hb Hi Ht Hw p'.
  destruct (insert_returns b p hosthdr clk Hb)
    as (vt & b' & Hr & Ep & Hh & Hg & Hy).
  destruct (insert_fields b p hosthdr clk Hb)
    as (vt_ & b_ & Hr_ & _ & _ & _ & _ & Hat & _).
  rewrite Hr in Hr_. inversion Hr_; subst vt_ b_; clear Hr_.
  fold p' in Ep, Hh, Hg, Hy.
  set (t := threshold p') in *.
  assert (Et : t = if threshold p =? 0 then 3 else threshold p)
    by reflexivity.
  assert (Ht1 : 1 <= t <= UINT_MAX)
    by (rewrite Et; unfold UINT_MAX in *; destruct (Z.eqb_spec (threshold p) 0); lia).
  assert (Ew : window p' = if window p =? 0 then 8 else window p)
    by reflexivity.
  assert (Hw1 : 0 <= window p' < 2 ^ 32)
    by (rewrite Ew; destruct (Z.eqb_spec (window p) 0); lia).
  assert (Ei : initial p' = t - 1).
  { subst p' t. unfold vbp_set_defaults.
    cbn [set_probe probe initial threshold alloc_target].
    rewrite Hi, Z.eqb_refl.
    fold (threshold (probe (vbp_set_defaults (alloc_target p true)))) in *.
    set (t := if threshold p =? 0 then 3 else threshold p) in *.
    unfold u32, UINT_MAX in *. rewrite Z.mod_small by lia.
    destruct (Z.ltb_spec t (t - 1)); lia. }
  rewrite Ei in Hh.
  assert (Eh : happy vt = Z.ones (Z.of_nat (Nat.min (Z.to_nat (t - 1)) 64))).
  { rewrite Hh. change 0 with (Z.ones (Z.of_nat 0)).
    rewrite seed_ones by lia. reflexivity. }
  assert (Eg : good vt
               = Z.of_nat (Nat.min (Z.to_nat (window p'))
                             (Nat.min (Z.to_nat (t - 1)) 64))).
  { rewrite Hg by exact Hw1. rewrite Eh, ones_below_ones. reflexivity. }
  exists vt, b'. split; [exact Hr |]. split.
  { rewrite Hy. apply Z.leb_gt. lia. }
  intros Htw H64. split; [lia |].
  intros e now vt1 b1 line T Hb1. apply task_returns in T.
  destruct T as (_ & r & P & Eb1 & _ & Ho).
  destruct (poke_fields _ _ _ P) as (Fb & Fp & _).
  cbn [vbp_start_poke vt_backend probe] in Fb, Fp.
  pose proof (has_poked_happy now (pr_vt r) b') as (Gh & _).
  pose proof (has_poked_good now (pr_vt r) b') as Gg.
  pose proof (has_poked_healthy now (pr_vt r) b') as Gy.
  unfold task_tail in Ho. destruct (running _ <? 0); [discriminate |].
  inversion Ho; subst vt1; clear Ho.
  cbn [set_running happy good] in *. rewrite Gh in Hb1.
  assert (Eh1 : happy (pr_vt r) = Z.ones t).
  { destruct (poke_happy_value _ _ _ P) as [E | E];
      cbn [vbp_start_poke happy] in E.
    - rewrite E, bit0_shl1 in Hb1. discriminate.
    - rewrite E, Eh. change (or1 (shl1 ?x)) with (seed 1 x).
      rewrite seed_ones by lia. f_equal. lia. }
  rewrite Fp, Ep in Gg, Gy. rewrite Eh1 in Gg. specialize (Gg Hw1).
  replace (Z.ones t) with (Z.ones (Z.of_nat (Z.to_nat t))) in Gg
    by (f_equal; lia).
  rewrite ones_below_ones in Gg.
  assert (G : good (fst (fst (vbp_has_poked now (pr_vt r) b'))) = t)
    by (rewrite Gg; lia).
  split; [exact G |]. rewrite Eb1, Gy by congruence.
  fold t. rewrite G. apply Z.leb_refl.
Qed.

End DefaultSeed.

(** ** Insert, control, remove *)

Section Surface.

Context {dbl : Double} {libc : Libc}.

(** X22.  The life of a probe on a backend.  [VBP_Remove] on a
    backend without a probe fails its check.  After [VBP_Insert] a
    second [VBP_Insert] fails [AZ(b->probe)]; [VBP_Remove] releases the
    target at once (no task is under way), leaves the backend healthy
    and without a probe, and [VBP_Insert] works on it again. *)
Theorem insert_remove_cycle (b : backend) (p p2 : vrt_backend_probe)
    (hosthdr h2 : option (list byte)) (clk clk2 : nat -> D) :
  be_probe b = false ->
  VBP_Remove b (alloc_target p false)
  = Wrong "CHECK_OBJ_NOTNULL(vt, VBP_TARGET_MAGIC)"
  /\ exists vt b',
       VBP_Insert b p hosthdr clk = Returned (vt, b')
       /\ VBP_Insert b' p2 h2 clk2 = Wrong "AZ(b->probe)"
       /\ exists b'',
            VBP_Remove b' vt = Returned (None, b'')
            /\ healthy b'' = true /\ be_probe b'' = false
            /\ exists vt2 b2, VBP_Insert b'' p2 h2 clk2 = Returned (vt2, b2).
Proof.
  intros Hb. split; [unfold VBP_Remove; rewrite Hb; reflexivity |].
  destruct (insert_fields b p hosthdr clk Hb)
    as (vt & b' & Hr & _ & _ & Hrun & _ & _ & Hp).
  exists vt, b'. split; [exact Hr |].
  split; [unfold VBP_Insert; rewrite Hp; reflexivity |].
  eexists. split.
  - unfold VBP_Remove. rewrite Hp. cbn [negb set_vt_backend running].
    rewrite Hrun. reflexivity.
  - split; [reflexivity |]. split; [reflexivity |].
    destruct (insert_fields (set_be_probe false (set_healthy true b')) p2 h2
                clk2 eq_refl) as (vt2 & b2 & Hr2 & _).
    exists vt2, b2. exact Hr2.
Qed.

(** X23.  [VBP_Insert] leaves the target off the heap, and
    [VBP_Control] alternates from there: disabling first fails its
    assertion; enabling puts the target on the heap, due at once;
    enabling again fails its assertion; disabling takes the target off
    the heap again. *)
Theorem control_alternates (b : backend) (p : vrt_backend_probe)
    (hosthdr : option (list byte)) (clk : nat -> D) (heap : binheap)
    (now now2 : D) :
  be_probe b = false ->
  exists vt b',
    VBP_Insert b p hosthdr clk = Returned (vt, b')
    /\ VBP_Control now heap b' vt false
       = Wrong "assert(vt->heap_idx != BINHEAP_NOIDX)"
    /\ exists vt1 heap1,
         VBP_Control now heap b' vt true = Returned (vt1, heap1)
         /\ due vt1 = now /\ In vt1 heap1
         /\ VBP_Control now2 heap1 b' vt1 true
            = Wrong "assert(vt->heap_idx == BINHEAP_NOIDX)"
         /\ exists vt2 heap2,
              VBP_Control now2 heap1 b' vt1 false = Returned (vt2, heap2)
              /\ heap_idx vt2 = BINHEAP_NOIDX.
Proof.
  intros Hb.
  destruct (insert_fields b p hosthdr clk Hb)
    as (vt & b' & Hr & _ & _ & _ & Hi & _ & Hp).
  exists vt, b'. split; [exact Hr |].
  unfold VBP_Control. rewrite Hp, Hi. cbn [negb Z.eqb BINHEAP_NOIDX].
  split; [reflexivity |].
  eexists _, _. split; [reflexivity |].
  assert (Hpos : forall v h, 1 <= sift_pos v h).
  { intros v h. induction h as [| x t IH]; cbn [sift_pos]; [lia |].
    destruct (vbp_cmp v x); lia. }
  pose proof (Hpos (set_due now vt) heap) as H1.
  split; [reflexivity |]. split.
  { unfold binheap_insert.
    replace (sift_pos (set_due now vt) heap)
      with (1 - 1 + sift_pos (set_due now vt) heap) at 1 by lia.
    apply sift_lands. }
  cbn [vbp_update set_heap_idx heap_idx].
  destruct (Z.eqb_spec (sift_pos (set_due now vt) heap) BINHEAP_NOIDX)
    as [E | E]; [unfold BINHEAP_NOIDX in E; lia |]. cbn [negb].
  split; [reflexivity |]. eexists _, _. split; reflexivity.
Qed.

(** X24.  [VBP_Init], [VBP_Control] and [vbp_thread] together: enabled
    at [now] on the empty heap, the target is alone on the heap; the
    dispatcher that reads the clock at [now'] waits until [now] when
    [now' < now], and otherwise submits the target, running, due again
    at [now' + interval], alone on the heap. *)
Theorem enable_then_dispatch (now now' : D) (be : backend)
    (vt : vbp_target) :
  be_probe be = true -> heap_idx vt = BINHEAP_NOIDX ->
  exists vt1 heap1,
    VBP_Control now VBP_Init be vt true = Returned (vt1, heap1)
    /\ heap1 = [vt1]
    /\ vbp_thread now' heap1
       = if dltb now' now then CondWait now
         else
           let vt2 :=
             set_heap_idx 1
               (set_due (dadd now' (interval (probe vt)))
                  (set_running 1 vt)) in
           Submit vt2 [vt2].
Proof.
  intros Hp Hi. unfold VBP_Control, VBP_Init. rewrite Hp, Hi.
  cbn [negb Z.eqb BINHEAP_NOIDX].
  eexists _, _. split; [reflexivity |]. split; [reflexivity |].
  unfold vbp_thread, binheap_insert.
  cbn [sift sift_pos reindex binheap_root vbp_update set_heap_idx due
       set_due heap_idx].
  destruct (dltb now' now); [reflexivity |].
  unfold binheap_delete.
  cbn [drop_idx heap_idx Z.eqb Pos.eqb reindex binheap_insert sift sift_pos
       vbp_update set_heap_idx set_running set_due probe interval].
  reflexivity.
Qed.

End Surface.

(** ** A task and [VBP_Remove] side by side *)

Section HandOffProofs.

Context {dbl : Double} {libc : Libc}.

Lemma has_poked_detached (now : D) (vt : vbp_target) (be : backend) :
  vt_backend vt = false ->
  snd (fst (vbp_has_poked now vt be)) = be
  /\ snd (vbp_has_poked now vt be) = None.
Proof.
  intros Hb. unfold vbp_has_poked.
  destruct (avg_update_frame vt) as (_ & _ & Eb & _).
  cbn [set_good vt_backend]. rewrite Eb, Hb. split; reflexivity.
Qed.

Lemma worker_step_ok (e : poke_env) (now : D) (w w' : poller) :
  handoff_ok w -> worker_step e now w = Returned w' -> handoff_ok w'.
Proof.
  intros [A | [Dm | R]] H; unfold worker_step in H.
  - destruct A as (Hp & Hf & vt & Ht & Hb & Hr). rewrite Ht in H.
    destruct (p_task w) eqn:Pc; cbn [task_done] in Hr.
    + destruct (req_len vt <=? 0); [discriminate |].
      destruct (vbp_poke e (vbp_start_poke vt)) as [r | |] eqn:P;
        try discriminate.
      inversion H; subst w'; clear H. left.
      destruct (poke_fields _ _ _ P)
        as (Eb & _ & _ & _ & _ & _ & _ & _ & Er & _).
      cbn [vbp_start_poke vt_backend running] in Eb, Er.
      repeat split; cbn; try assumption.
      exists (pr_vt r). repeat split; congruence.
    + pose proof (has_poked_frame now vt (p_backend w)) as (Fb & Fq).
      pose proof (has_poked_fields now vt (p_backend w)) as F.
      cbv zeta in F. destruct F as (_ & _ & Fr & _).
      destruct (vbp_has_poked now vt (p_backend w)) as [[vt1 be1] l].
      cbn [fst snd] in *. inversion H; subst w'; clear H. left.
      repeat split; cbn; try congruence.
      exists vt1. repeat split; congruence.
    + unfold task_tail in H. rewrite Hr in H. cbn in H.
      inversion H; subst w'; clear H. left.
      repeat split; cbn; try assumption.
      eexists. repeat split; assumption.
    + inversion H; subst w'. left. repeat split; try assumption.
      exists vt. rewrite Pc. repeat split; assumption.
  - destruct Dm as (Hp & Hh & Hd & Hf & vt & Ht & Hb & Hr). rewrite Ht in H.
    destruct (p_task w) eqn:Pc; cbn [task_done] in Hd; try discriminate.
    + destruct (req_len vt <=? 0); [discriminate |].
      destruct (vbp_poke e (vbp_start_poke vt)) as [r | |] eqn:P;
        try discriminate.
      inversion H; subst w'; clear H. right. left.
      destruct (poke_fields _ _ _ P)
        as (Eb & _ & _ & _ & _ & _ & _ & _ & Er & _).
      cbn [vbp_start_poke vt_backend running] in Eb, Er.
      repeat split; cbn; try assumption.
      exists (pr_vt r). repeat split; congruence.
    + pose proof (has_poked_frame now vt (p_backend w)) as (Fb & _).
      pose proof (has_poked_fields now vt (p_backend w)) as F.
      pose proof (has_poked_detached now vt (p_backend w) Hb) as (Fe & _).
      cbv zeta in F. destruct F as (_ & _ & Fr & _).
      destruct (vbp_has_poked now vt (p_backend w)) as [[vt1 be1] l].
      cbn [fst snd] in *. inversion H; subst w'; clear H. right. left.
      subst be1. repeat split; cbn; try assumption.
      exists vt1. repeat split; congruence.
    + unfold task_tail in H. rewrite Hr in H. cbn in H.
      inversion H; subst w'; clear H. right. right.
      repeat split; cbn; try assumption. rewrite Hf. reflexivity.
  - destruct R as (Hp & Hh & Hd & Hf & Ht).
    destruct (p_task w) eqn:Pc; cbn [task_done] in Hd; try discriminate.
    inversion H; subst w'. right. right.
    repeat split; try assumption. rewrite Pc. reflexivity.
Qed.

Lemma cli_step_ok (w w' : poller) :
  handoff_ok w -> cli_step w = Returned w' -> handoff_ok w'.
Proof.
  intros [A | [Dm | R]] H; unfold cli_step in H.
  - destruct A as (Hp & Hf & vt & Ht & Hb & Hr).
    rewrite Hp, Ht in H. cbn [negb] in H. unfold VBP_Remove in H.
    rewrite Hp in H. cbn [negb set_vt_backend running] in H.
    rewrite Hr in H.
    destruct (task_done (p_task w)) eqn:Pd; cbn in H;
      inversion H; subst w'; clear H.
    + right. right. repeat split; cbn; try assumption.
      rewrite Hf. reflexivity.
    + right. left. repeat split; cbn; try assumption.
      eexists. repeat split; reflexivity.
  - destruct Dm as (Hp & _). rewrite Hp in H. discriminate.
  - destruct R as (Hp & _). rewrite Hp in H. discriminate.
Qed.




(** Each stretch of the task runs when no assertion stands in its
    way, and each call of [VBP_Remove] on a backend with a probe
    returns. *)
Lemma worker_step_runs (e : poke_env) (now : D) (q : Z) (w : poller) :
  handoff_ok w -> req_len_is q w -> 0 < q -> conn e <> Some AF_OTHER ->
  exists w',
    worker_step e now w = Returned w'
    /\ p_task w' = next_pc (p_task w)
    /\ be_probe (p_backend w') = be_probe (p_backend w)
    /\ req_len_is q w'.
Proof.
  intros Hw Hq Hpos Hc.
  assert (T : p_task w = Task_done \/
              exists vt, p_target w = Some vt /\ p_task w <> Task_done).
  { destruct Hw as [A | [Dm | R]].
    - destruct A as (_ & _ & vt & Ht & _).
      destruct (p_task w) eqn:Pc; [right | right | right | left; reflexivity];
        exists vt; split; try assumption; discriminate.
    - destruct Dm as (_ & _ & Hd & _ & vt & Ht & _). right. exists vt.
      split; [exact Ht |]. intros E. rewrite E in Hd. discriminate.
    - destruct R as (_ & _ & Hd & _). left.
      destruct (p_task w); cbn in Hd; try discriminate. reflexivity. }
  unfold worker_step. destruct T as [T | (vt & Ht & Hnd)].
  - rewrite T. exists w. rewrite T. repeat split; assumption.
  - rewrite Ht. specialize (Hq vt Ht).
    destruct (p_task w) eqn:Pc; [| | | congruence].
    + destruct (Z.leb_spec (req_len vt) 0); [lia |].
      destruct (vbp_poke_total e (vbp_start_poke vt)) as [[r P] | [Hc' _]];
        [| congruence].
      rewrite P. eexists. split; [reflexivity |].
      repeat split. intros v Hv. cbn in Hv. inversion Hv; subst v.
      destruct (poke_fields _ _ _ P) as (_ & _ & _ & El & _).
      rewrite El. exact Hq.
    + pose proof (has_poked_frame now vt (p_backend w)) as (_ & Fq).
      pose proof (has_poked_fields now vt (p_backend w)) as F.
      cbv zeta in F. destruct F as (_ & Fl & _).
      destruct (vbp_has_poked now vt (p_backend w)) as [[vt1 be1] l].
      cbn [fst snd] in *. eexists. split; [reflexivity |].
      repeat split; cbn; try assumption.
      intros v Hv. cbn in Hv. inversion Hv; subst v. congruence.
    + unfold task_tail. destruct (running vt <? 0);
        (eexists; split; [reflexivity |]); repeat split;
        intros v Hv; cbn in Hv; inversion Hv; subst v. exact Hq.
Qed.

Lemma cli_step_runs (q : Z) (w : poller) :
  handoff_ok w -> req_len_is q w -> be_probe (p_backend w) = true ->
  exists w',
    cli_step w = Returned w'
    /\ p_task w' = p_task w
    /\ be_probe (p_backend w') = false
    /\ req_len_is q w'.
Proof.
  intros Hw Hq Hp. destruct Hw as [A | [Dm | R]].
  - destruct A as (_ & _ & vt & Ht & _).
    unfold cli_step, VBP_Remove. rewrite Hp, Ht. cbn [negb].
    destruct (running _ =? 0);
      (eexists; split; [reflexivity |]); repeat split;
      intros v Hv; cbn in Hv; inversion Hv; subst v.
    apply (Hq vt Ht).
  - destruct Dm as (Dp & _). congruence.
  - destruct R as (Rp & _). congruence.
Qed.

(** X26.  Wherever one call of [VBP_Remove] falls, before the task,
    between two of its stretches or after it, once both are over the
    target has been released exactly once, and the backend is healthy
    and without a probe. *)
Theorem remove_releases_exactly_once (e : poke_env) (now : D)
    (sched : list thread) (vt : vbp_target) (be : backend) :
  running vt = 1 -> vt_backend vt = true -> be_probe be = true ->
  0 < req_len vt -> conn e <> Some AF_OTHER ->
  In sched [[Cli; Worker; Worker; Worker]; [Worker; Cli; Worker; Worker];
            [Worker; Worker; Cli; Worker]; [Worker; Worker; Worker; Cli]] ->
  exists w,
    run e now sched (submitted vt be) = Returned w
    /\ p_target w = None /\ p_frees w = 1%nat /\ p_task w = Task_done
    /\ healthy (p_backend w) = true /\ be_probe (p_backend w) = false.
Proof.
  intros Hr Hb Hp Hq Hc Hs.
  assert (H0 : handoff_ok (submitted vt be)).
  { left. repeat split; try assumption. exists vt.
    repeat split; assumption. }
  assert (Q0 : req_len_is (req_len vt) (submitted vt be)).
  { intros v Hv. cbn in Hv. inversion Hv; subst. reflexivity. }
  assert (W : forall w, handoff_ok w -> req_len_is (req_len vt) w ->
            exists w', worker_step e now w = Returned w'
                       /\ p_task w' = next_pc (p_task w)
                       /\ be_probe (p_backend w') = be_probe (p_backend w)
                       /\ req_len_is (req_len vt) w' /\ handoff_ok w').
  { intros w Hw Hl.
    destruct (worker_step_runs e now _ w Hw Hl Hq Hc) as (w' & S & A & B & C).
    exists w'. repeat split; try assumption.
    eapply worker_step_ok; eassumption. }
  assert (C : forall w, handoff_ok w -> req_len_is (req_len vt) w ->
            be_probe (p_backend w) = true ->
            exists w', cli_step w = Returned w'
                       /\ p_task w' = p_task w
                       /\ be_probe (p_backend w') = false
                       /\ req_len_is (req_len vt) w' /\ handoff_ok w').
  { intros w Hw Hl Hbp.
    destruct (cli_step_runs _ w Hw Hl Hbp) as (w' & S & A & B & D').
    exists w'. repeat split; try assumption.
    eapply cli_step_ok; eassumption. }
  assert (Fin : forall w, handoff_ok w -> p_task w = Task_done ->
            be_probe (p_backend w) = false ->
            p_target w = None /\ p_frees w = 1%nat /\ p_task w = Task_done
            /\ healthy (p_backend w) = true
            /\ be_probe (p_backend w) = false).
  { intros w [A | [Dm | R]] Ht Hbp.
    - destruct A as (Ap & _). congruence.
    - destruct Dm as (_ & _ & Dd & _). rewrite Ht in Dd. discriminate.
    - destruct R as (Rp & Rh & Rd & Rf & Rt). repeat split; assumption. }
  cbn [In] in Hs.
  destruct Hs as [<- | [<- | [<- | [<- | []]]]]; cbn [run].
  - destruct (C _ H0 Q0 Hp) as (w1 & S1 & T1 & B1 & L1 & O1). rewrite S1.
    destruct (W _ O1 L1) as (w2 & S2 & T2 & B2 & L2 & O2). rewrite S2.
    destruct (W _ O2 L2) as (w3 & S3 & T3 & B3 & L3 & O3). rewrite S3.
    destruct (W _ O3 L3) as (w4 & S4 & T4 & B4 & L4 & O4). rewrite S4.
    exists w4. split; [reflexivity |]. apply Fin; [exact O4 | | congruence].
    rewrite T4, T3, T2, T1. reflexivity.
  - destruct (W _ H0 Q0) as (w1 & S1 & T1 & B1 & L1 & O1). rewrite S1.
    destruct (C _ O1 L1 ltac:(rewrite B1; exact Hp)) as (w2 & S2 & T2 & B2 & L2 & O2).
    rewrite S2.
    destruct (W _ O2 L2) as (w3 & S3 & T3 & B3 & L3 & O3). rewrite S3.
    destruct (W _ O3 L3) as (w4 & S4 & T4 & B4 & L4 & O4). rewrite S4.
    exists w4. split; [reflexivity |]. apply Fin; [exact O4 | | congruence].
    rewrite T4, T3, T2, T1. reflexivity.
  - destruct (W _ H0 Q0) as (w1 & S1 & T1 & B1 & L1 & O1). rewrite S1.
    destruct (W _ O1 L1) as (w2 & S2 & T2 & B2 & L2 & O2). rewrite S2.
    destruct (C _ O2 L2 ltac:(rewrite B2, B1; exact Hp)) as (w3 & S3 & T3 & B3 & L3 & O3).
    rewrite S3.
    destruct (W _ O3 L3) as (w4 & S4 & T4 & B4 & L4 & O4). rewrite S4.
    exists w4. split; [reflexivity |]. apply Fin; [exact O4 | | congruence].
    rewrite T4, T3, T2, T1. reflexivity.
  - destruct (W _ H0 Q0) as (w1 & S1 & T1 & B1 & L1 & O1). rewrite S1.
    destruct (W _ O1 L1) as (w2 & S2 & T2 & B2 & L2 & O2). rewrite S2.
    destruct (W _ O2 L2) as (w3 & S3 & T3 & B3 & L3 & O3). rewrite S3.
    destruct (C _ O3 L3 ltac:(rewrite B3, B2, B1; exact Hp)) as (w4 & S4 & T4 & B4 & L4 & O4).
    rewrite S4.
    exists w4. split; [reflexivity |]. apply Fin; [exact O4 | | congruence].
    rewrite T4, T3, T2, T1. reflexivity.
Qed.

(** The three stretches, run without interruption, are [vbp_task]. *)
Lemma task_is_three_stretches (e : poke_env) (now : D) (vt : vbp_target)
    (be : backend) :
  run e now [Worker; Worker; Worker] (submitted vt be)
  = match vbp_task e now vt be with
    | Returned (o, be', _) =>
        Returned {| p_target := o; p_backend := be'; p_task := Task_done;
                    p_frees := match o with Some _ => 0 | None => 1 end |}
    | Wrong m => Wrong m
    | OutOfFuel => OutOfFuel
    end.
Proof.
  unfold vbp_task, submitted. cbn [run].
  unfold worker_step at 1. cbn [p_task p_target p_backend p_frees].
  destruct (req_len vt <=? 0); [reflexivity |].
  destruct (vbp_poke e (vbp_start_poke vt)) as [r | |]; try reflexivity.
  unfold worker_step at 1. cbn [p_task p_target p_backend p_frees].
  destruct (vbp_has_poked now (pr_vt r) be) as [[vt1 be1] l].
  unfold worker_step. cbn [p_task p_target p_backend p_frees].
  unfold task_tail. destruct (running vt1 <? 0); reflexivity.
Qed.

End HandOffProofs.

(** ** The statements on sample inputs *)

Lemma returned_spec {A : Type} (o : outcome A) (d : A) :
  is_returned o = true -> o = Returned (returned o d).
Proof. destruct o; [reflexivity | discriminate | discriminate]. Qed.


Lemma has_poked_good_popcount_witness :
  1 <= window (probe (target_with probe_unset 11)) <= 64
  /\ let vt' := fst (fst (vbp_has_poked (fl 7) (target_with probe_unset 11)
                            backend_new)) in
     good vt'
     = popcount (Z.land (happy vt') (Z.shiftl 1 (window (probe vt')) - 1)).
Proof.
  split.
  - cbn. lia.
  - apply (has_poked_good_popcount (fl 7) (target_with probe_unset 11)).
    cbn. lia.
Defined.

Lemma has_poked_health_witness :
  vt_backend (target_with probe_unset 11) = true
  /\ let r := vbp_has_poked (fl 7) (target_with probe_unset 11) backend_new in
     let vt' := fst (fst r) in
     let be' := snd (fst r) in
     (healthy be' = true <-> threshold (probe vt') <= good vt')
     /\ (healthy be' = false <-> good vt' < threshold (probe vt'))
     /\ (healthy be' <> healthy backend_new ->
         health_changed be' = fl 7
         /\ exists l, snd r = Some l
                      /\ (hl_msg l = Back_healthy \/ hl_msg l = Went_sick))
     /\ (healthy be' = healthy backend_new ->
         health_changed be' = health_changed backend_new
         /\ exists l, snd r = Some l
                      /\ (hl_msg l = Still_healthy \/ hl_msg l = Still_sick)).
Proof.
  split; [reflexivity |].
  exact (has_poked_health (fl 7) (target_with probe_unset 11) backend_new
           eq_refl).
Defined.

(** C3 fails as stated: a threshold above the window, given as such or
    arising from the default threshold 3 under a window of 2, is still
    above the window after [vbp_set_defaults]. *)
Lemma set_defaults_keeps_threshold_above_window :
  (let p' := probe (vbp_set_defaults
                      (alloc_target (probe_with 2 5 UINT_MAX) true)) in
   window p' = 2 /\ threshold p' = 5 /\ ~ threshold p' <= window p')
  /\ (let p' := probe (vbp_set_defaults
                         (alloc_target (probe_with 2 0 UINT_MAX) true)) in
      window p' = 2 /\ threshold p' = 3 /\ ~ threshold p' <= window p').
Proof.
  split; cbn; repeat split; lia.
Qed.

Lemma thread_reschedules_from_now_witness :
  binheap_root (heap_one 10) = Some (vbp_update (target_due 10) 1)
  /\ @dltb binary64 (fl 12) (due (vbp_update (target_due 10) 1)) = false
  /\ exists vt' heap',
       vbp_thread (fl 12) (heap_one 10) = Submit vt' heap'
       /\ running vt' = 1
       /\ due vt'
          = @dadd binary64 (fl 12)
              (interval (probe (vbp_update (target_due 10) 1)))
       /\ probe vt' = probe (vbp_update (target_due 10) 1)
       /\ In vt' heap'.
Proof.
  split; [reflexivity |]. split; [reflexivity |].
  apply (thread_reschedules_from_now (dbl := binary64) (fl 12) (heap_one 10)
           (vbp_update (target_due 10) 1)); reflexivity.
Defined.

(** C5 fails as stated: a target due at 10 with an interval of 5,
    taken off the heap at time 12, is due again at 17, not at 15. *)
Lemma thread_due_is_not_old_due_plus_interval :
  exists vt' heap',
    binheap_root (heap_one 10) = Some (vbp_update (target_due 10) 1)
    /\ vbp_thread (fl 12) (heap_one 10) = Submit vt' heap'
    /\ due vt' = fl 17
    /\ @dadd binary64 (due (target_due 10)) (interval (probe (target_due 10)))
       = fl 15
    /\ due vt' <> @dadd binary64 (due (target_due 10))
                   (interval (probe (target_due 10))).
Proof.
  eexists. eexists. split; [reflexivity |]. split; [reflexivity |].
  split; [reflexivity |]. split; [reflexivity |].
  intros H.
  apply (f_equal (fun x => PrimFloat.eqb x (float_of_Z 15))) in H.
  vm_compute in H. discriminate.
Qed.

Lemma poke_write_outcome_witness :
  conn (env_writing 3) = Some AF_INET
  /\ AF_INET <> AF_OTHER
  /\ 0 < tmo_ms (@dadd binary64 (t_start (env_writing 3))
                   (timeout (probe target_probing)))
            (t_conn (env_writing 3))
  /\ exists r,
       vbp_poke (libc := glibc) (env_writing 3) target_probing = Returned r
       /\ pr_closed r = true
       /\ (wr_ret (env_writing 3) <> req_len target_probing ->
           good_xmit (pr_vt r) = good_xmit target_probing
           /\ err_xmit (pr_vt r)
              = (if wr_ret (env_writing 3) <? 0
                 then or1 (err_xmit target_probing)
                 else err_xmit target_probing))
       /\ (wr_ret (env_writing 3) = req_len target_probing ->
           good_xmit (pr_vt r) = or1 (good_xmit target_probing)
           /\ err_xmit (pr_vt r) = err_xmit target_probing).
Proof.
  split; [reflexivity |]. split; [discriminate |].
  split; [vm_compute; reflexivity |].
  apply (poke_write_outcome (dbl := binary64) (libc := glibc)
           (env_writing 3) target_probing AF_INET);
    [reflexivity | discriminate | vm_compute; reflexivity].
Defined.

(** C4 fails as stated: a [write] that takes 3 of the 37 bytes of the
    request makes the probe close the socket and return, and the
    newest bit of [err_xmit] stays 0. *)
Lemma poke_short_write_leaves_err_xmit :
  exists r,
    vbp_poke (libc := glibc) (env_writing 3) target_probing = Returned r
    /\ req_len target_probing = 37
    /\ 0 <= wr_ret (env_writing 3) < req_len target_probing
    /\ pr_closed r = true
    /\ bit0 (good_xmit (pr_vt r)) = false
    /\ bit0 (err_xmit (pr_vt r)) = false.
Proof.
  exists (returned (vbp_poke (libc := glibc) (env_writing 3) target_probing)
            no_result).
  split; [apply returned_spec; vm_compute; reflexivity |].
  split; [vm_compute; reflexivity |].
  split; [vm_compute; split; [discriminate | reflexivity] |].
  repeat split; vm_compute; reflexivity.
Qed.


Lemma insert_seeds_initial_ones_witness :
  be_probe backend_new = false
  /\ (let i := initial (probe (vbp_set_defaults
                                 (alloc_target probe_unset true))) in
      0 <= i <= 64
      /\ exists vt b',
           VBP_Insert backend_new probe_unset None clock = Returned (vt, b')
           /\ happy vt = Z.ones i
           /\ popcount (Z.land (happy vt) (Z.shiftl 1 (i + 1) - 1)) = i).
Proof.
  split; [reflexivity |]. intros i.
  assert (Hi : 0 <= i <= 64) by (vm_compute; split; discriminate).
  split; [exact Hi |].
  exact (insert_seeds_initial_ones (dbl := binary64) backend_new probe_unset
           None clock eq_refl Hi).
Defined.

(** C6 fails as stated: with a threshold and an initial count of 65
    the 64-bit bitmap is full after [VBP_Insert], and holds 64 ones,
    not 65. *)
Lemma insert_seeds_at_most_64_ones :
  let vt := fst (inserted (probe_with 8 65 65)) in
  VBP_Insert backend_new (probe_with 8 65 65) None clock
  = Returned (inserted (probe_with 8 65 65))
  /\ initial (probe vt) = 65
  /\ happy vt = 2 ^ 64 - 1
  /\ popcount (Z.land (happy vt) (Z.shiftl 1 (initial (probe vt) + 1) - 1))
     = 64.
Proof.
  intros vt. split; [apply returned_spec; vm_compute; reflexivity |].
  repeat split; vm_compute; reflexivity.
Qed.

Lemma insert_initial_threshold_healthy_witness :
  be_probe backend_new = false
  /\ (let p' := probe (vbp_set_defaults
                         (alloc_target (probe_with 8 3 3) true)) in
      initial p' = threshold p'
      /\ 0 <= threshold p' <= window p'
      /\ threshold p' <= 64
      /\ window p' < 2 ^ 32
      /\ exists vt b',
           VBP_Insert backend_new (probe_with 8 3 3) None clock
           = Returned (vt, b')
           /\ good vt = threshold p'
           /\ healthy b' = true).
Proof.
  split; [reflexivity |]. intros p'.
  assert (H1 : initial p' = threshold p') by reflexivity.
  assert (H2 : 0 <= threshold p' <= window p')
    by (vm_compute; split; discriminate).
  assert (H3 : threshold p' <= 64) by (vm_compute; discriminate).
  assert (H4 : window p' < 2 ^ 32) by (vm_compute; reflexivity).
  repeat (split; [assumption |]).
  exact (insert_initial_threshold_healthy (dbl := binary64) backend_new
           (probe_with 8 3 3) None clock eq_refl H1 H2 H3 H4).
Defined.

(** C7 fails as stated: under a window of 2 with the default
    threshold 3 and an initial count of 3, [initial = threshold] after
    the defaults, yet only the two bits inside the window count, and
    the backend is sick when [VBP_Insert] returns. *)
Lemma insert_initial_threshold_sick :
  let r := inserted (probe_with 2 0 3) in
  VBP_Insert backend_new (probe_with 2 0 3) None clock = Returned r
  /\ window (probe (fst r)) = 2
  /\ threshold (probe (fst r)) = 3
  /\ initial (probe (fst r)) = threshold (probe (fst r))
  /\ good (fst r) = 2
  /\ healthy (snd r) = false.
Proof.
  intros r. split; [apply returned_spec; vm_compute; reflexivity |].
  repeat split; vm_compute; reflexivity.
Qed.



(** C10 at a response of [2^32 + 16] bytes.  The two responses are the
    same up to their last 16 bytes, which come after [2^32] bytes; the
    count [rlen] is back at 0 by then, the last bytes are stored at the
    start of [resp_buf], and they decide the verdict: happy for one,
    not happy for the other. *)
Theorem poke_rlen_wraps :
  let vt := vbp_start_poke (fst (inserted probe_unset)) in
  let e tail := with_sock (huge_response tail) (env_answering [] (fl 1)) in
  sock_agree 127 (sock (e tail_200)) (sock (e tail_500))
  /\ sock_bytes (sock (e tail_200)) = 2 ^ 32 + 16
  /\ (exists r, vbp_poke (libc := glibc) (e tail_200) vt = Returned r
                /\ bit0 (happy (pr_vt r)) = true)
  /\ (exists r, vbp_poke (libc := glibc) (e tail_500) vt = Returned r
                /\ bit0 (happy (pr_vt r)) = false).
Proof.
  intros vt e.
  assert (Lf : Z.of_nat (List.length filler) = 2 ^ 32 - 128).
  { unfold filler. rewrite repeat_length. apply Z2Nat.id. lia. }
  assert (Hrun : forall tail, (0 < List.length tail <= 128)%nat ->
            vbp_poke (libc := glibc) (e tail) vt
            = Returned
                {| pr_vt :=
                     good_receive (libc := glibc) (env_answering [] (fl 1))
                       (buf_write 0 tail (buf_write 0 head_500 (resp_buf vt)))
                       (set_good_xmit (or1 (good_xmit (mark_family AF_INET vt)))
                          (mark_family AF_INET vt));
                   pr_closed := true |}).
  { intros tail Lt.
    apply poke_wrapped;
      [reflexivity | vm_compute; reflexivity | reflexivity | reflexivity
      | reflexivity | exact Lf | exact Lt]. }
  split; [| split; [| split]].
  - unfold e, huge_response. cbn [with_sock sock].
    apply agree_seg; [reflexivity | reflexivity |].
    apply agree_seg; [reflexivity | reflexivity |].
    apply agree_seg; [reflexivity | | apply agree_nil].
    change (127 - List.length head_500)%nat with 0%nat. reflexivity.
  - unfold e, huge_response. cbn [with_sock sock sock_bytes].
    rewrite Lf. change (Z.of_nat (List.length head_500)) with 128.
    change (Z.of_nat (List.length tail_200)) with 16. lia.
  - eexists. split; [apply Hrun; cbn; lia |].
    cbn [pr_vt]. vm_compute. reflexivity.
  - eexists. split; [apply Hrun; cbn; lia |].
    cbn [pr_vt]. vm_compute. reflexivity.
Qed.

(** What [resp_buf] holds past the bytes of a response is what an
    earlier probe left there ([vbp_start_poke] clears byte 0 only, and
    the reads end the string nowhere but at byte 127).  A response
    that breaks off after ["HTTP/1.1 2"] is not happy on a fresh
    target; after a probe that was answered ["HTTP/1.1 200 OK"] the
    same ten bytes are followed in the buffer by the old ["00 OK"],
    the line handed to [sscanf] reads 200, and the probe is happy. *)
Remark poke_reads_stale_bytes :
  let e := env_answering [Seg resp_cut_short] (fl 1) in
  let fresh := returned (vbp_poke (libc := glibc) e target_probing)
                 no_result in
  let later := returned (vbp_poke (libc := glibc) e
                           (vbp_start_poke target_after_200)) no_result in
  vbp_poke (libc := glibc) e target_probing = Returned fresh
  /\ cstr (resp_buf (pr_vt fresh)) = bytes "HTTP/1.1 2"
  /\ bit0 (happy (pr_vt fresh)) = false
  /\ vbp_poke (libc := glibc) e (vbp_start_poke target_after_200)
     = Returned later
  /\ cstr (resp_buf (pr_vt later)) = bytes "HTTP/1.1 200 OK"
  /\ bit0 (happy (pr_vt later)) = true.
Proof.
  intros e fresh later.
  split; [apply returned_spec; vm_compute; reflexivity |].
  split; [vm_compute; reflexivity |].
  split; [vm_compute; reflexivity |].
  split; [apply returned_spec; vm_compute; reflexivity |].
  split; vm_compute; reflexivity.
Qed.

(** ** The further statements on sample inputs *)

Lemma task_left_spec
    (o : outcome (option (@vbp_target binary64) * @backend binary64
                  * option (@health_line binary64))) :
  is_returned o = true ->
  is_some (fst (fst (returned o no_task))) = true ->
  o = Returned (Some (target_left (fst (fst (returned o no_task)))),
                snd (fst (returned o no_task)), snd (returned o no_task)).
Proof.
  destruct o as [[[[v |] b] c] | |]; cbn; intros; try discriminate.
  reflexivity.
Qed.

Lemma poke_newest_bits_ordered_witness :
  let e := env_answering [Seg resp_200] (fl 1) in
  let vt := fst (inserted probe_unset) in
  let r := returned (vbp_poke (libc := glibc) e (vbp_start_poke vt))
             no_result in
  vbp_poke (libc := glibc) e (vbp_start_poke vt) = Returned r
  /\ (let b f := bit0 (f (pr_vt r)) in
      (b happy = true -> b good_recv = true)
      /\ (b good_recv = true -> b good_xmit = true /\ b err_recv = false)
      /\ (b err_recv = true -> b good_xmit = true)
      /\ (b good_xmit = true -> b err_xmit = false)
      /\ (b good_xmit = true \/ b err_xmit = true ->
          xorb (b good_ipv4) (b good_ipv6) = true)
      /\ (b good_ipv4 = true \/ b good_ipv6 = true <-> conn e <> None)
      /\ b good_ipv4 && b good_ipv6 = false).
Proof.
  intros e vt r.
  assert (Hr : vbp_poke (libc := glibc) e (vbp_start_poke vt) = Returned r)
    by (apply returned_spec; vm_compute; reflexivity).
  split; [exact Hr |].
  exact (poke_newest_bits_ordered (dbl := binary64) (libc := glibc) e vt r Hr).
Defined.

Lemma poke_writes_newest_bits_only_witness :
  let e := env_answering [Seg resp_200] (fl 1) in
  let vt := target_probing in
  let r := returned (vbp_poke (libc := glibc) e vt) no_result in
  vbp_poke (libc := glibc) e vt = Returned r
  /\ (forall f,
        In f [good_ipv4; good_ipv6; err_xmit; good_xmit; err_recv;
              good_recv; happy] ->
        Z.shiftr (f (pr_vt r)) 1 = Z.shiftr (f vt) 1)
  /\ vt_backend (pr_vt r) = vt_backend vt /\ probe (pr_vt r) = probe vt
  /\ req (pr_vt r) = req vt /\ req_len (pr_vt r) = req_len vt
  /\ good (pr_vt r) = good vt /\ avg (pr_vt r) = avg vt
  /\ rate (pr_vt r) = rate vt /\ due (pr_vt r) = due vt
  /\ running (pr_vt r) = running vt /\ heap_idx (pr_vt r) = heap_idx vt.
Proof.
  intros e vt r.
  assert (Hr : vbp_poke (libc := glibc) e vt = Returned r)
    by (apply returned_spec; vm_compute; reflexivity).
  split; [exact Hr |].
  exact (poke_writes_newest_bits_only (dbl := binary64) (libc := glibc)
           e vt r Hr).
Defined.

Lemma poke_last_is_round_trip_witness :
  let e := env_answering [Seg resp_200] (fl 1) in
  let vt := fst (inserted probe_unset) in
  let r := returned (vbp_poke (libc := glibc) e (vbp_start_poke vt))
             no_result in
  vbp_poke (libc := glibc) e (vbp_start_poke vt) = Returned r
  /\ last (pr_vt r)
     = if bit0 (good_recv (pr_vt r))
       then @dsub binary64 (t_recv e) (t_start e)
       else @d_of_Z binary64 0.
Proof.
  intros e vt r.
  assert (Hr : vbp_poke (libc := glibc) e (vbp_start_poke vt) = Returned r)
    by (apply returned_spec; vm_compute; reflexivity).
  split; [exact Hr |].
  exact (poke_last_is_round_trip (dbl := binary64) (libc := glibc) e vt r Hr).
Defined.

Lemma poke_silent_peer_is_missed_witness :
  let e := env_answering [Seg resp_200; Quiet] (fl 1) in
  let vt := fst (inserted probe_unset) in
  let r := returned (vbp_poke (libc := glibc) e (vbp_start_poke vt))
             no_result in
  vbp_poke (libc := glibc) e (vbp_start_poke vt) = Returned r
  /\ Forall (fun bs => bs <> []) [resp_200]
  /\ sock e = map Seg [resp_200] ++ Quiet :: []
  /\ bit0 (good_recv (pr_vt r)) = false
  /\ bit0 (err_recv (pr_vt r)) = false
  /\ bit0 (happy (pr_vt r)) = false.
Proof.
  intros e vt r.
  assert (Hr : vbp_poke (libc := glibc) e (vbp_start_poke vt) = Returned r)
    by (apply returned_spec; vm_compute; reflexivity).
  assert (Hn : Forall (fun bs : list byte => bs <> []) [resp_200])
    by (repeat constructor; discriminate).
  split; [exact Hr |]. split; [exact Hn |]. split; [reflexivity |].
  exact (poke_silent_peer_is_missed (dbl := binary64) (libc := glibc)
           e vt r [resp_200] [] Hr Hn eq_refl).
Defined.

Lemma poke_read_error_is_missed_witness :
  let e := env_answering [Seg resp_200; RdErr] (fl 1) in
  let vt := fst (inserted probe_unset) in
  let r := returned (vbp_poke (libc := glibc) e (vbp_start_poke vt))
             no_result in
  vbp_poke (libc := glibc) e (vbp_start_poke vt) = Returned r
  /\ Forall (fun bs => bs <> []) [resp_200]
  /\ sock e = map Seg [resp_200] ++ RdErr :: []
  /\ bit0 (good_recv (pr_vt r)) = false
  /\ bit0 (happy (pr_vt r)) = false
  /\ bit0 (err_recv (pr_vt r)) = bit0 (good_xmit (pr_vt r)).
Proof.
  intros e vt r.
  assert (Hr : vbp_poke (libc := glibc) e (vbp_start_poke vt) = Returned r)
    by (apply returned_spec; vm_compute; reflexivity).
  assert (Hn : Forall (fun bs : list byte => bs <> []) [resp_200])
    by (repeat constructor; discriminate).
  split; [exact Hr |]. split; [exact Hn |]. split; [reflexivity |].
  exact (poke_read_error_is_missed (dbl := binary64) (libc := glibc)
           e vt r [resp_200] [] Hr Hn eq_refl).
Defined.

Lemma poke_resp_buf_bounded_witness :
  let e := env_answering [Seg resp_200] (fl 1) in
  let vt := fst (inserted probe_unset) in
  let r := returned (vbp_poke (libc := glibc) e (vbp_start_poke vt))
             no_result in
  List.length (resp_buf vt) = 128%nat
  /\ vbp_poke (libc := glibc) e (vbp_start_poke vt) = Returned r
  /\ List.length (resp_buf (pr_vt r)) = 128%nat
  /\ (bit0 (good_recv (pr_vt r)) = true ->
      nth_error (resp_buf (pr_vt r)) 127 = Some NUL
      /\ (List.length (cstr (resp_buf (pr_vt r))) <= 127)%nat).
Proof.
  intros e vt r.
  assert (L : List.length (resp_buf vt) = 128%nat)
    by (vm_compute; reflexivity).
  assert (Hr : vbp_poke (libc := glibc) e (vbp_start_poke vt) = Returned r)
    by (apply returned_spec; vm_compute; reflexivity).
  split; [exact L |]. split; [exact Hr |].
  exact (poke_resp_buf_bounded (dbl := binary64) (libc := glibc) e vt r L Hr).
Defined.

Lemma poke_first_127_bytes_witness :
  let e := env_answering [Seg (head_500 ++ tail_200)] (fl 1) in
  let s2 := [Seg (head_500 ++ tail_500)] in
  let vt := target_probing in
  let r1 := returned (vbp_poke (libc := glibc) e vt) no_result in
  List.length (resp_buf vt) = 128%nat
  /\ sock_agree 127 (sock e) s2
  /\ sock_bytes (sock e) < 2 ^ 32
  /\ vbp_poke (libc := glibc) e vt = Returned r1
  /\ exists r2,
       vbp_poke (libc := glibc) (with_sock s2 e) vt = Returned r2
       /\ happy (pr_vt r2) = happy (pr_vt r1).
Proof.
  intros e s2 vt r1.
  assert (L : List.length (resp_buf vt) = 128%nat)
    by (vm_compute; reflexivity).
  assert (A : sock_agree 127 (sock e) s2).
  { apply agree_seg; [reflexivity | reflexivity | apply agree_nil]. }
  assert (B : sock_bytes (sock e) < 2 ^ 32) by (vm_compute; reflexivity).
  assert (Hr : vbp_poke (libc := glibc) e vt = Returned r1)
    by (apply returned_spec; vm_compute; reflexivity).
  split; [exact L |]. split; [exact A |]. split; [exact B |].
  split; [exact Hr |].
  exact (poke_first_127_bytes (dbl := binary64) (libc := glibc) e s2 vt r1
           L A B Hr).
Defined.

Lemma has_poked_threshold_out_of_reach_witness :
  let vt := target_with (probe_with 2 3 3) 7 in
  vt_backend vt = true
  /\ 0 <= window (probe vt) < 2 ^ 32
  /\ 0 <= happy vt < 2 ^ 64
  /\ (window (probe vt) < threshold (probe vt) \/ 64 < threshold (probe vt))
  /\ healthy (snd (fst (vbp_has_poked (fl 7) vt backend_new))) = false.
Proof.
  intros vt.
  assert (Hw : 0 <= window (probe vt) < 2 ^ 32)
    by (change (0 <= 2 < 2 ^ 32); lia).
  assert (Hh : 0 <= happy vt < 2 ^ 64) by (change (0 <= 7 < 2 ^ 64); lia).
  assert (Ht : window (probe vt) < threshold (probe vt)
               \/ 64 < threshold (probe vt))
    by (left; change (2 < 3); lia).
  split; [reflexivity |]. split; [exact Hw |]. split; [exact Hh |].
  split; [exact Ht |].
  exact (has_poked_threshold_out_of_reach (dbl := binary64) (fl 7) vt
           backend_new eq_refl Hw Hh Ht).
Defined.

Lemma task_moves_good_by_one_witness :
  let e := env_answering [Seg resp_500] (fl 1) in
  let vt := fst (inserted probe_unset) in
  let be := snd (inserted probe_unset) in
  let x := returned (task_answered [Seg resp_500]) no_task in
  let vt' := target_left (fst (fst x)) in
  vbp_task (libc := glibc) e (fl 1002) vt be
  = Returned (Some vt', snd (fst x), snd x)
  /\ 0 <= window (probe vt) < 2 ^ 32
  /\ 0 <= happy vt < 2 ^ 64
  /\ good vt = Z.of_nat (ones_below (Z.to_nat (window (probe vt))) (happy vt))
  /\ good vt - 1 <= good vt' <= good vt + 1.
Proof.
  intros e vt be x vt'.
  assert (T : vbp_task (libc := glibc) e (fl 1002) vt be
              = Returned (Some vt', snd (fst x), snd x)).
  { subst vt' x e vt be. unfold task_answered.
    apply task_left_spec; vm_compute; reflexivity. }
  assert (Hw : 0 <= window (probe vt) < 2 ^ 32)
    by (vm_compute; split; [discriminate | reflexivity]).
  assert (Hh : 0 <= happy vt < 2 ^ 64)
    by (vm_compute; split; [discriminate | reflexivity]).
  assert (Hg : good vt
               = Z.of_nat (ones_below (Z.to_nat (window (probe vt)))
                             (happy vt)))
    by (vm_compute; reflexivity).
  split; [exact T |]. split; [exact Hw |]. split; [exact Hh |].
  split; [exact Hg |].
  exact (task_moves_good_by_one (dbl := binary64) (libc := glibc) e (fl 1002)
           vt vt' be (snd (fst x)) (snd x) T Hw Hh Hg).
Defined.

Lemma task_unhappy_keeps_average_witness :
  let e := env_answering [Seg resp_500] (fl 1) in
  let vt := fst (inserted probe_unset) in
  let be := snd (inserted probe_unset) in
  let x := returned (task_answered [Seg resp_500]) no_task in
  let vt' := target_left (fst (fst x)) in
  vbp_task (libc := glibc) e (fl 1002) vt be
  = Returned (Some vt', snd (fst x), snd x)
  /\ bit0 (happy vt') = false
  /\ avg vt' = avg vt /\ rate vt' = rate vt.
Proof.
  intros e vt be x vt'.
  assert (T : vbp_task (libc := glibc) e (fl 1002) vt be
              = Returned (Some vt', snd (fst x), snd x)).
  { subst vt' x e vt be. unfold task_answered.
    apply task_left_spec; vm_compute; reflexivity. }
  assert (Hh : bit0 (happy vt') = false) by (vm_compute; reflexivity).
  split; [exact T |]. split; [exact Hh |].
  exact (task_unhappy_keeps_average (dbl := binary64) (libc := glibc) e
           (fl 1002) vt vt' be (snd (fst x)) (snd x) T Hh).
Defined.

Lemma task_rate_counts_happy_probes_witness :
  let e := env_answering [Seg resp_200] (fl 1) in
  let vt := fst (inserted probe_unset) in
  let be := snd (inserted probe_unset) in
  let x := returned (task_answered [Seg resp_200]) no_task in
  let vt' := target_left (fst (fst x)) in
  vbp_task (libc := glibc) e (fl 1002) vt be
  = Returned (Some vt', snd (fst x), snd x)
  /\ 0 <= 4 <= 4 /\ rate vt = fl 4
  /\ rate vt' = fl (if bit0 (happy vt') then Z.min (4 + 1) 4 else 4).
Proof.
  intros e vt be x vt'.
  assert (T : vbp_task (libc := glibc) e (fl 1002) vt be
              = Returned (Some vt', snd (fst x), snd x)).
  { subst vt' x e vt be. unfold task_answered.
    apply task_left_spec; vm_compute; reflexivity. }
  assert (Hk : 0 <= 4 <= 4) by lia.
  assert (Er : rate vt = fl 4) by (vm_compute; reflexivity).
  split; [exact T |]. split; [exact Hk |]. split; [exact Er |].
  exact (task_rate_counts_happy_probes (libc := glibc) e (fl 1002) vt vt' be
           (snd (fst x)) (snd x) 4 T Hk Er).
Defined.

Lemma vbp_bitmap_injective_witness :
  x48 <> DASH
  /\ 0 <= 5 < 2 ^ 64
  /\ vbp_bitmap x48 5 (bytes "Happy") = vbp_bitmap x48 5 (bytes "Happy")
  /\ 5 = 5.
Proof.
  assert (Hc : x48 <> DASH) by discriminate.
  assert (Hm : 0 <= 5 < 2 ^ 64) by lia.
  split; [exact Hc |]. split; [exact Hm |]. split; [reflexivity |].
  exact (vbp_bitmap_injective x48 5 5 (bytes "Happy") (bytes "Happy")
           Hc Hm Hm eq_refl).
Defined.

Lemma start_poke_scrolls_rows_witness :
  let vt := target_with probe_unset 5 in
  let lbl := bytes "Happy" in
  In (@happy binary64)
    [good_ipv4; good_ipv6; err_xmit; good_xmit; err_recv; good_recv; happy]
  /\ (let old := vbp_bitmap x48 (happy vt) lbl in
      let new := vbp_bitmap x48 (happy (vbp_start_poke vt)) lbl in
      (forall i, (i < 63)%nat ->
         nth_error new (2 + i) = nth_error old (3 + i))
      /\ nth_error new 65 = Some DASH).
Proof.
  intros vt lbl.
  assert (Hf : In (@happy binary64)
                 [good_ipv4; good_ipv6; err_xmit; good_xmit; err_recv;
                  good_recv; happy])
    by (do 6 right; left; reflexivity).
  split; [exact Hf |].
  exact (start_poke_scrolls_rows (dbl := binary64) vt x48 lbl happy Hf).
Defined.

Lemma insert_happy_row_witness :
  be_probe backend_new = false
  /\ (let n := initial (probe (vbp_set_defaults
                                 (alloc_target probe_unset true))) in
      0 <= n <= 64
      /\ exists vt b',
           VBP_Insert backend_new probe_unset None clock = Returned (vt, b')
           /\ vbp_bitmap x48 (happy vt) (bytes "Happy")
              = bytes "  " ++ repeat DASH (64 - Z.to_nat n)
                ++ repeat x48 (Z.to_nat n) ++ bytes " " ++ bytes "Happy"
                ++ [LF]).
Proof.
  split; [reflexivity |]. intros n.
  assert (Hn : 0 <= n <= 64) by (vm_compute; split; discriminate).
  split; [exact Hn |].
  exact (insert_happy_row (dbl := binary64) backend_new probe_unset None
           clock x48 (bytes "Happy") eq_refl Hn).
Defined.

Lemma set_defaults_idempotent_witness :
  let vt := alloc_target probe_unset true in
  0 <= threshold (probe vt) <= UINT_MAX
  /\ 0 <= initial (probe vt) <= UINT_MAX
  /\ vbp_set_defaults (vbp_set_defaults vt) = vbp_set_defaults vt.
Proof.
  intros vt.
  assert (Ht : 0 <= threshold (probe vt) <= UINT_MAX)
    by (vm_compute; split; discriminate).
  assert (Hi : 0 <= initial (probe vt) <= UINT_MAX)
    by (vm_compute; split; discriminate).
  split; [exact Ht |]. split; [exact Hi |].
  exact (set_defaults_idempotent vt Ht Hi).
Defined.

Lemma insert_default_request_passes_assert_witness :
  be_probe backend_new = false /\ request probe_unset = None
  /\ exists vt b',
       VBP_Insert backend_new probe_unset None clock = Returned (vt, b')
       /\ req_len vt = Z.of_nat (List.length (req vt))
       /\ 36 <= req_len vt
       /\ forall e now be,
            vbp_task (libc := glibc) e now vt be
            <> Wrong "assert(vt->req_len > 0)".
Proof.
  split; [reflexivity |]. split; [reflexivity |].
  exact (insert_default_request_passes_assert (dbl := binary64)
           (libc := glibc) backend_new probe_unset None clock eq_refl
           eq_refl).
Defined.

Lemma insert_empty_request_trips_assert_witness :
  be_probe backend_new = false /\ request probe_empty_request = Some []
  /\ exists vt b',
       VBP_Insert backend_new probe_empty_request None clock
       = Returned (vt, b')
       /\ forall e now be,
            vbp_task (libc := glibc) e now vt be
            = Wrong "assert(vt->req_len > 0)".
Proof.
  split; [reflexivity |]. split; [reflexivity |].
  exact (insert_empty_request_trips_assert (dbl := binary64)
           (libc := glibc) backend_new probe_empty_request None clock
           eq_refl eq_refl).
Defined.

Lemma insert_default_is_one_probe_short_witness :
  be_probe backend_new = false /\ initial probe_unset = UINT_MAX
  /\ 0 <= threshold probe_unset <= UINT_MAX
  /\ 0 <= window probe_unset < 2 ^ 32
  /\ (let p' := probe (vbp_set_defaults (alloc_target probe_unset true)) in
      exists vt b',
        VBP_Insert backend_new probe_unset None clock = Returned (vt, b')
        /\ healthy b' = false
        /\ (threshold p' <= window p' -> threshold p' <= 64 ->
            good vt = threshold p' - 1
            /\ forall e now vt1 b1 line,
                 vbp_task (libc := glibc) e now vt b'
                 = Returned (Some vt1, b1, line) ->
                 bit0 (happy vt1) = true ->
                 good vt1 = threshold p' /\ healthy b1 = true)).
Proof.
  assert (Ht : 0 <= threshold probe_unset <= UINT_MAX)
    by (vm_compute; split; discriminate).
  assert (Hw : 0 <= window probe_unset < 2 ^ 32)
    by (vm_compute; split; [discriminate | reflexivity]).
  split; [reflexivity |]. split; [reflexivity |]. split; [exact Ht |].
  split; [exact Hw |].
  exact (insert_default_is_one_probe_short (dbl := binary64) (libc := glibc)
           backend_new probe_unset None clock eq_refl eq_refl Ht Hw).
Defined.

Lemma insert_average_starts_at_zero_witness :
  be_probe backend_new = false
  /\ (let n := initial (probe (vbp_set_defaults
                                 (alloc_target probe_unset true))) in
      0 <= n < 2 ^ 32
      /\ exists vt b',
           VBP_Insert backend_new probe_unset None clock = Returned (vt, b')
           /\ avg vt = fl 0 /\ last vt = fl 0
           /\ rate vt = fl (Z.min (2 * n) 4)).
Proof.
  split; [reflexivity |]. intros n.
  assert (Hn : 0 <= n < 2 ^ 32)
    by (vm_compute; split; [discriminate | reflexivity]).
  split; [exact Hn |].
  exact (insert_average_starts_at_zero backend_new probe_unset None clock
           eq_refl Hn).
Defined.

Lemma insert_remove_cycle_witness :
  be_probe backend_new = false
  /\ VBP_Remove backend_new (alloc_target probe_unset false)
     = Wrong "CHECK_OBJ_NOTNULL(vt, VBP_TARGET_MAGIC)"
  /\ exists vt b',
       VBP_Insert backend_new probe_unset None clock = Returned (vt, b')
       /\ VBP_Insert b' (probe_with 8 3 3) None clock = Wrong "AZ(b->probe)"
       /\ exists b'',
            VBP_Remove b' vt = Returned (None, b'')
            /\ healthy b'' = true /\ be_probe b'' = false
            /\ exists vt2 b2,
                 VBP_Insert b'' (probe_with 8 3 3) None clock
                 = Returned (vt2, b2).
Proof.
  split; [reflexivity |].
  exact (insert_remove_cycle (dbl := binary64) backend_new probe_unset
           (probe_with 8 3 3) None None clock clock eq_refl).
Defined.

Lemma control_alternates_witness :
  be_probe backend_new = false
  /\ exists vt b',
       VBP_Insert backend_new probe_unset None clock = Returned (vt, b')
       /\ VBP_Control (fl 12) (heap_one 10) b' vt false
          = Wrong "assert(vt->heap_idx != BINHEAP_NOIDX)"
       /\ exists vt1 heap1,
            VBP_Control (fl 12) (heap_one 10) b' vt true
            = Returned (vt1, heap1)
            /\ due vt1 = fl 12 /\ In vt1 heap1
            /\ VBP_Control (fl 13) heap1 b' vt1 true
               = Wrong "assert(vt->heap_idx == BINHEAP_NOIDX)"
            /\ exists vt2 heap2,
                 VBP_Control (fl 13) heap1 b' vt1 false
                 = Returned (vt2, heap2)
                 /\ heap_idx vt2 = BINHEAP_NOIDX.
Proof.
  split; [reflexivity |].
  exact (control_alternates (dbl := binary64) backend_new probe_unset None
           clock (heap_one 10) (fl 12) (fl 13) eq_refl).
Defined.

Lemma enable_then_dispatch_witness :
  let vt := fst (inserted probe_unset) in
  let be := snd (inserted probe_unset) in
  be_probe be = true /\ heap_idx vt = BINHEAP_NOIDX
  /\ exists vt1 heap1,
       VBP_Control (fl 12) VBP_Init be vt true = Returned (vt1, heap1)
       /\ heap1 = [vt1]
       /\ vbp_thread (fl 13) heap1
          = if @dltb binary64 (fl 13) (fl 12) then CondWait (fl 12)
            else
              let vt2 :=
                set_heap_idx 1
                  (set_due (@dadd binary64 (fl 13) (interval (probe vt)))
                     (set_running 1 vt)) in
              Submit vt2 [vt2].
Proof.
  intros vt be.
  assert (Hp : be_probe be = true) by (vm_compute; reflexivity).
  assert (Hi : heap_idx vt = BINHEAP_NOIDX) by (vm_compute; reflexivity).
  split; [exact Hp |]. split; [exact Hi |].
  exact (enable_then_dispatch (dbl := binary64) (fl 12) (fl 13) be vt Hp Hi).
Defined.


Lemma remove_releases_exactly_once_witness :
  let e := env_answering [Seg resp_200] (fl 1) in
  let sched := [Worker; Cli; Worker; Worker] in
  let vt := target_running in
  let be := snd (inserted probe_unset) in
  running vt = 1 /\ vt_backend vt = true /\ be_probe be = true
  /\ 0 < req_len vt /\ conn e <> Some AF_OTHER
  /\ In sched [[Cli; Worker; Worker; Worker]; [Worker; Cli; Worker; Worker];
               [Worker; Worker; Cli; Worker]; [Worker; Worker; Worker; Cli]]
  /\ exists w,
       run (libc := glibc) e (fl 1002) sched (submitted vt be) = Returned w
       /\ p_target w = None /\ p_frees w = 1%nat /\ p_task w = Task_done
       /\ healthy (p_backend w) = true /\ be_probe (p_backend w) = false.
Proof.
  intros e sched vt be.
  assert (Hr : running vt = 1) by reflexivity.
  assert (Hb : vt_backend vt = true) by (vm_compute; reflexivity).
  assert (Hp : be_probe be = true) by (vm_compute; reflexivity).
  assert (Hq : 0 < req_len vt) by (vm_compute; reflexivity).
  assert (Hc : conn e <> Some AF_OTHER) by discriminate.
  assert (Hs : In sched
                 [[Cli; Worker; Worker; Worker];
                  [Worker; Cli; Worker; Worker];
                  [Worker; Worker; Cli; Worker];
                  [Worker; Worker; Worker; Cli]])
    by (right; left; reflexivity).
  split; [exact Hr |]. split; [exact Hb |]. split; [exact Hp |].
  split; [exact Hq |]. split; [exact Hc |]. split; [exact Hs |].
  exact (remove_releases_exactly_once (dbl := binary64) (libc := glibc)
           e (fl 1002) sched vt be Hr Hb Hp Hq Hc Hs).
Defined.
